(** * sdaLocal: the record store of [src/sda_local/app.py]

    A shallow embedding of the data layer of the sdaLocal desktop
    application: the four collections kept in [self.data], the backing
    JSON document, the list widgets that index the collections, and the
    handlers that mutate them.

    Handlers are state transformers over the application object; a
    Python exception leaves the mutations done so far in place, so a
    handler returns its result together with the state it reached.  What
    the user types, selects or answers, and what the clock reads, are
    arguments of the handlers.  The builtins [int], [float] and [sum]
    are parameters; [str.strip], [str.lower] and [datetime.strptime] are
    written out.  The tree widgets are modelled as far as the handlers
    depend on them: identifiers are unique, a lookup of a missing item
    raises, and row values come back through ttk's conversion.  The
    layout, the themes and the formatting of numbers are left out. *)

From Stdlib Require Import List String Ascii Bool ZArith NArith Lia PrimFloat.
Import ListNotations.
Local Open Scope string_scope.
Local Open Scope bool_scope.

(** ** Python strings

    A [string] is read as a sequence of code points below 256, the
    Latin-1 range of Python's [str]. *)

Definition LF : string := String (ascii_of_N 10) EmptyString.

(** [c.isspace()] for one character: TAB..CR, FS..US, SPACE, NEL, NBSP. *)
Definition isspace (c : ascii) : bool :=
  let n := N_of_ascii c in
  ((9 <=? n) && (n <=? 13) || (28 <=? n) && (n <=? 32)
   || (n =? 133) || (n =? 160))%N.

Fixpoint lstrip (s : string) : string :=
  match s with
  | EmptyString => EmptyString
  | String c r => if isspace c then lstrip r else s
  end.

Fixpoint rstrip (s : string) : string :=
  match s with
  | EmptyString => EmptyString
  | String c r =>
      match rstrip r with
      | EmptyString => if isspace c then EmptyString else String c EmptyString
      | r' => String c r'
      end
  end.

(** [s.strip()] *)
Definition strip (s : string) : string := rstrip (lstrip s).

(** [c.lower()] for one character: A..Z and the Latin-1 capitals. *)
Definition lower_char (c : ascii) : ascii :=
  let n := N_of_ascii c in
  if ((65 <=? n) && (n <=? 90)
      || (192 <=? n) && (n <=? 222) && negb (n =? 215))%N
  then ascii_of_N (n + 32) else c.

(** [s.lower()] *)
Fixpoint lower (s : string) : string :=
  match s with
  | EmptyString => EmptyString
  | String c r => String (lower_char c) (lower r)
  end.

(** Truth value of a string: [not s] holds of the empty string only. *)
Definition falsy (s : string) : bool :=
  match s with EmptyString => true | _ => false end.

(** [a or b] on strings *)
Definition str_or (a b : string) : string := if falsy a then b else a.

(** ** [datetime.strptime(text, "%Y-%m-%d")]

    The format compiles to the regular expression
    [(?P<Y>\d\d\d\d)-(?P<m>1[0-2]|0[1-9]|[1-9])-(?P<d>3[01]|[12]\d|0[1-9]|[1-9]| [1-9])],
    matched at the start of the text; a match that leaves text over, or
    that names no day of the calendar, is a [ValueError]. *)

Definition isdigit (c : ascii) : bool :=
  let n := N_of_ascii c in ((48 <=? n) && (n <=? 57))%N.

Definition digit (c : ascii) : Z := Z.of_N (N_of_ascii c) - 48.

Definition in_range (lo hi : Z) (c : ascii) : bool :=
  isdigit c && (lo <=? digit c)%Z && (digit c <=? hi)%Z.

(** [\d\d\d\d] *)
Definition match_Y (s : string) : option (Z * string) :=
  match s with
  | String a (String b (String c (String d r))) =>
      if isdigit a && isdigit b && isdigit c && isdigit d
      then Some (1000 * digit a + 100 * digit b + 10 * digit c + digit d, r)%Z
      else None
  | _ => None
  end.

(** One alternative made of a first character in [lo1..hi1] and a
    second in [lo2..hi2]. *)
Definition two_chars (lo1 hi1 lo2 hi2 : Z) (s : string) : list (Z * string) :=
  match s with
  | String a (String b r) =>
      if in_range lo1 hi1 a && in_range lo2 hi2 b
      then [(10 * digit a + digit b, r)%Z] else []
  | _ => []
  end.

Definition one_char (lo hi : Z) (s : string) : list (Z * string) :=
  match s with
  | String a r => if in_range lo hi a then [(digit a, r)] else []
  | _ => []
  end.

Definition space_char (lo hi : Z) (s : string) : list (Z * string) :=
  match s with
  | String a (String b r) =>
      if Ascii.eqb a " " && in_range lo hi b then [(digit b, r)] else []
  | _ => []
  end.

(** The ways [1[0-2]|0[1-9]|[1-9]] matches a prefix, in the order the
    regular-expression engine tries them. *)
Definition match_m (s : string) : list (Z * string) :=
  (two_chars 1 1 0 2 s ++ two_chars 0 0 1 9 s ++ one_char 1 9 s)%list.

(** The same for [3[01]|[12]\d|0[1-9]|[1-9]| [1-9]]. *)
Definition match_d (s : string) : list (Z * string) :=
  (two_chars 3 3 0 1 s ++ two_chars 1 2 0 9 s ++ two_chars 0 0 1 9 s
   ++ one_char 1 9 s ++ space_char 1 9 s)%list.

Definition lit (c : ascii) (s : string) : option string :=
  match s with
  | String c' r => if Ascii.eqb c c' then Some r else None
  | EmptyString => None
  end.

Fixpoint first_some {A B : Type} (f : A -> option B) (l : list A) : option B :=
  match l with
  | [] => None
  | x :: l' => match f x with Some y => Some y | None => first_some f l' end
  end.

(** The first match of the whole expression: year, month, day and the
    text left over. *)
Definition regex_match (s : string) : option (Z * Z * Z * string) :=
  match match_Y s with
  | None => None
  | Some (y, s1) =>
      match lit "-" s1 with
      | None => None
      | Some s2 =>
          first_some
            (fun ms =>
               match lit "-" (snd ms) with
               | None => None
               | Some s4 =>
                   match match_d s4 with
                   | [] => None
                   | (d, s5) :: _ => Some (y, fst ms, d, s5)
                   end
               end)
            (match_m s2)
      end
  end.

Definition is_leap (y : Z) : bool :=
  ((y mod 4 =? 0) && (negb (y mod 100 =? 0) || (y mod 400 =? 0)))%Z.

Definition days_in_month (y m : Z) : Z :=
  (if m =? 2 then (if is_leap y then 29 else 28)
   else if (m =? 4) || (m =? 6) || (m =? 9) || (m =? 11) then 30 else 31)%Z.

(** [datetime.date(y, m, d)] succeeds. *)
Definition valid_date (y m d : Z) : bool :=
  ((1 <=? y) && (y <=? 9999) && (1 <=? m) && (m <=? 12)
   && (1 <=? d) && (d <=? days_in_month y m))%Z.

(** [None] stands for [ValueError]. *)
Definition strptime (s : string) : option (Z * Z * Z) :=
  match regex_match s with
  | Some (y, m, d, EmptyString) =>
      if valid_date y m d then Some (y, m, d) else None
  | _ => None
  end.

(** A calendar date written [YYYY-MM-DD], years 0001 to 9999. *)
Definition iso_date (s : string) : bool :=
  match s with
  | String y1 (String y2 (String y3 (String y4 (String h1
      (String m1 (String m2 (String h2 (String d1 (String d2 EmptyString))))))))) =>
      isdigit y1 && isdigit y2 && isdigit y3 && isdigit y4
      && Ascii.eqb h1 "-" && isdigit m1 && isdigit m2
      && Ascii.eqb h2 "-" && isdigit d1 && isdigit d2
      && valid_date (1000 * digit y1 + 100 * digit y2 + 10 * digit y3 + digit y4)
                    (10 * digit m1 + digit m2) (10 * digit d1 + digit d2)
  | _ => false
  end.

(** ** Floats

    [float] is Python's binary64.  [float(text)], [int(text)] and [sum]
    are builtins and enter the handlers as parameters; the definitions
    below are the instances the scenarios run with. *)

Definition float_of_digit (c : ascii) : float :=
  match digit c with
  | 1%Z => 1%float | 2%Z => 2%float | 3%Z => 3%float
  | 4%Z => 4%float | 5%Z => 5%float | 6%Z => 6%float
  | 7%Z => 7%float | 8%Z => 8%float | 9%Z => 9%float
  | _ => 0%float
  end.

(** Digits read left to right; [scale] counts the digits after the point. *)
Fixpoint decimal_digits (s : string) (acc : float) (frac : bool) (scale : float)
  : option (float * float) :=
  match s with
  | EmptyString => Some (acc, scale)
  | String c r =>
      if isdigit c then
        decimal_digits r (acc * 10 + float_of_digit c)%float frac
                       (if frac then scale * 10 else scale)%float
      else if Ascii.eqb c "." && negb frac then decimal_digits r acc true scale
      else None
  end.

Definition unsigned_decimal (s : string) : option float :=
  match s with
  | String c _ =>
      if isdigit c && (String.length s <=? 15)%nat then
        match decimal_digits s 0%float false 1%float with
        | Some (n, k) => Some (n / k)%float
        | None => None
        end
      else None
  | EmptyString => None
  end.

(** [float(text)] on plain decimal literals of at most fifteen
    characters, the fragment the scenarios use: numerator and power of
    ten are exact, and the division rounds once, as [float] does. *)
Definition float_of_decimal (s : string) : option float :=
  match s with
  | String "-" r => option_map PrimFloat.opp (unsigned_decimal r)
  | String "+" r => unsigned_decimal r
  | _ => unsigned_decimal s
  end.

Fixpoint decimal_value (s : string) (acc : Z) : option Z :=
  match s with
  | EmptyString => Some acc
  | String c r => if isdigit c then decimal_value r (10 * acc + digit c)%Z else None
  end.

Definition unsigned_int (s : string) : option Z :=
  match s with
  | EmptyString => None
  | _ => decimal_value s 0
  end.

(** [int(text)] on plain decimal literals, an optional sign and digits:
    the fragment the scenarios use. *)
Definition int_of_decimal (s : string) : option Z :=
  match s with
  | String "-" r => option_map Z.opp (unsigned_int r)
  | String "+" r => unsigned_int r
  | _ => unsigned_int s
  end.

(** [sum(xs)] as CPython computes it up to 3.11, adding left to right
    from zero; later versions agree wherever the additions are exact. *)
Definition sum_left (xs : list float) : float :=
  fold_left PrimFloat.add xs 0%float.

(** ** Records

    The dataclasses of the source and the dictionary built for a chat
    message.  [asdict] keeps the fields, so a stored dictionary is read
    as the record it was made from. *)

Record Event := mkEvent {
  title : string;
  date : string;
  description : string
}.

Record FinanceEntry := mkFinanceEntry {
  entry_type : string;
  amount : float;
  category : string;
  note : string;
  created_at : string
}.

Record Project := mkProject {
  name : string;
  manager : string;
  start_date : string;
  end_date : string;
  budget : float;
  status : string;
  project_description : string
}.

Record ChatMessage := mkChatMessage {
  sender : string;
  message : string;
  timestamp : string
}.

(** [self.data] when it is a dictionary: each of the four keys is
    absent ([None]) or holds a list of records.  The order of the keys
    is not kept, and dictionaries holding anything else are outside the
    embedding. *)
Record Store := mkStore {
  events : option (list Event);
  finance : option (list FinanceEntry);
  projects : option (list Project);
  chat : option (list ChatMessage)
}.

(** The JSON values that are not objects. *)
Inductive non_dict :=
| JArray
| JString (s : string)
| JNumber (x : float)
| JBool (b : bool)
| JNull.

(** What [json.loads] can return. *)
Inductive pydata :=
| PyDict (d : Store)
| PyOther (v : non_dict).

(** The content of [DATA_FILE], told apart by what reading and decoding
    it does: bytes that are not UTF-8, text that is not JSON, or the
    text of a JSON value.  [json.dumps] writes the last kind, and
    [json.loads] gives the value back. *)
Inductive document :=
| NotUtf8
| NotJson
| JsonText (v : pydata).

Inductive exn :=
| UnicodeDecodeError
| AttributeError
| TypeError
| KeyError (key : string)
| TclError (what : string).

(** The message boxes a handler opens; [askyesno] records the answer. *)
Inductive dialog :=
| showerror (caption text : string)
| showwarning (caption text : string)
| showinfo (caption text : string)
| askyesno (caption text : string) (answer : bool).

(** A [ttk.Treeview]: its rows in display order, each under its item
    identifier, and the selected identifiers. *)
Record Treeview (V : Type) := mkTreeview {
  tv_rows : list (string * V);
  tv_selection : list string
}.
Arguments mkTreeview {V} _ _.
Arguments tv_rows {V} _.
Arguments tv_selection {V} _.

(** What [item(iid)["values"]] hands back for one value: ttk passes
    each through [_convert_stringval], which turns text that [int]
    accepts into that integer. *)
Inductive tk_value :=
| TkStr (s : string)
| TkInt (z : Z).

(** [text == value], for a text of [self.data] and a value read from a
    row: a string equals no integer. *)
Definition py_eq (text : string) (value : tk_value) : bool :=
  match value with
  | TkStr s => String.eqb text s
  | TkInt _ => false
  end.

(** Row values: [(date, title)] for an event; the ledger columns, the
    amount with the sign it is shown with; the project columns. *)
Abbreviation event_row := (string * string)%type.
Abbreviation finance_row := (string * string * (bool * float) * string * string)%type.
Abbreviation project_row := (string * string * string * string * float)%type.

(** The application object: the attributes of [SDALocalApp] the
    handlers read or write, the backing file, the message boxes shown so
    far and the number of scheduled auto-replies. *)
Record App := mkApp {
  data : pydata;
  file : option document;
  events_tree : Treeview event_row;
  event_details : string;
  finance_tree : list finance_row;
  finance_summary : option (float * float * float);
  chat_display : string;
  projects_tree : Treeview project_row;
  project_details : option Project;
  dialogs : list dialog;
  pending_replies : nat
}.

Definition set_data (v : pydata) (a : App) : App :=
  mkApp v (file a) (events_tree a) (event_details a) (finance_tree a)
        (finance_summary a) (chat_display a) (projects_tree a)
        (project_details a) (dialogs a) (pending_replies a).

Definition set_file (v : option document) (a : App) : App :=
  mkApp (data a) v (events_tree a) (event_details a) (finance_tree a)
        (finance_summary a) (chat_display a) (projects_tree a)
        (project_details a) (dialogs a) (pending_replies a).

Definition set_events_tree (v : Treeview event_row) (a : App) : App :=
  mkApp (data a) (file a) v (event_details a) (finance_tree a)
        (finance_summary a) (chat_display a) (projects_tree a)
        (project_details a) (dialogs a) (pending_replies a).

Definition set_event_details (v : string) (a : App) : App :=
  mkApp (data a) (file a) (events_tree a) v (finance_tree a)
        (finance_summary a) (chat_display a) (projects_tree a)
        (project_details a) (dialogs a) (pending_replies a).

Definition set_finance_tree (v : list finance_row) (a : App) : App :=
  mkApp (data a) (file a) (events_tree a) (event_details a) v
        (finance_summary a) (chat_display a) (projects_tree a)
        (project_details a) (dialogs a) (pending_replies a).

Definition set_finance_summary (v : option (float * float * float)) (a : App) : App :=
  mkApp (data a) (file a) (events_tree a) (event_details a) (finance_tree a)
        v (chat_display a) (projects_tree a)
        (project_details a) (dialogs a) (pending_replies a).

Definition set_chat_display (v : string) (a : App) : App :=
  mkApp (data a) (file a) (events_tree a) (event_details a) (finance_tree a)
        (finance_summary a) v (projects_tree a)
        (project_details a) (dialogs a) (pending_replies a).

Definition set_projects_tree (v : Treeview project_row) (a : App) : App :=
  mkApp (data a) (file a) (events_tree a) (event_details a) (finance_tree a)
        (finance_summary a) (chat_display a) v
        (project_details a) (dialogs a) (pending_replies a).

Definition set_project_details (v : option Project) (a : App) : App :=
  mkApp (data a) (file a) (events_tree a) (event_details a) (finance_tree a)
        (finance_summary a) (chat_display a) (projects_tree a)
        v (dialogs a) (pending_replies a).

Definition set_dialogs (v : list dialog) (a : App) : App :=
  mkApp (data a) (file a) (events_tree a) (event_details a) (finance_tree a)
        (finance_summary a) (chat_display a) (projects_tree a)
        (project_details a) v (pending_replies a).

Definition set_pending_replies (v : nat) (a : App) : App :=
  mkApp (data a) (file a) (events_tree a) (event_details a) (finance_tree a)
        (finance_summary a) (chat_display a) (projects_tree a)
        (project_details a) (dialogs a) v.

(** ** Handlers as state transformers *)

Inductive result (A : Type) :=
| Ok (a : A)
| Raise (e : exn).
Arguments Ok {A} _.
Arguments Raise {A} _.

Definition M (A : Type) : Type := App -> result A * App.

Definition ret {A : Type} (a : A) : M A := fun st => (Ok a, st).

Definition bind {A B : Type} (m : M A) (k : A -> M B) : M B :=
  fun st =>
    match m st with
    | (Ok a, st') => k a st'
    | (Raise e, st') => (Raise e, st')
    end.

Definition raise {A : Type} (e : exn) : M A := fun st => (Raise e, st).

Definition gets {A : Type} (f : App -> A) : M A := fun st => (Ok (f st), st).

Definition modify (f : App -> App) : M unit := fun st => (Ok tt, f st).

Declare Scope py_scope.
Delimit Scope py_scope with py.
Notation "x <- m ;; k" := (bind m (fun x => k))
  (at level 61, m at next level, right associativity) : py_scope.
Notation "m ;; k" := (bind m (fun _ => k))
  (at level 61, right associativity) : py_scope.
Local Open Scope py_scope.

Fixpoint for_each {A : Type} (body : A -> M unit) (l : list A) : M unit :=
  match l with
  | [] => ret tt
  | x :: l' => body x ;; for_each body l'
  end.

Definition messagebox (d : dialog) : M unit :=
  modify (fun st => set_dialogs (dialogs st ++ [d])%list st).

(** *** The dictionary [self.data] *)

(** One of the four keys, with how a store is read and written at it. *)
Record key (A : Type) := mkKey {
  key_name : string;
  key_get : Store -> option (list A);
  key_set : option (list A) -> Store -> Store
}.
Arguments key_name {A} _.
Arguments key_get {A} _ _.
Arguments key_set {A} _ _ _.

Definition k_events : key Event :=
  mkKey Event "events" events
        (fun v d => mkStore v (finance d) (projects d) (chat d)).
Definition k_finance : key FinanceEntry :=
  mkKey FinanceEntry "finance" finance
        (fun v d => mkStore (events d) v (projects d) (chat d)).
Definition k_projects : key Project :=
  mkKey Project "projects" projects
        (fun v d => mkStore (events d) (finance d) v (chat d)).
Definition k_chat : key ChatMessage :=
  mkKey ChatMessage "chat" chat
        (fun v d => mkStore (events d) (finance d) (projects d) v).

Definition collection {A : Type} (o : option (list A)) : list A :=
  match o with Some l => l | None => [] end.

Definition empty_store : Store := mkStore (Some []) (Some []) (Some []) (Some []).

(** [self.data.get(k, [])] *)
Definition data_get {A : Type} (k : key A) : M (list A) :=
  fun st =>
    match data st with
    | PyDict d => (Ok (collection (key_get k d)), st)
    | PyOther _ => (Raise AttributeError, st)
    end.

(** [self.data.setdefault(k, []).append(x)] *)
Definition setdefault_append {A : Type} (k : key A) (x : A) : M unit :=
  fun st =>
    match data st with
    | PyDict d =>
        (Ok tt, set_data (PyDict (key_set k (Some (collection (key_get k d) ++ [x])%list) d)) st)
    | PyOther _ => (Raise AttributeError, st)
    end.

(** [self.data[k]] *)
Definition data_index {A : Type} (k : key A) : M (list A) :=
  fun st =>
    match data st with
    | PyDict d =>
        match key_get k d with
        | Some l => (Ok l, st)
        | None => (Raise (KeyError (key_name k)), st)
        end
    | PyOther _ => (Raise TypeError, st)
    end.

(** [self.data[k] = l] *)
Definition data_setitem {A : Type} (k : key A) (l : list A) : M unit :=
  fun st =>
    match data st with
    | PyDict d => (Ok tt, set_data (PyDict (key_set k (Some l) d)) st)
    | PyOther _ => (Raise TypeError, st)
    end.

(** *** Tree widgets *)

(** The errors of the tree widget, with Tk's wording. *)
Definition already_exists (iid : string) : exn :=
  TclError ("Item " ++ iid ++ " already exists").
Definition not_found (iid : string) : exn :=
  TclError ("Item " ++ iid ++ " not found").

Definition tv_item {V : Type} (iid : string) (tv : Treeview V) : option V :=
  option_map snd (find (fun r => String.eqb (fst r) iid) (tv_rows tv)).

(** [insert("", END, iid=iid, values=v)]: an identifier already in the
    tree is refused. *)
Definition tv_insert {V : Type} (iid : string) (v : V) (tv : Treeview V)
  : option (Treeview V) :=
  match tv_item iid tv with
  | Some _ => None
  | None => Some (mkTreeview (tv_rows tv ++ [(iid, v)])%list (tv_selection tv))
  end.

(** [delete(iid)]: the row goes, and leaves the selection. *)
Definition tv_delete {V : Type} (iid : string) (tv : Treeview V) : Treeview V :=
  mkTreeview (filter (fun r => negb (String.eqb (fst r) iid)) (tv_rows tv))
             (filter (fun i => negb (String.eqb i iid)) (tv_selection tv)).

(** [item(iid, values=v)] *)
Definition tv_set {V : Type} (iid : string) (v : V) (tv : Treeview V) : Treeview V :=
  mkTreeview (map (fun r => if String.eqb (fst r) iid then (iid, v) else r) (tv_rows tv))
             (tv_selection tv).

(** A click on a row, in [selectmode="browse"]. *)
Definition tv_select {V : Type} (iid : string) (tv : Treeview V) : Treeview V :=
  match tv_item iid tv with
  | Some _ => mkTreeview (tv_rows tv) [iid]
  | None => tv
  end.

(** ** The handlers of [SDALocalApp] *)

Section Handlers.

(** [int(text)] and [float(text)], [None] for [ValueError]; and [sum]
    over floats. *)
Variable py_int : string -> option Z.
Variable py_float : string -> option float.
Variable py_sum : list float -> float.

(** *** Data handling *)

Definition corrupted_warning : dialog :=
  showwarning "Data error"
    "Existing data file is corrupted. Starting with a fresh set of records.".

(** [_load_data]: only [json.JSONDecodeError] is caught. *)
Definition _load_data : M unit :=
  fun st =>
    match file st with
    | None => (Ok tt, st)
    | Some NotUtf8 => (Raise UnicodeDecodeError, st)
    | Some (JsonText v) => (Ok tt, set_data v st)
    | Some NotJson =>
        (messagebox corrupted_warning ;;
         modify (set_data (PyDict empty_store))) st
    end.

(** [_save_data] *)
Definition _save_data : M unit :=
  modify (fun st => set_file (Some (JsonText (data st))) st).

Definition _on_close : M unit := _save_data.

(** *** Bulletin events *)

(** [_insert_event_row]: the row goes in under the title followed by
    the date; Tk raises when that identifier is in the tree already. *)
Definition _insert_event_row (event : Event) : M unit :=
  fun st =>
    match tv_insert (title event ++ date event) (date event, title event)
                    (events_tree st) with
    | Some tv => (Ok tt, set_events_tree tv st)
    | None => (Raise (already_exists (title event ++ date event)), st)
    end.

(** [ttk._convert_stringval]: [int(value)] where it succeeds, the text
    itself where it raises. *)
Definition _convert_stringval (value : string) : tk_value :=
  match py_int value with
  | Some z => TkInt z
  | None => TkStr value
  end.

Definition read_back (row : event_row) : tk_value * tk_value :=
  (_convert_stringval (fst row), _convert_stringval (snd row)).

(** [self.events_tree.item(iid)["values"]] *)
Definition events_tree_item (iid : string) : M (tk_value * tk_value) :=
  fun st =>
    match tv_item iid (events_tree st) with
    | Some row => (Ok (read_back row), st)
    | None => (Raise (not_found iid), st)
    end.

(** [self.events_tree.delete(iid)] *)
Definition events_tree_delete (iid : string) : M unit :=
  fun st =>
    match tv_item iid (events_tree st) with
    | Some _ => (Ok tt, set_events_tree (tv_delete iid (events_tree st)) st)
    | None => (Raise (not_found iid), st)
    end.

Definition _build_events_tab : M unit :=
  evs <- data_get k_events ;;
  for_each _insert_event_row evs.

(** [_add_event], on the texts of the title, date and description
    widgets.  Clearing the form after the row is inserted is left out. *)
Definition _add_event (title_text date_text description_text : string) : M unit :=
  let title := strip title_text in
  let date_text := strip date_text in
  let description := strip description_text in
  if falsy title || falsy date_text then
    messagebox (showerror "Missing Information"
                  "Please provide both title and date for the event.")
  else
    match strptime date_text with
    | None =>
        messagebox (showerror "Invalid Date" "Date must be in YYYY-MM-DD format.")
    | Some _ =>
        let event := mkEvent title date_text description in
        setdefault_append k_events event ;;
        _insert_event_row event ;;
        _save_data
    end.

(** The test of the list comprehension in [_delete_event], and of the
    loop in [_show_event_details]. *)
Definition event_matches (values : tk_value * tk_value) (event : Event) : bool :=
  py_eq (date event) (fst values) && py_eq (title event) (snd values).

Definition _delete_event : M unit :=
  selected <- gets (fun st => tv_selection (events_tree st)) ;;
  match selected with
  | [] => messagebox (showinfo "No selection" "Please choose an event to delete.")
  | iid :: _ =>
      values <- events_tree_item iid ;;
      events_tree_delete iid ;;
      evs <- data_index k_events ;;
      data_setitem k_events
        (filter (fun event => negb (event_matches values event)) evs) ;;
      modify (set_event_details EmptyString) ;;
      _save_data
  end.

Definition event_text (event : Event) : string :=
  "Title: " ++ title event ++ LF ++ "Date: " ++ date event ++ LF ++ LF
  ++ description event.

Definition _show_event_details : M unit :=
  selected <- gets (fun st => tv_selection (events_tree st)) ;;
  match selected with
  | [] => ret tt
  | iid :: _ =>
      values <- events_tree_item iid ;;
      evs <- data_get k_events ;;
      match find (event_matches values) evs with
      | Some event => modify (set_event_details (event_text event))
      | None => ret tt
      end
  end.

(** *** Income and expenses *)

Definition _insert_finance_row (entry : FinanceEntry) : M unit :=
  modify (fun st =>
    set_finance_tree
      (finance_tree st ++
       [(created_at entry, entry_type entry,
         (String.eqb (lower (entry_type entry)) "expense", amount entry),
         category entry, note entry)])%list st).

(** [_update_finance_summary]: the label holds the three numbers it
    prints. *)
Definition _update_finance_summary : M unit :=
  fin <- data_get k_finance ;;
  let income :=
    py_sum (map amount
              (filter (fun entry => String.eqb (entry_type entry) "Income") fin)) in
  fin' <- data_get k_finance ;;
  let expenses :=
    py_sum (map amount
              (filter (fun entry => String.eqb (lower (entry_type entry)) "expense")
                      fin')) in
  let balance := (income - expenses)%float in
  modify (set_finance_summary (Some (income, expenses, balance))).

Definition _build_finance_tab : M unit :=
  fin <- data_get k_finance ;;
  for_each _insert_finance_row fin ;;
  _update_finance_summary.

(** [_add_finance_entry], on the chosen type, the texts of the amount,
    category and note widgets, and the clock reading. *)
Definition _add_finance_entry
  (entry_type amount_text category_text note_text now : string) : M unit :=
  let amount_text := strip amount_text in
  let category := str_or (strip category_text) "Uncategorized" in
  let note := strip note_text in
  match py_float amount_text with
  | None =>
      messagebox (showerror "Invalid amount"
                    "Please enter a numeric value for the amount.")
  | Some amount =>
      if (amount <=? 0)%float then
        messagebox (showerror "Invalid amount" "Amount must be greater than zero.")
      else
        let entry := mkFinanceEntry entry_type amount category note now in
        setdefault_append k_finance entry ;;
        _insert_finance_row entry ;;
        _update_finance_summary ;;
        _save_data
  end.

(** *** Chat *)

Definition _append_chat (sender message now : string) (save : bool) : M unit :=
  modify (fun st =>
    set_chat_display
      (chat_display st ++ "[" ++ now ++ "] " ++ sender ++ ": " ++ message ++ LF) st) ;;
  if save then
    setdefault_append k_chat (mkChatMessage sender message now) ;;
    _save_data
  else ret tt.

Definition _send_chat_message (text now : string) : M unit :=
  let message := strip text in
  if falsy message then ret tt
  else
    _append_chat "You" message now true ;;
    modify (fun st => set_pending_replies (S (pending_replies st)) st).

(** The callback scheduled by [self.after(300, ...)], when it fires. *)
Definition auto_reply (now : string) : M unit :=
  pending <- gets pending_replies ;;
  match pending with
  | O => ret tt
  | S n =>
      modify (set_pending_replies n) ;;
      _append_chat "Auto-reply" "Message received. We'll follow up soon!" now true
  end.

Fixpoint replay_chat (clock : nat -> string) (i : nat) (l : list ChatMessage) : M unit :=
  match l with
  | [] => ret tt
  | m :: l' =>
      _append_chat (sender m) (message m) (clock i) false ;;
      replay_chat clock (S i) l'
  end.

Definition _build_media_tab (clock : nat -> string) : M unit :=
  msgs <- data_get k_chat ;;
  replay_chat clock 0 msgs.

(** *** Building projects *)

Definition project_values (project : Project) : project_row :=
  (name project, status project, start_date project, end_date project,
   budget project).

Definition _insert_project_row (project : Project) : M unit :=
  fun st =>
    match tv_insert (name project) (project_values project) (projects_tree st) with
    | Some tv => (Ok tt, set_projects_tree tv st)
    | None => (Raise (already_exists (name project)), st)
    end.

(** [self.projects_tree.item(iid, values=v)] *)
Definition projects_tree_set (iid : string) (v : project_row) : M unit :=
  fun st =>
    match tv_item iid (projects_tree st) with
    | Some _ => (Ok tt, set_projects_tree (tv_set iid v (projects_tree st)) st)
    | None => (Raise (not_found iid), st)
    end.

(** [self.projects_tree.delete(iid)] *)
Definition projects_tree_delete (iid : string) : M unit :=
  fun st =>
    match tv_item iid (projects_tree st) with
    | Some _ => (Ok tt, set_projects_tree (tv_delete iid (projects_tree st)) st)
    | None => (Raise (not_found iid), st)
    end.

Definition _build_projects_tab : M unit :=
  ps <- data_get k_projects ;;
  for_each _insert_project_row ps.

Definition _add_project
  (name_text manager_text start_text end_text budget_text status description_text
     : string) : M unit :=
  let name := strip name_text in
  let manager := strip manager_text in
  let start_date := strip start_text in
  let end_date := strip end_text in
  let budget_text := str_or (strip budget_text) "0" in
  let description := strip description_text in
  if falsy name then
    messagebox (showerror "Missing information" "Project name is required.")
  else
    match py_float budget_text with
    | None => messagebox (showerror "Invalid budget" "Budget must be a number.")
    | Some budget =>
        let project :=
          mkProject name manager start_date end_date budget status description in
        setdefault_append k_projects project ;;
        _insert_project_row project ;;
        _save_data
    end.

(** [next((p for p in ... if p["name"] == iid), None)] *)
Definition first_named (iid : string) (ps : list Project) : option Project :=
  find (fun p => String.eqb (name p) iid) ps.

Definition _show_project_details : M unit :=
  selected <- gets (fun st => tv_selection (projects_tree st)) ;;
  match selected with
  | [] => ret tt
  | iid :: _ =>
      ps <- data_get k_projects ;;
      match first_named iid ps with
      | None => ret tt
      | Some project => modify (set_project_details (Some project))
      end
  end.

Definition with_status (new_status : string) (p : Project) : Project :=
  mkProject (name p) (manager p) (start_date p) (end_date p) (budget p)
            new_status (project_description p).

(** [project["status"] = new_status] on the dictionary [first_named]
    found: the same object sits in the list, so the list sees the
    assignment at that position. *)
Fixpoint assign_status (iid new_status : string) (ps : list Project) : list Project :=
  match ps with
  | [] => []
  | p :: ps' =>
      if String.eqb (name p) iid then with_status new_status p :: ps'
      else p :: assign_status iid new_status ps'
  end.

Definition _update_project_status (new_status : string) : M unit :=
  selected <- gets (fun st => tv_selection (projects_tree st)) ;;
  match selected with
  | [] => messagebox (showinfo "No selection" "Select a project to update.")
  | iid :: _ =>
      ps <- data_get k_projects ;;
      match first_named iid ps with
      | None =>
          messagebox (showerror "Missing project"
                        "Selected project could not be found.")
      | Some project =>
          data_setitem k_projects (assign_status iid new_status ps) ;;
          projects_tree_set iid (project_values (with_status new_status project)) ;;
          _save_data ;;
          _show_project_details
      end
  end.

Definition confirm_delete (answer : bool) : dialog :=
  askyesno "Confirm delete" "Are you sure you want to remove this project?" answer.

Definition _delete_project (answer : bool) : M unit :=
  selected <- gets (fun st => tv_selection (projects_tree st)) ;;
  match selected with
  | [] => messagebox (showinfo "No selection" "Select a project to delete.")
  | iid :: _ =>
      messagebox (confirm_delete answer) ;;
      if negb answer then ret tt
      else
        projects_tree_delete iid ;;
        ps <- data_get k_projects ;;
        data_setitem k_projects
          (filter (fun p => negb (String.eqb (name p) iid)) ps) ;;
        modify (set_project_details None) ;;
        _save_data
  end.

(** *** The application as a whole *)

(** The object before [__init__] runs, with [doc] on disk. *)
Definition boot (doc : option document) : App :=
  mkApp (PyDict empty_store) doc (mkTreeview [] []) EmptyString [] None
        EmptyString (mkTreeview [] []) None [] 0.

(** [__init__] from the assignment of [self.data] on. *)
Definition __init__ (clock : nat -> string) : M unit :=
  modify (set_data (PyDict empty_store)) ;;
  _load_data ;;
  _build_events_tab ;;
  _build_finance_tab ;;
  _build_media_tab clock ;;
  _build_projects_tab.

(** A click on a row of a list selects it and fires
    [<<TreeviewSelect>>], to which the detail views are bound; there is
    no clicking on a row that is not there. *)
Definition select_event (iid : string) : M unit :=
  row <- gets (fun st => tv_item iid (events_tree st)) ;;
  match row with
  | None => ret tt
  | Some _ =>
      modify (fun st => set_events_tree (tv_select iid (events_tree st)) st) ;;
      _show_event_details
  end.

Definition select_project (iid : string) : M unit :=
  row <- gets (fun st => tv_item iid (projects_tree st)) ;;
  match row with
  | None => ret tt
  | Some _ =>
      modify (fun st => set_projects_tree (tv_select iid (projects_tree st)) st) ;;
      _show_project_details
  end.

(** What the user, or the timer, does next. *)
Inductive action :=
| AddEvent (title_text date_text description_text : string)
| SelectEvent (iid : string)
| DeleteEvent
| AddFinanceEntry (entry_type amount_text category_text note_text now : string)
| SendChat (text now : string)
| AutoReply (now : string)
| AddProject (name_text manager_text start_text end_text budget_text status
                description_text : string)
| SelectProject (iid : string)
| UpdateProjectStatus (new_status : string)
| DeleteProject (answer : bool).

Definition step (a : action) : M unit :=
  match a with
  | AddEvent t d x => _add_event t d x
  | SelectEvent iid => select_event iid
  | DeleteEvent => _delete_event
  | AddFinanceEntry t a c n now => _add_finance_entry t a c n now
  | SendChat text now => _send_chat_message text now
  | AutoReply now => auto_reply now
  | AddProject n m s e b st x => _add_project n m s e b st x
  | SelectProject iid => select_project iid
  | UpdateProjectStatus new_status => _update_project_status new_status
  | DeleteProject answer => _delete_project answer
  end.

(** Tk reports an exception raised in a callback and carries on: the
    run keeps each result and goes on from the state reached. *)
Fixpoint run (acts : list action) (st : App) : list (result unit) * App :=
  match acts with
  | [] => ([], st)
  | a :: acts' =>
      let (r, st') := step a st in
      let (rs, st'') := run acts' st' in
      (r :: rs, st'')
  end.

End Handlers.

(** ** The vocabulary of the properties *)

(** The list a key of [self.data] holds. *)
Definition stored {A : Type} (k : key A) (st : App) : list A :=
  match data st with
  | PyDict d => collection (key_get k d)
  | PyOther _ => []
  end.

(** A later start of the application on the file a state left behind,
    up to the end of [_load_data]. *)
Definition reload (st : App) : App := snd (_load_data (boot (file st))).

(** The first run: no file on disk. *)
Definition first_run (py_sum : list float -> float) (clock : nat -> string) : App :=
  snd (__init__ py_sum clock (boot None)).

(** A whole session: [__init__], and the main loop if it returns. *)
Definition session (py_int : string -> option Z) (py_float : string -> option float)
  (py_sum : list float -> float) (clock : nat -> string) (doc : option document)
  (acts : list action) : list (result unit) * App :=
  match __init__ py_sum clock (boot doc) with
  | (Ok _, st) =>
      let (rs, st') := run py_int py_float py_sum acts st in (Ok tt :: rs, st')
  | (Raise e, st) => ([Raise e], st)
  end.

(** The file holds the serialization of the state in memory. *)
Definition in_sync (st : App) : Prop := file st = Some (JsonText (data st)).

(** [m] leaves [self.data] and the file alone. *)
Definition untouched {A : Type} (m : M A) : Prop :=
  forall st, data (snd (m st)) = data st /\ file (snd (m st)) = file st.

(** When [m] returns, the file is in step with the memory. *)
Definition ends_saved {A : Type} (m : M A) : Prop :=
  forall st a st', m st = (Ok a, st') -> in_sync st'.

(** When [m] returns, the file is in step with the memory, or [m] did
    nothing to either. *)
Definition saved_or_untouched {A : Type} (m : M A) : Prop :=
  forall st a st',
    m st = (Ok a, st') -> in_sync st' \/ (data st' = data st /\ file st' = file st).

(** [removed P l l']: [l'] is [l] without the elements that satisfy [P],
    the others in place and in order. *)
Inductive removed {A : Type} (P : A -> Prop) : list A -> list A -> Prop :=
| removed_nil : removed P [] []
| removed_drop x l l' : P x -> removed P l l' -> removed P (x :: l) l'
| removed_keep x l l' : ~ P x -> removed P l l' -> removed P (x :: l) (x :: l').

(** The key of an event. *)
Definition has_key (t d : string) (event : Event) : Prop :=
  title event = t /\ date event = d.

(** An event whose date and title are the values read from a row. *)
Definition has_values (values : tk_value * tk_value) (event : Event) : Prop :=
  TkStr (date event) = fst values /\ TkStr (title event) = snd values.

(** The summary in the words of the specification: the amounts of the
    entries of a kind, in ledger order. *)
Definition is_income (entry : FinanceEntry) : Prop := entry_type entry = "Income".

Definition is_expense_any_case (entry : FinanceEntry) : Prop :=
  lower (entry_type entry) = lower "Expense".

Fixpoint amounts_of (P : FinanceEntry -> Prop) (dec : forall e, {P e} + {~ P e})
  (l : list FinanceEntry) : list float :=
  match l with
  | [] => []
  | e :: l' =>
      if dec e then amount e :: amounts_of P dec l' else amounts_of P dec l'
  end.

Definition is_income_dec (e : FinanceEntry) : {is_income e} + {~ is_income e} :=
  string_dec (entry_type e) "Income".

Definition is_expense_dec (e : FinanceEntry)
  : {is_expense_any_case e} + {~ is_expense_any_case e} :=
  string_dec (lower (entry_type e)) (lower "Expense").

(** A document with its missing keys filled in with empty lists. *)
Definition fill (d : Store) : Store :=
  mkStore (Some (collection (events d))) (Some (collection (finance d)))
          (Some (collection (projects d))) (Some (collection (chat d))).

Definition fill_data (v : pydata) : pydata :=
  match v with
  | PyDict d => PyDict (fill d)
  | PyOther o => PyOther o
  end.

Definition fill_doc (doc : document) : document :=
  match doc with
  | JsonText v => JsonText (fill_data v)
  | other => other
  end.

Definition fill_app (st : App) : App :=
  set_file (option_map fill_doc (file st)) (set_data (fill_data (data st)) st).

(** Rows of the events list stand for stored events: where the key
    [events] is absent the list is empty. *)
Definition rows_have_key (st : App) : Prop :=
  match data st with
  | PyDict d => events d = None -> tv_rows (events_tree st) = []
  | PyOther _ => True
  end.

(** The key [events] is there. *)
Definition has_events (st : App) : Prop :=
  match data st with
  | PyDict d => events d <> None
  | PyOther _ => True
  end.

Definition is_key_error {A : Type} (r : result A) : bool :=
  match r with
  | Raise (KeyError _) => true
  | _ => false
  end.

(** [m] does on a filled-in state what it does on the state itself. *)
Definition commutes {A : Type} (m : M A) : Prop :=
  forall st, m (fill_app st) = (fst (m st), fill_app (snd (m st))).

(** Started where rows stand for stored events, [m] ends in such a
    state, and what it raises, if anything, is no [KeyError]. *)
Definition safe {A : Type} (m : M A) : Prop :=
  forall st,
    rows_have_key st ->
    rows_have_key (snd (m st)) /\ is_key_error (fst (m st)) = false.

(** What filling in needs to know of a key. *)
Class Lawful {A : Type} (k : key A) : Prop := {
  get_fill : forall d, key_get k (fill d) = Some (collection (key_get k d));
  fill_set : forall l d, fill (key_set k (Some l) d) = key_set k (Some l) (fill d);
  events_set : forall l d, events (key_set k (Some l) d) = None -> events d = None
}.

(** The scenarios of the specification. *)
Definition noon (_ : nat) : string := "12:00".

Definition easter : Event := mkEvent "Easter Service" "2025-04-20" "Celebration".
Definition easter_again : Event := mkEvent "Easter Service" "2025-04-20" "Duplicate".

Definition picnic : Event := mkEvent "Church Picnic" "2025-05-11" "Bring a dish".

(** A bulletin with the Easter service entered twice around the picnic,
    and the Easter row selected. *)
Definition bulletin : App :=
  let st1 := snd (_add_event "Easter Service" "2025-04-20" "Celebration"
                             (first_run sum_left noon)) in
  let st2 := snd (_add_event "Church Picnic" "2025-05-11" "Bring a dish" st1) in
  let st3 := snd (_add_event "Easter Service" "2025-04-20" "Duplicate" st2) in
  snd (select_event int_of_decimal "Easter Service2025-04-20" st3).

Definition hall (new_status : string) : Project :=
  mkProject "Hall Renovation" "Dana" "2025-01-06" "2025-09-30" 12000%float
            new_status "New floor".
Definition hall_twin : Project :=
  mkProject "Hall Renovation" "Lee" "2025-03-01" EmptyString 500%float
            "Planned" "Paint".

(** Two projects entered under the name "Hall Renovation", and the row
    of that name selected. *)
Definition two_halls : App :=
  let st1 := snd (_add_project float_of_decimal "Hall Renovation" "Dana" "2025-01-06"
                               "2025-09-30" "12000" "Planned" "New floor"
                               (first_run sum_left noon)) in
  let st2 := snd (_add_project float_of_decimal "Hall Renovation" "Lee" "2025-03-01"
                               EmptyString "500" "Planned" "Paint" st1) in
  snd (select_project "Hall Renovation" st2).

(** ** The rest of the window

    What the lists and the chat pane show for a record, and the states
    a session moves through. *)

(** The identifier [_insert_event_row] files a row under. *)
Definition event_iid (event : Event) : string := title event ++ date event.

Definition event_row_of (event : Event) : string * event_row :=
  (event_iid event, (date event, title event)).

Definition finance_row_of (entry : FinanceEntry) : finance_row :=
  (created_at entry, entry_type entry,
   (String.eqb (lower (entry_type entry)) "expense", amount entry),
   category entry, note entry).

Definition project_row_of (project : Project) : string * project_row :=
  (name project, project_values project).

(** The line [_append_chat] writes. *)
Definition chat_line (now sender message : string) : string :=
  "[" ++ now ++ "] " ++ sender ++ ": " ++ message ++ LF.

(** The lines of a replayed chat, the [i]-th stamped with the clock
    reading at its turn. *)
Fixpoint replayed (clock : nat -> string) (i : nat) (l : list ChatMessage) : string :=
  match l with
  | [] => EmptyString
  | m :: l' => chat_line (clock i) (sender m) (message m) ++ replayed clock (S i) l'
  end.

(** The three numbers of the summary label for a ledger. *)
Definition summary_of (py_sum : list float -> float) (fin : list FinanceEntry)
  : float * float * float :=
  let income := py_sum (amounts_of is_income is_income_dec fin) in
  let expenses := py_sum (amounts_of is_expense_any_case is_expense_dec fin) in
  (income, expenses, (income - expenses)%float).

(** The state [__init__] builds from a dictionary [d] found on disk. *)
Definition rendered (py_sum : list float -> float) (clock : nat -> string)
  (d : Store) : App :=
  mkApp (PyDict d) (Some (JsonText (PyDict d)))
        (mkTreeview (map event_row_of (collection (events d))) [])
        EmptyString
        (map finance_row_of (collection (finance d)))
        (Some (summary_of py_sum (collection (finance d))))
        (replayed clock 0 (collection (chat d)))
        (mkTreeview (map project_row_of (collection (projects d))) [])
        None [] 0.

(** Identifiers that can all be inserted into a list: no two alike,
    none in the list already. *)
Definition fresh_in {V : Type} (ids : list string) (tv : Treeview V) : Prop :=
  NoDup ids /\ forall iid, In iid ids -> tv_item iid tv = None.

Definition is_dict (st : App) : Prop := exists d, data st = PyDict d.

(** Every selected identifier is a row of the list. *)
Definition selection_in_rows {V : Type} (tv : Treeview V) : Prop :=
  forall iid, In iid (tv_selection tv) -> tv_item iid tv <> None.

(** Every row of the events list is filed under its title followed by
    its date, and some stored event has that date and title. *)
Definition rows_stand_for_events (st : App) : Prop :=
  forall iid row,
    tv_item iid (events_tree st) = Some row ->
    iid = snd row ++ fst row
    /\ exists e, In e (stored k_events st) /\ date e = fst row /\ title e = snd row.

(** The projects list has a row for a name exactly when a project of
    that name is stored, and the row shows the first such project. *)
Definition rows_mirror_projects (st : App) : Prop :=
  forall iid,
    tv_item iid (projects_tree st)
    = option_map project_values (first_named iid (stored k_projects st)).

(** The ledger shows the stored entries, one row each and in order, and
    the label their summary. *)
Definition ledger_mirrors_finance (py_sum : list float -> float) (st : App) : Prop :=
  finance_tree st = map finance_row_of (stored k_finance st)
  /\ finance_summary st = Some (summary_of py_sum (stored k_finance st)).

(** The states of a running application. *)
Definition steady (py_sum : list float -> float) (st : App) : Prop :=
  is_dict st
  /\ selection_in_rows (events_tree st)
  /\ selection_in_rows (projects_tree st)
  /\ rows_stand_for_events st
  /\ rows_mirror_projects st
  /\ ledger_mirrors_finance py_sum st.

(** A handler returned, or was stopped by an identifier already in a
    list. *)
Definition benign (r : result unit) : Prop :=
  r = Ok tt \/ exists iid, r = Raise (already_exists iid).

(** [l'] is [l] with more at its end. *)
Definition grows {A : Type} (l l' : list A) : Prop := exists tail, l' = (l ++ tail)%list.

(** Started in a state of a running application, [m] ends in one,
    raises nothing but Tk's error for an identifier already in a list,
    and takes nothing out of the ledger or the chat. *)
Definition advances (py_sum : list float -> float) (m : M unit) : Prop :=
  forall st,
    steady py_sum st ->
    steady py_sum (snd (m st))
    /\ benign (fst (m st))
    /\ grows (stored k_finance st) (stored k_finance (snd (m st)))
    /\ grows (stored k_chat st) (stored k_chat (snd (m st))).

(** ** Where the data lives

    [_determine_data_dir] and [DATA_FILE].  A path is where it starts,
    the value of an environment variable, the home directory or the
    directory of the module, and the components joined to it. *)








(** * Properties *)

(** ** The builtins at work *)

Example strptime_easter : strptime "2025-04-20" = Some (2025, 4, 20)%Z.
Proof. reflexivity. Qed.

Example strptime_unpadded : strptime "2025-4-5" = Some (2025, 4, 5)%Z.
Proof. reflexivity. Qed.

Example strptime_feb30 : strptime "2025-02-30" = None.
Proof. reflexivity. Qed.

Example strptime_trailing : strptime "2025-04-201" = None.
Proof. reflexivity. Qed.

Example float_of_decimal_100 : float_of_decimal "100" = Some 100%float.
Proof. reflexivity. Qed.

Example float_of_decimal_neg : float_of_decimal "-5" = Some (-5)%float.
Proof. reflexivity. Qed.

Example float_of_decimal_word : float_of_decimal "ten" = None.
Proof. reflexivity. Qed.

Example strip_text : strip (" Celebration" ++ LF) = "Celebration".
Proof. reflexivity. Qed.

Example int_of_decimal_year : int_of_decimal "2025" = Some 2025%Z.
Proof. reflexivity. Qed.

Example int_of_decimal_date : int_of_decimal "2025-04-20" = None.
Proof. reflexivity. Qed.

(** ** Dates *)

Lemma isdigit_cases (c : ascii) :
  isdigit c = true ->
  In c ["0"; "1"; "2"; "3"; "4"; "5"; "6"; "7"; "8"; "9"]%char.
Proof.
  destruct c as [b0 b1 b2 b3 b4 b5 b6 b7].
  destruct b0, b1, b2, b3, b4, b5, b6, b7; cbv; intro H;
    try discriminate H; tauto.
Qed.

Lemma isdigit_not_space (c : ascii) : isdigit c = true -> isspace c = false.
Proof.
  intro H. apply isdigit_cases in H. simpl in H.
  repeat (destruct H as [H | H]; [subst c; reflexivity |]). contradiction.
Qed.

Ltac digit_cases H :=
  apply isdigit_cases in H; simpl in H;
  repeat (destruct H as [H | H]; [subst |]); [.. | contradiction].

Lemma match_m_two_digits (a b : ascii) (r : string) :
  isdigit a = true -> isdigit b = true ->
  (1 <= 10 * digit a + digit b <= 12)%Z ->
  exists tl, match_m (String a (String b r)) = (10 * digit a + digit b, r)%Z :: tl.
Proof.
  intros Ha Hb Hr.
  digit_cases Ha; digit_cases Hb; cbv in Hr;
    try (exfalso; destruct Hr as [H1 H2]; (now apply H1) || (now apply H2));
    cbv; eexists; reflexivity.
Qed.

Lemma match_d_two_digits (a b : ascii) (r : string) :
  isdigit a = true -> isdigit b = true ->
  (1 <= 10 * digit a + digit b <= 31)%Z ->
  exists tl, match_d (String a (String b r)) = (10 * digit a + digit b, r)%Z :: tl.
Proof.
  intros Ha Hb Hr.
  digit_cases Ha; digit_cases Hb; cbv in Hr;
    try (exfalso; destruct Hr as [H1 H2]; (now apply H1) || (now apply H2));
    cbv; eexists; reflexivity.
Qed.

Lemma days_in_month_le (y m : Z) : (days_in_month y m <= 31)%Z.
Proof.
  unfold days_in_month.
  destruct (m =? 2)%Z; [destruct (is_leap y); lia |].
  destruct ((m =? 4) || (m =? 6) || (m =? 9) || (m =? 11))%Z; lia.
Qed.

Lemma valid_date_bounds (y m d : Z) :
  valid_date y m d = true -> (1 <= m <= 12 /\ 1 <= d <= 31)%Z.
Proof.
  unfold valid_date. intro H.
  repeat (apply andb_prop in H; destruct H as [H ?]).
  pose proof (days_in_month_le y m). lia.
Qed.

(** A calendar date in ISO form is accepted by [strptime], and
    [strip] leaves it as it is. *)
Lemma iso_date_accepted (s : string) :
  iso_date s = true -> strip s = s /\ exists ymd, strptime s = Some ymd.
Proof.
  destruct s as [| y1 [| y2 [| y3 [| y4 [| h1 [| m1 [| m2 [| h2 [| d1 [| d2 [| ? ?]]]]]]]]]]];
    try discriminate.
  unfold iso_date. intro H.
  repeat match goal with
         | E : _ && _ = true |- _ => apply andb_prop in E; destruct E
         | E : Ascii.eqb _ _ = true |- _ => apply Ascii.eqb_eq in E; subst
         end.
  split.
  - unfold strip. simpl lstrip. rewrite (isdigit_not_space y1) by assumption.
    simpl. rewrite (isdigit_not_space d2) by assumption. reflexivity.
  - lazymatch goal with
    | V : valid_date ?y ?m ?d = true |- _ =>
        destruct (valid_date_bounds _ _ _ V) as [Hm Hd]; exists (y, m, d);
        destruct (match_m_two_digits m1 m2 (String "-" (String d1 (String d2 EmptyString)))) as [tm Em];
          [assumption | assumption | exact Hm |];
        destruct (match_d_two_digits d1 d2 EmptyString) as [td Ed];
          [assumption | assumption | exact Hd |];
        unfold strptime, regex_match, match_Y;
        repeat match goal with E : isdigit _ = true |- _ => rewrite E; clear E end;
        cbn [andb lit]; rewrite Ascii.eqb_refl, Em;
        cbn [first_some fst snd lit]; rewrite Ascii.eqb_refl, Ed, V; reflexivity
    end.
Qed.

(** ** The finance summary *)

Lemma income_filter (l : list FinanceEntry) :
  map amount (filter (fun entry => String.eqb (entry_type entry) "Income") l)
  = amounts_of is_income is_income_dec l.
Proof.
  induction l as [| e l IH]; simpl; [reflexivity |].
  unfold is_income_dec at 1.
  destruct (String.eqb_spec (entry_type e) "Income") as [E | E];
    destruct (string_dec (entry_type e) "Income") as [E' | E'];
    try contradiction; simpl; now rewrite IH.
Qed.

Lemma expense_filter (l : list FinanceEntry) :
  map amount (filter (fun entry => String.eqb (lower (entry_type entry)) "expense") l)
  = amounts_of is_expense_any_case is_expense_dec l.
Proof.
  induction l as [| e l IH]; simpl; [reflexivity |].
  unfold is_expense_dec at 1. change (lower "Expense") with "expense".
  destruct (String.eqb_spec (lower (entry_type e)) "expense") as [E | E];
    destruct (string_dec (lower (entry_type e)) "expense") as [E' | E'];
    try contradiction; simpl; now rewrite IH.
Qed.

(** Only the exact spelling counts as income; any casing counts as an
    expense. *)
Example income_is_case_sensitive :
  ~ is_income (mkFinanceEntry "income" 7 "Tithe" EmptyString "2025-04-20 10:00")
  /\ is_expense_any_case
       (mkFinanceEntry "EXPENSE" 7 "Operations" EmptyString "2025-04-20 10:00")
  /\ ~ is_expense_any_case
       (mkFinanceEntry "Income" 7 "Tithe" EmptyString "2025-04-20 10:00").
Proof. repeat split; cbv; discriminate. Qed.


(** ** Loading *)

(** A state taken apart into its attributes, with what is known about
    them rewritten in place. *)
Ltac open_state st :=
  destruct st as [dat fil etree edet ftree fsum cdisp ptree pdet dlg pend];
  cbn [data file events_tree event_details finance_tree finance_summary
       chat_display projects_tree project_details dialogs pending_replies] in *;
  subst.

(** Against C3 as stated.  The file holds a JSON array: no document of
    four collections, yet no decoding error either.  [_load_data] takes
    the array for [self.data], warns of nothing, and [__init__] then
    fails on [self.data.get]. *)
Lemma load_resets_counterexample :
  let st := boot (Some (JsonText (PyOther JArray))) in
  _load_data st = (Ok tt, set_data (PyOther JArray) st)
  /\ data (snd (_load_data st)) <> PyDict empty_store
  /\ dialogs (snd (_load_data st)) = []
  /\ fst (__init__ sum_left noon st) = Raise AttributeError.
Proof.
  cbv zeta. repeat split; try reflexivity. cbn. discriminate.
Qed.

(** C3 (amended). When the text of the backing document is not JSON,
    [_load_data] returns without raising, shows the data-error warning
    once and leaves four empty collections in [self.data]; [__init__]
    then runs to its end. *)
Theorem load_not_json_resets (st : App) :
  file st = Some NotJson ->
  _load_data st
  = (Ok tt,
     set_data (PyDict empty_store)
       (set_dialogs (dialogs st ++ [corrupted_warning])%list st))
  /\ forall py_sum clock,
       fst (__init__ py_sum clock (boot (file st))) = Ok tt
       /\ data (snd (__init__ py_sum clock (boot (file st)))) = PyDict empty_store
       /\ dialogs (snd (__init__ py_sum clock (boot (file st)))) = [corrupted_warning].
Proof.
  intro H. split.
  - unfold _load_data. rewrite H. reflexivity.
  - intros py_sum clock. rewrite H. repeat split; reflexivity.
Qed.

Lemma load_not_json_resets_witness :
  file (boot (Some NotJson)) = Some NotJson
  /\ _load_data (boot (Some NotJson))
     = (Ok tt,
        set_data (PyDict empty_store)
          (set_dialogs [corrupted_warning] (boot (Some NotJson)))).
Proof.
  split; [reflexivity |].
  exact (proj1 (load_not_json_resets (boot (Some NotJson)) eq_refl)).
Defined.

(** Bytes that are not UTF-8 make [read_text] raise, and the handler
    of [_load_data] is for decoding errors of JSON only. *)
Example load_not_utf8_raises :
  _load_data (boot (Some NotUtf8)) = (Raise UnicodeDecodeError, boot (Some NotUtf8)).
Proof. reflexivity. Qed.

(** An absent document is the first run: nothing is loaded and nothing
    is shown. *)
Lemma load_absent (st : App) : file st = None -> _load_data st = (Ok tt, st).
Proof. intro H. unfold _load_data. now rewrite H. Qed.

(** What [_save_data] wrote is what [_load_data] reads. *)
Lemma load_after_save (st st' : App) :
  data (snd (_load_data (set_file (Some (JsonText (data st))) st'))) = data st.
Proof. reflexivity. Qed.

(** ** Events *)

Lemma iso_date_not_empty (s : string) : iso_date s = true -> falsy s = false.
Proof. destruct s; [discriminate | reflexivity]. Qed.

(** What [_add_event] does to an input it accepts, while the row
    identifier is free. *)
Lemma add_event_accepted (t d x : string) (st : App) (d0 : Store) ymd :
  data st = PyDict d0 ->
  falsy (strip t) = false ->
  falsy (strip d) = false ->
  strptime (strip d) = Some ymd ->
  tv_item (strip t ++ strip d) (events_tree st) = None ->
  let event := mkEvent (strip t) (strip d) (strip x) in
  let store := PyDict (key_set k_events (Some (collection (events d0) ++ [event])%list) d0) in
  _add_event t d x st
  = (Ok tt,
     set_file (Some (JsonText store))
       (set_events_tree
          (mkTreeview (tv_rows (events_tree st)
                         ++ [((strip t ++ strip d)%string, (strip d, strip t))])%list
                      (tv_selection (events_tree st)))
          (set_data store st))).
Proof.
  intros Hd Ht Hdt Hp Hrow. open_state st.
  unfold _add_event. rewrite Ht, Hdt, Hp. cbn [orb].
  unfold bind, setdefault_append, _insert_event_row, _save_data, modify, tv_insert.
  cbn [data set_data events_tree title date description key_get k_events].
  rewrite Hrow. reflexivity.
Qed.

(** Against C2 as stated.  A description that ends in a line break, as
    the text widget hands it over, with a title that is not empty and an
    ISO date: the event
    that is saved and loaded again carries the description without the
    line break, and the store holds no event with the description as
    entered. *)
Lemma add_event_roundtrip_counterexample :
  let text := "Celebration" ++ LF in
  let st := snd (_add_event "Easter Service" "2025-04-20" text
                            (first_run sum_left noon)) in
  "Easter Service" <> EmptyString
  /\ iso_date "2025-04-20" = true
  /\ stored k_events (reload st)
     = [mkEvent "Easter Service" "2025-04-20" "Celebration"]
  /\ ~ In (mkEvent "Easter Service" "2025-04-20" text) (stored k_events (reload st)).
Proof.
  cbv zeta. split; [discriminate |]. split; [reflexivity |].
  split; [reflexivity |].
  change (stored k_events _) with [mkEvent "Easter Service" "2025-04-20" "Celebration"].
  intros [H | []]. discriminate H.
Qed.

(** C2 (amended). For every event input whose title is not empty once
    surrounding whitespace is stripped, whose date is an ISO YYYY-MM-DD
    calendar date, and whose row identifier is not in the events list
    yet, [_add_event] returns normally, and loading the document it
    saved yields the store with one more event at the end: the stripped
    title, the date, and the stripped description.  A title and a
    description without surrounding whitespace come back unchanged. *)
Theorem add_event_roundtrip (t d x : string) (st : App) (d0 : Store) :
  data st = PyDict d0 ->
  falsy (strip t) = false ->
  iso_date d = true ->
  tv_item (strip t ++ d) (events_tree st) = None ->
  let st' := snd (_add_event t d x st) in
  fst (_add_event t d x st) = Ok tt
  /\ data (reload st')
     = PyDict (key_set k_events
                 (Some (collection (events d0) ++ [mkEvent (strip t) d (strip x)])%list) d0)
  /\ stored k_events (reload st')
     = (collection (events d0) ++ [mkEvent (strip t) d (strip x)])%list
  /\ (strip t = t -> strip x = x ->
      In (mkEvent t d x) (stored k_events (reload st'))).
Proof.
  intros Hd Ht Hiso Hrow.
  destruct (iso_date_accepted d Hiso) as [Hs [ymd Hp]].
  pose proof (iso_date_not_empty d Hiso) as Hne.
  cbv zeta.
  rewrite (add_event_accepted t d x st d0 ymd); rewrite ?Hs; try assumption.
  cbn [fst snd]. unfold reload, stored.
  cbn. repeat split.
  intros Et Ex. rewrite Et, Ex. apply in_or_app. right. now left.
Qed.

Lemma add_event_roundtrip_witness :
  In easter
     (stored k_events
        (reload (snd (_add_event "Easter Service" "2025-04-20" "Celebration"
                                 (first_run sum_left noon))))).
Proof.
  refine (proj2 (proj2 (proj2
    (add_event_roundtrip "Easter Service" "2025-04-20" "Celebration"
       (first_run sum_left noon) empty_store _ _ _ _))) _ _);
    reflexivity.
Defined.

Lemma event_matches_values (values : tk_value * tk_value) (e : Event) :
  event_matches values e = true <-> has_values values e.
Proof.
  unfold event_matches, has_values.
  destruct values as [[d | z] [t | z']]; cbn [fst snd py_eq];
    rewrite ?andb_true_iff, ?String.eqb_eq;
    (split; [intros [H1 H2]; try discriminate; now subst
            | intros [H1 H2]; try discriminate;
              injection H1 as <-; injection H2 as <-; now split]).
Qed.

(** A date and a title that do not read as integers come back from the
    row as they went in, and match the events of that key. *)
Lemma read_back_text (py_int : string -> option Z) (dt tl : string) :
  py_int dt = None -> py_int tl = None ->
  read_back py_int (dt, tl) = (TkStr dt, TkStr tl).
Proof.
  intros Hd Ht. unfold read_back, _convert_stringval. cbn [fst snd].
  now rewrite Hd, Ht.
Qed.

Lemma has_values_text (dt tl : string) (e : Event) :
  has_values (TkStr dt, TkStr tl) e <-> has_key tl dt e.
Proof.
  unfold has_values, has_key. cbn [fst snd]. split.
  - intros [H1 H2]. injection H1 as <-. injection H2 as <-. now split.
  - intros [<- <-]. now split.
Qed.

Lemma filter_removed {A : Type} (P : A -> Prop) (p : A -> bool) :
  (forall x, p x = true <-> P x) ->
  forall l, removed P l (filter (fun x => negb (p x)) l).
Proof.
  intros Hp l. induction l as [| x l IH]; cbn [filter]; [constructor |].
  destruct (p x) eqn:E; cbn [negb].
  - apply removed_drop; [now apply Hp | exact IH].
  - apply removed_keep; [| exact IH].
    intro H. apply Hp in H. congruence.
Qed.



(** What [_delete_event] does when a row is selected and the key
    [events] is there. *)
Lemma delete_event_selected (py_int : string -> option Z) (st : App) (d0 : Store)
  (evs : list Event) (iid : string) (rest : list string) (row : event_row) :
  data st = PyDict d0 ->
  events d0 = Some evs ->
  tv_selection (events_tree st) = iid :: rest ->
  tv_item iid (events_tree st) = Some row ->
  let store :=
    PyDict (key_set k_events
              (Some (filter (fun event =>
                               negb (event_matches (read_back py_int row) event)) evs))
              d0) in
  _delete_event py_int st
  = (Ok tt,
     set_file (Some (JsonText store))
       (set_event_details EmptyString
          (set_data store (set_events_tree (tv_delete iid (events_tree st)) st)))).
Proof.
  intros Hd Hev Hsel Hrow. open_state st.
  unfold _delete_event. cbv [bind gets events_tree]. rewrite Hsel.
  cbv [events_tree_item events_tree]. rewrite Hrow.
  cbv [events_tree_delete events_tree]. rewrite Hrow.
  cbv [modify data_index data_setitem _save_data data set_events_tree set_data
       set_event_details key_get k_events].
  rewrite Hev. reflexivity.
Qed.

(** Without a selection [_delete_event] only says so. *)
Lemma delete_event_no_selection (py_int : string -> option Z) (st : App) :
  tv_selection (events_tree st) = [] ->
  _delete_event py_int st
  = (Ok tt,
     set_dialogs
       (dialogs st ++ [showinfo "No selection" "Please choose an event to delete."])%list
       st).
Proof.
  intro Hsel. unfold _delete_event, bind, gets. now rewrite Hsel.
Qed.



Example delete_event_bulletin :
  stored k_events (snd (_delete_event int_of_decimal bulletin)) = [picnic].
Proof. reflexivity. Qed.

(** A title that reads as an integer comes back from its row as that
    integer, which equals no stored title: deleting the row leaves the
    event in the collection. *)
Example delete_event_numeric_title :
  let st1 := snd (_add_event "2025" "2025-04-20" "Budget meeting"
                             (first_run sum_left noon)) in
  let st2 := snd (select_event int_of_decimal "20252025-04-20" st1) in
  let r := _delete_event int_of_decimal st2 in
  read_back int_of_decimal ("2025-04-20", "2025") = (TkStr "2025-04-20", TkInt 2025)
  /\ fst r = Ok tt
  /\ tv_rows (events_tree (snd r)) = []
  /\ stored k_events (snd r) = [mkEvent "2025" "2025-04-20" "Budget meeting"].
Proof. cbv zeta. repeat split; reflexivity. Qed.

(** *** Two events under one key *)

Lemma tv_item_insert {V : Type} (iid : string) (v : V) (tv : Treeview V)
  (sel : list string) :
  tv_item iid tv = None ->
  tv_item iid (mkTreeview (tv_rows tv ++ [(iid, v)])%list sel) = Some v.
Proof.
  unfold tv_item. cbn [tv_rows]. induction (tv_rows tv) as [| r rows IH]; cbn.
  - now rewrite String.eqb_refl.
  - destruct (String.eqb (fst r) iid); [discriminate | exact IH].
Qed.

(** What [_add_event] does to an input it accepts when the row
    identifier is taken: the event is appended, the insertion of the row
    raises, and [_save_data] is not reached. *)
Lemma add_event_duplicate (t d x : string) (st : App) (d0 : Store) ymd v :
  data st = PyDict d0 ->
  falsy (strip t) = false ->
  falsy (strip d) = false ->
  strptime (strip d) = Some ymd ->
  tv_item (strip t ++ strip d) (events_tree st) = Some v ->
  let event := mkEvent (strip t) (strip d) (strip x) in
  _add_event t d x st
  = (Raise (already_exists (strip t ++ strip d)),
     set_data
       (PyDict (key_set k_events (Some (collection (events d0) ++ [event])%list) d0))
       st).
Proof.
  intros Hd Ht Hdt Hp Hrow. open_state st.
  unfold _add_event. rewrite Ht, Hdt, Hp. cbn [orb].
  unfold bind, setdefault_append, _insert_event_row, _save_data, modify, tv_insert.
  cbn [data set_data events_tree title date description key_get k_events].
  rewrite Hrow. reflexivity.
Qed.

(** A click on a row that is there selects it and touches nothing but
    the selection and the detail view. *)
Lemma select_event_row (py_int : string -> option Z) (iid : string) (st : App)
  (d0 : Store) v :
  data st = PyDict d0 ->
  tv_item iid (events_tree st) = Some v ->
  exists details,
    select_event py_int iid st
    = (Ok tt,
       set_event_details details
         (set_events_tree (mkTreeview (tv_rows (events_tree st)) [iid]) st)).
Proof.
  intros Hd Hrow. open_state st.
  unfold select_event, bind, gets, modify. cbn [events_tree]. rewrite Hrow.
  cbn [events_tree]. unfold tv_select. rewrite Hrow.
  unfold _show_event_details, bind, gets, events_tree_item, data_get, modify, ret.
  cbn [events_tree set_events_tree tv_selection data].
  assert (E : tv_item iid (mkTreeview (tv_rows etree) [iid]) = Some v)
    by exact Hrow.
  rewrite E. cbn [data set_events_tree key_get k_events].
  destruct (find (event_matches (read_back py_int v)) (collection (events d0)))
    as [e |].
  - exists (event_text e). reflexivity.
  - exists edet. reflexivity.
Qed.



(** The scenario as it runs: the second addition raises, the store
    holds both events, the file only the first; after the deletion the
    store is empty and the file agrees. *)
Example easter_twice :
  let st0 := first_run sum_left noon in
  let r1 := _add_event "Easter Service" "2025-04-20" "Celebration" st0 in
  let r2 := _add_event "Easter Service" "2025-04-20" "Duplicate" (snd r1) in
  let r3 := select_event int_of_decimal "Easter Service2025-04-20" (snd r2) in
  let r4 := _delete_event int_of_decimal (snd r3) in
  fst r1 = Ok tt
  /\ fst r2 = Raise (TclError "Item Easter Service2025-04-20 already exists")
  /\ stored k_events (snd r2) = [easter; easter_again]
  /\ stored k_events (reload (snd r2)) = [easter]
  /\ fst r4 = Ok tt
  /\ stored k_events (snd r4) = []
  /\ stored k_events (reload (snd r4)) = [].
Proof. cbv zeta. repeat split; reflexivity. Qed.

(** ** Finance entries *)

(** What [_add_finance_entry] does to an amount it accepts. *)
Lemma add_finance_entry_accepted (py_float : string -> option float)
  (py_sum : list float -> float) (ty a c n now : string) (st : App) (d0 : Store)
  (v : float) :
  data st = PyDict d0 ->
  py_float (strip a) = Some v ->
  (v <=? 0)%float = false ->
  let entry := mkFinanceEntry ty v (str_or (strip c) "Uncategorized") (strip n) now in
  let fin := (collection (finance d0) ++ [entry])%list in
  fst (_add_finance_entry py_float py_sum ty a c n now st) = Ok tt
  /\ data (snd (_add_finance_entry py_float py_sum ty a c n now st))
     = PyDict (key_set k_finance (Some fin) d0)
  /\ in_sync (snd (_add_finance_entry py_float py_sum ty a c n now st))
  /\ finance_summary (snd (_add_finance_entry py_float py_sum ty a c n now st))
     = Some (py_sum (amounts_of is_income is_income_dec fin),
             py_sum (amounts_of is_expense_any_case is_expense_dec fin),
             (py_sum (amounts_of is_income is_income_dec fin)
              - py_sum (amounts_of is_expense_any_case is_expense_dec fin))%float).
Proof.
  intros Hd Hf Hpos. open_state st.
  unfold _add_finance_entry. rewrite Hf, Hpos.
  cbv [bind setdefault_append _insert_finance_row _update_finance_summary
       data_get _save_data modify in_sync
       data set_data set_finance_tree set_finance_summary set_file file
       finance_summary key_get key_set k_finance finance collection fst snd].
  rewrite income_filter, expense_filter. repeat split; reflexivity.
Qed.

(** C5. When [float] raises on the amount text, or gives a value that
    is at most zero, [_add_finance_entry] shows the "Invalid amount"
    error and changes nothing else: [self.data], the file and the lists
    are as before.  When the amount is accepted, the entry is appended
    with the category "Uncategorized" if the category text is blank,
    and with the stripped category text otherwise. *)
Theorem add_finance_entry_validation (py_float : string -> option float)
  (py_sum : list float -> float) (ty a c n now : string) (st : App) :
  ((py_float (strip a) = None
    \/ exists v, py_float (strip a) = Some v /\ (v <=? 0)%float = true) ->
   exists text,
     _add_finance_entry py_float py_sum ty a c n now st
     = (Ok tt, set_dialogs (dialogs st ++ [showerror "Invalid amount" text])%list st))
  /\ (forall v d0,
         py_float (strip a) = Some v ->
         (v <=? 0)%float = false ->
         data st = PyDict d0 ->
         fst (_add_finance_entry py_float py_sum ty a c n now st) = Ok tt
         /\ stored k_finance (snd (_add_finance_entry py_float py_sum ty a c n now st))
            = (collection (finance d0)
               ++ [mkFinanceEntry ty v
                     (if falsy (strip c) then "Uncategorized" else strip c)
                     (strip n) now])%list).
Proof.
  split.
  - intros [Hnone | [v [Hsome Hle]]]; unfold _add_finance_entry.
    + rewrite Hnone. eexists. reflexivity.
    + rewrite Hsome, Hle. eexists. reflexivity.
  - intros v d0 Hf Hpos Hd.
    destruct (add_finance_entry_accepted py_float py_sum ty a c n now st d0 v Hd Hf Hpos)
      as [Hok [Hdata _]].
    split; [exact Hok |]. unfold stored. rewrite Hdata. reflexivity.
Qed.

Lemma add_finance_entry_validation_witness :
  (exists text,
      _add_finance_entry float_of_decimal sum_left "Income" "ten" "Tithe" EmptyString
                         "2025-04-20 10:00" (first_run sum_left noon)
      = (Ok tt,
         set_dialogs [showerror "Invalid amount" text] (first_run sum_left noon)))
  /\ (exists text,
         _add_finance_entry float_of_decimal sum_left "Income" "-3" "Tithe" EmptyString
                            "2025-04-20 10:00" (first_run sum_left noon)
         = (Ok tt,
            set_dialogs [showerror "Invalid amount" text] (first_run sum_left noon)))
  /\ stored k_finance
       (snd (_add_finance_entry float_of_decimal sum_left "Income" "100" "  " EmptyString
                                "2025-04-20 10:00" (first_run sum_left noon)))
     = [mkFinanceEntry "Income" 100 "Uncategorized" EmptyString "2025-04-20 10:00"].
Proof.
  split; [| split].
  - apply (proj1 (add_finance_entry_validation float_of_decimal sum_left
                    "Income" "ten" "Tithe" EmptyString "2025-04-20 10:00"
                    (first_run sum_left noon))).
    left. reflexivity.
  - apply (proj1 (add_finance_entry_validation float_of_decimal sum_left
                    "Income" "-3" "Tithe" EmptyString "2025-04-20 10:00"
                    (first_run sum_left noon))).
    right. exists (-3)%float. split; reflexivity.
  - apply (proj2 (add_finance_entry_validation float_of_decimal sum_left
                    "Income" "100" "  " EmptyString "2025-04-20 10:00"
                    (first_run sum_left noon)) 100%float empty_store);
      reflexivity.
Defined.

(** Zero, and not-a-number: the first is refused, the second is not at
    most zero and goes through. *)
Example add_finance_entry_edge :
  (0 <=? 0)%float = true /\ (nan <=? 0)%float = false.
Proof. split; reflexivity. Qed.

(** ** Projects *)

(** Against C6 as stated.  A budget below zero: [_add_project] shows
    no error and stores the project with that budget. *)
Lemma add_project_negative_budget_counterexample :
  let r := _add_project float_of_decimal "Hall Renovation" "Dana" "2025-01-06"
                        "2025-09-30" "-5" "Planned" "New floor"
                        (first_run sum_left noon) in
  float_of_decimal "-5" = Some (-5)%float
  /\ ((-5) <? 0)%float = true
  /\ fst r = Ok tt
  /\ dialogs (snd r) = []
  /\ stored k_projects (snd r)
     = [mkProject "Hall Renovation" "Dana" "2025-01-06" "2025-09-30" (-5) "Planned"
                  "New floor"].
Proof. cbv zeta. repeat split; reflexivity. Qed.

(** C6 (amended). [_add_project] shows the "Missing information" error
    when the stripped name is empty, and the "Invalid budget" error
    when [float] raises on the budget text, a blank text read as 0; in
    both cases nothing else changes.  Otherwise it shows no error and
    appends the project with the budget [float] returned, whatever its
    sign. *)
Theorem add_project_validation (py_float : string -> option float)
  (n m s e b status x : string) (st : App) :
  (falsy (strip n) = true ->
   _add_project py_float n m s e b status x st
   = (Ok tt,
      set_dialogs
        (dialogs st ++ [showerror "Missing information" "Project name is required."])%list
        st))
  /\ (falsy (strip n) = false ->
      py_float (str_or (strip b) "0") = None ->
      _add_project py_float n m s e b status x st
      = (Ok tt,
         set_dialogs
           (dialogs st ++ [showerror "Invalid budget" "Budget must be a number."])%list
           st))
  /\ (forall v d0,
         falsy (strip n) = false ->
         py_float (str_or (strip b) "0") = Some v ->
         data st = PyDict d0 ->
         dialogs (snd (_add_project py_float n m s e b status x st)) = dialogs st
         /\ stored k_projects (snd (_add_project py_float n m s e b status x st))
            = (collection (projects d0)
               ++ [mkProject (strip n) (strip m) (strip s) (strip e) v status
                             (strip x)])%list).
Proof.
  split; [| split].
  - intro Hn. unfold _add_project. now rewrite Hn.
  - intros Hn Hb. unfold _add_project. now rewrite Hn, Hb.
  - intros v d0 Hn Hb Hd. open_state st.
    unfold _add_project. rewrite Hn, Hb.
    unfold bind, setdefault_append, _insert_project_row, _save_data, modify, stored.
    cbn [data set_data projects_tree].
    destruct (tv_insert _ _ ptree); split; reflexivity.
Qed.

Lemma add_project_validation_witness :
  _add_project float_of_decimal "  " "Dana" EmptyString EmptyString "100" "Planned"
               EmptyString (first_run sum_left noon)
  = (Ok tt,
     set_dialogs [showerror "Missing information" "Project name is required."]
                 (first_run sum_left noon))
  /\ _add_project float_of_decimal "Hall Renovation" "Dana" EmptyString EmptyString
                  "a lot" "Planned" EmptyString (first_run sum_left noon)
     = (Ok tt,
        set_dialogs [showerror "Invalid budget" "Budget must be a number."]
                    (first_run sum_left noon))
  /\ stored k_projects
       (snd (_add_project float_of_decimal "Hall Renovation" "Dana" "2025-01-06"
                          "2025-09-30" EmptyString "Planned" "New floor"
                          (first_run sum_left noon)))
     = [mkProject "Hall Renovation" "Dana" "2025-01-06" "2025-09-30" 0 "Planned"
                  "New floor"].
Proof.
  split; [| split].
  - apply (proj1 (add_project_validation float_of_decimal "  " "Dana" EmptyString
                    EmptyString "100" "Planned" EmptyString (first_run sum_left noon))).
    reflexivity.
  - apply (proj1 (proj2 (add_project_validation float_of_decimal "Hall Renovation"
                           "Dana" EmptyString EmptyString "a lot" "Planned"
                           EmptyString (first_run sum_left noon))));
      reflexivity.
  - apply (proj2 (proj2 (add_project_validation float_of_decimal "Hall Renovation"
                           "Dana" "2025-01-06" "2025-09-30" EmptyString "Planned"
                           "New floor" (first_run sum_left noon)))
             0%float empty_store);
      reflexivity.
Defined.

Lemma first_named_split (iid new_status : string) (ps : list Project) (p : Project) :
  first_named iid ps = Some p ->
  exists before after,
    ps = (before ++ p :: after)%list
    /\ name p = iid
    /\ (forall q, In q before -> name q <> iid)
    /\ assign_status iid new_status ps
       = (before ++ with_status new_status p :: after)%list.
Proof.
  unfold first_named. induction ps as [| q ps IH]; cbn [find assign_status];
    [discriminate |].
  destruct (String.eqb_spec (name q) iid) as [E | E].
  - intro H. injection H as ->. exists [], ps. cbn. repeat split; tauto.
  - intro H. destruct (IH H) as [before [after [E1 [E2 [E3 E4]]]]].
    exists (q :: before), after. cbn. rewrite E1 at 1. rewrite E4.
    repeat split; try assumption.
    intros q' [<- | Hin]; [exact E | now apply E3].
Qed.

Lemma first_named_assigned (iid new_status : string) (ps : list Project) (p : Project) :
  first_named iid ps = Some p ->
  first_named iid (assign_status iid new_status ps) = Some (with_status new_status p).
Proof.
  unfold first_named. induction ps as [| q ps IH]; cbn [find assign_status];
    [discriminate |].
  destruct (String.eqb (name q) iid) eqn:E.
  - intro H. injection H as ->. cbn [find name with_status]. now rewrite E.
  - intro H. cbn [find]. rewrite E. now apply IH.
Qed.

(** What [_update_project_status] does when the selected name is found. *)
Lemma update_project_status_found (new_status : string) (st : App) (d0 : Store)
  (iid : string) (rest : list string) (p : Project) (row : project_row) :
  data st = PyDict d0 ->
  tv_selection (projects_tree st) = iid :: rest ->
  tv_item iid (projects_tree st) = Some row ->
  first_named iid (collection (projects d0)) = Some p ->
  let store :=
    PyDict (key_set k_projects
              (Some (assign_status iid new_status (collection (projects d0)))) d0) in
  _update_project_status new_status st
  = (Ok tt,
     set_project_details (Some (with_status new_status p))
       (set_file (Some (JsonText store))
          (set_projects_tree
             (tv_set iid (project_values (with_status new_status p)) (projects_tree st))
             (set_data store st)))).
Proof.
  intros Hd Hsel Hrow Hfirst. open_state st.
  unfold _update_project_status, bind, gets. cbn [projects_tree]. rewrite Hsel.
  unfold data_get. cbn [data key_get k_projects]. rewrite Hfirst.
  cbv [data_setitem projects_tree_set data set_data projects_tree]. rewrite Hrow.
  cbv [_save_data modify _show_project_details bind gets data_get
       projects_tree set_projects_tree set_file data].
  cbn [tv_set tv_selection key_get key_set k_projects projects collection].
  rewrite Hsel. cbn [projects collection].
  rewrite (first_named_assigned iid new_status _ p Hfirst). reflexivity.
Qed.

(** C8. With a row selected, [_update_project_status] looks the name up
    and, when it finds it, returns normally having assigned the new
    status to the first project of that name only: the projects before
    it (none of that name) and all the projects after it (of that name
    or not) are as they were, its other fields are as they were, and so
    are the other collections. *)
Theorem update_project_status_first_match (new_status : string) (st : App)
  (d0 : Store) (iid : string) (rest : list string) (p : Project) (row : project_row) :
  data st = PyDict d0 ->
  tv_selection (projects_tree st) = iid :: rest ->
  tv_item iid (projects_tree st) = Some row ->
  first_named iid (collection (projects d0)) = Some p ->
  exists before after p',
    collection (projects d0) = (before ++ p :: after)%list
    /\ name p = iid
    /\ (forall q, In q before -> name q <> iid)
    /\ fst (_update_project_status new_status st) = Ok tt
    /\ data (snd (_update_project_status new_status st))
       = PyDict (mkStore (events d0) (finance d0)
                         (Some (before ++ p' :: after)%list) (chat d0))
    /\ status p' = new_status
    /\ name p' = name p /\ manager p' = manager p
    /\ start_date p' = start_date p /\ end_date p' = end_date p
    /\ budget p' = budget p /\ project_description p' = project_description p.
Proof.
  intros Hd Hsel Hrow Hfirst.
  destruct (first_named_split iid new_status _ p Hfirst)
    as [before [after [E1 [E2 [E3 E4]]]]].
  exists before, after, (with_status new_status p).
  rewrite (update_project_status_found new_status st d0 iid rest p row) by assumption.
  cbn [fst snd]. rewrite E4.
  repeat split; try assumption; reflexivity.
Qed.

Lemma update_project_status_first_match_witness :
  exists before after p',
    [hall "Planned"; hall_twin] = (before ++ hall "Planned" :: after)%list
    /\ name (hall "Planned") = "Hall Renovation"
    /\ (forall q, In q before -> name q <> "Hall Renovation")
    /\ fst (_update_project_status "Completed" two_halls) = Ok tt
    /\ data (snd (_update_project_status "Completed" two_halls))
       = PyDict (mkStore (Some []) (Some []) (Some (before ++ p' :: after)%list)
                         (Some []))
    /\ status p' = "Completed"
    /\ name p' = name (hall "Planned") /\ manager p' = manager (hall "Planned")
    /\ start_date p' = start_date (hall "Planned")
    /\ end_date p' = end_date (hall "Planned")
    /\ budget p' = budget (hall "Planned")
    /\ project_description p' = project_description (hall "Planned").
Proof.
  apply (update_project_status_first_match "Completed" two_halls
           (mkStore (Some []) (Some []) (Some [hall "Planned"; hall_twin]) (Some []))
           "Hall Renovation" [] (hall "Planned")
           (project_values (hall "Planned")));
    reflexivity.
Defined.

(** The scenario: of two projects named "Hall Renovation" only the
    first is completed. *)
Example hall_renovation_completed :
  stored k_projects two_halls = [hall "Planned"; hall_twin]
  /\ stored k_projects (snd (_update_project_status "Completed" two_halls))
     = [hall "Completed"; hall_twin].
Proof. split; reflexivity. Qed.

(** A selected name that no project carries is reported, and nothing
    else changes. *)
Lemma update_project_status_missing (new_status : string) (st : App) (d0 : Store)
  (iid : string) (rest : list string) :
  data st = PyDict d0 ->
  tv_selection (projects_tree st) = iid :: rest ->
  first_named iid (collection (projects d0)) = None ->
  _update_project_status new_status st
  = (Ok tt,
     set_dialogs
       (dialogs st
        ++ [showerror "Missing project" "Selected project could not be found."])%list
       st).
Proof.
  intros Hd Hsel Hfirst. open_state st.
  unfold _update_project_status, bind, gets. cbn [projects_tree]. rewrite Hsel.
  unfold data_get. cbn [data key_get k_projects]. now rewrite Hfirst.
Qed.

(** ** Documents with missing keys *)

#[global] Instance lawful_events : Lawful k_events.
Proof. split; intros; try reflexivity. discriminate. Qed.

#[global] Instance lawful_finance : Lawful k_finance.
Proof. split; intros; try reflexivity. assumption. Qed.

#[global] Instance lawful_projects : Lawful k_projects.
Proof. split; intros; try reflexivity. assumption. Qed.

#[global] Instance lawful_chat : Lawful k_chat.
Proof. split; intros; try reflexivity. assumption. Qed.

Lemma stored_fill_app {A : Type} (k : key A) `{Lawful A k} (st : App) :
  stored k (fill_app st) = stored k st.
Proof.
  unfold stored. cbn [fill_app data set_file set_data].
  destruct (data st) as [d | o]; cbn [fill_data]; [| reflexivity].
  now rewrite get_fill.
Qed.

(** *** Filling in commutes with the handlers *)

Create HintDb commutes.

Lemma commutes_ret {A : Type} (a : A) : commutes (ret a).
Proof. intro st. reflexivity. Qed.

Lemma commutes_bind {A B : Type} (m : M A) (k : A -> M B) :
  commutes m -> (forall a, commutes (k a)) -> commutes (bind m k).
Proof.
  intros Hm Hk st. unfold bind. rewrite Hm.
  destruct (m st) as [[a | e] st']; cbn [fst snd]; [apply Hk | reflexivity].
Qed.

Lemma commutes_gets {A : Type} (f : App -> A) :
  (forall st, f (fill_app st) = f st) -> commutes (gets f).
Proof. intros Hf st. unfold gets. now rewrite Hf. Qed.

Lemma commutes_modify (f : App -> App) :
  (forall st, f (fill_app st) = fill_app (f st)) -> commutes (modify f).
Proof. intros Hf st. unfold modify. now rewrite Hf. Qed.

Lemma commutes_messagebox (d : dialog) : commutes (messagebox d).
Proof. apply commutes_modify. reflexivity. Qed.

Lemma commutes_data_get {A : Type} (k : key A) `{Lawful A k} : commutes (data_get k).
Proof.
  intro st. unfold data_get. cbn [fill_app data set_file set_data].
  destruct (data st) as [d | o]; cbn [fill_data fst snd]; [| reflexivity].
  rewrite get_fill. reflexivity.
Qed.

Lemma commutes_setdefault_append {A : Type} (k : key A) `{Lawful A k} (x : A) :
  commutes (setdefault_append k x).
Proof.
  intro st. unfold setdefault_append. cbn [fill_app data set_file set_data].
  destruct (data st) as [d | o]; cbn [fill_data fst snd]; [| reflexivity].
  rewrite get_fill. cbn [collection].
  unfold fill_app. cbn [data set_data set_file file fill_data].
  rewrite fill_set. reflexivity.
Qed.

Lemma commutes_data_setitem {A : Type} (k : key A) `{Lawful A k} (l : list A) :
  commutes (data_setitem k l).
Proof.
  intro st. unfold data_setitem. cbn [fill_app data set_file set_data].
  destruct (data st) as [d | o]; cbn [fill_data fst snd]; [| reflexivity].
  unfold fill_app. cbn [data set_data set_file file fill_data].
  rewrite fill_set. reflexivity.
Qed.

Lemma commutes_save : commutes _save_data.
Proof. apply commutes_modify. reflexivity. Qed.

Lemma commutes_load : commutes _load_data.
Proof.
  intro st. unfold _load_data. cbn [fill_app file set_file set_data].
  destruct (file st) as [[| | v] |]; reflexivity.
Qed.

Ltac by_row_lookup :=
  intro st; cbv beta delta [events_tree_item events_tree_delete
    projects_tree_set projects_tree_delete _insert_event_row _insert_project_row];
  cbn [fill_app events_tree projects_tree set_file set_data];
  match goal with
  | |- context [match ?x with _ => _ end] => destruct x; reflexivity
  end.

Lemma commutes_events_tree_item py_int (iid : string) :
  commutes (events_tree_item py_int iid).
Proof. by_row_lookup. Qed.

Lemma commutes_events_tree_delete (iid : string) : commutes (events_tree_delete iid).
Proof. by_row_lookup. Qed.

Lemma commutes_projects_tree_set (iid : string) (v : project_row) :
  commutes (projects_tree_set iid v).
Proof. by_row_lookup. Qed.

Lemma commutes_projects_tree_delete (iid : string) :
  commutes (projects_tree_delete iid).
Proof. by_row_lookup. Qed.

Lemma commutes_insert_event_row (e : Event) : commutes (_insert_event_row e).
Proof. by_row_lookup. Qed.

Lemma commutes_insert_project_row (p : Project) : commutes (_insert_project_row p).
Proof. by_row_lookup. Qed.

Lemma commutes_insert_finance_row (e : FinanceEntry) : commutes (_insert_finance_row e).
Proof. apply commutes_modify. reflexivity. Qed.

#[global] Hint Resolve commutes_ret commutes_messagebox commutes_save commutes_load
  commutes_events_tree_item commutes_events_tree_delete commutes_projects_tree_set
  commutes_projects_tree_delete commutes_insert_event_row
  commutes_insert_project_row commutes_insert_finance_row : commutes.
#[global] Hint Extern 1 (commutes (data_get _)) =>
  apply commutes_data_get; typeclasses eauto : commutes.
#[global] Hint Extern 1 (commutes (setdefault_append _ _)) =>
  apply commutes_setdefault_append; typeclasses eauto : commutes.
#[global] Hint Extern 1 (commutes (data_setitem _ _)) =>
  apply commutes_data_setitem; typeclasses eauto : commutes.
#[global] Hint Extern 1 (commutes (gets _)) =>
  apply commutes_gets; reflexivity : commutes.
#[global] Hint Extern 1 (commutes (modify _)) =>
  apply commutes_modify; reflexivity : commutes.

(** A handler is taken apart along its binds and its tests on values;
    the hints close the leaves. *)
Ltac commute :=
  repeat first
    [ solve [auto with commutes]
    | apply commutes_bind; [| intro]
    | progress cbv beta zeta
    | match goal with
      | |- commutes (if ?b then _ else _) => destruct b
      | |- commutes (match ?x with _ => _ end) => destruct x
      end ].

Lemma commutes_for_each {A : Type} (body : A -> M unit) (l : list A) :
  (forall x, commutes (body x)) -> commutes (for_each body l).
Proof. intro Hb. induction l; cbn [for_each]; commute. Qed.

Lemma commutes_update_finance_summary py_sum : commutes (_update_finance_summary py_sum).
Proof. unfold _update_finance_summary. commute. Qed.

Lemma commutes_append_chat (sender message now : string) (save : bool) :
  commutes (_append_chat sender message now save).
Proof. unfold _append_chat. commute. Qed.

Lemma commutes_show_event_details py_int : commutes (_show_event_details py_int).
Proof. unfold _show_event_details. commute. Qed.

Lemma commutes_show_project_details : commutes _show_project_details.
Proof. unfold _show_project_details. commute. Qed.

#[global] Hint Resolve commutes_update_finance_summary commutes_append_chat
  commutes_show_event_details commutes_show_project_details : commutes.

Lemma commutes_replay_chat (clock : nat -> string) (l : list ChatMessage) (i : nat) :
  commutes (replay_chat clock i l).
Proof. revert i. induction l; intro i; cbn [replay_chat]; commute. Qed.

Lemma commutes_init py_sum clock : commutes (__init__ py_sum clock).
Proof.
  unfold __init__, _build_events_tab, _build_finance_tab, _build_media_tab,
    _build_projects_tab.
  commute;
    first [apply commutes_for_each; intro; auto with commutes
          | apply commutes_replay_chat].
Qed.

Lemma commutes_add_event (t d x : string) : commutes (_add_event t d x).
Proof. unfold _add_event. commute. Qed.

Lemma commutes_select_event py_int (iid : string) :
  commutes (select_event py_int iid).
Proof. unfold select_event. commute. Qed.

Lemma commutes_add_finance_entry py_float py_sum (ty a c n now : string) :
  commutes (_add_finance_entry py_float py_sum ty a c n now).
Proof. unfold _add_finance_entry. commute. Qed.

Lemma commutes_send_chat_message (text now : string) :
  commutes (_send_chat_message text now).
Proof. unfold _send_chat_message. commute. Qed.

Lemma commutes_auto_reply (now : string) : commutes (auto_reply now).
Proof. unfold auto_reply. commute. Qed.

Lemma commutes_add_project py_float (n m s e b status x : string) :
  commutes (_add_project py_float n m s e b status x).
Proof. unfold _add_project. commute. Qed.

Lemma commutes_select_project (iid : string) : commutes (select_project iid).
Proof. unfold select_project. commute. Qed.

Lemma commutes_update_project_status (new_status : string) :
  commutes (_update_project_status new_status).
Proof. unfold _update_project_status. commute. Qed.

Lemma commutes_delete_project (answer : bool) : commutes (_delete_project answer).
Proof. unfold _delete_project. commute. Qed.

(** *** Rows stand for stored events *)

Lemma rows_have_key_ext (st st' : App) :
  data st' = data st ->
  tv_rows (events_tree st') = tv_rows (events_tree st) ->
  rows_have_key st -> rows_have_key st'.
Proof. unfold rows_have_key. intros -> ->. exact (fun H => H). Qed.

Lemma has_events_rows (st : App) : has_events st -> rows_have_key st.
Proof.
  unfold has_events, rows_have_key. destruct (data st); [| trivial].
  intros H E. contradiction.
Qed.

Lemma tv_item_no_rows {V : Type} (iid : string) (tv : Treeview V) :
  tv_rows tv = [] -> tv_item iid tv = None.
Proof. unfold tv_item. now intros ->. Qed.

Create HintDb safe.

Lemma safe_ret {A : Type} (a : A) : safe (ret a).
Proof. intros st H. split; [exact H | reflexivity]. Qed.

Lemma safe_bind {A B : Type} (m : M A) (k : A -> M B) :
  safe m -> (forall a, safe (k a)) -> safe (bind m k).
Proof.
  intros Hm Hk st H. unfold bind. destruct (Hm st H) as [H1 H2].
  destruct (m st) as [[a | e] st']; cbn [fst snd] in *; [now apply Hk | now split].
Qed.

Lemma safe_gets {A : Type} (f : App -> A) : safe (gets f).
Proof. intros st H. split; [exact H | reflexivity]. Qed.

Lemma safe_modify (f : App -> App) :
  (forall st, rows_have_key st -> rows_have_key (f st)) -> safe (modify f).
Proof. intros Hf st H. split; [now apply Hf | reflexivity]. Qed.

Lemma safe_messagebox (d : dialog) : safe (messagebox d).
Proof. apply safe_modify. exact (fun _ H => H). Qed.

Lemma safe_save : safe _save_data.
Proof. apply safe_modify. exact (fun _ H => H). Qed.

Lemma safe_data_get {A : Type} (k : key A) : safe (data_get k).
Proof.
  intros st H. unfold data_get. destruct (data st); split; (exact H || reflexivity).
Qed.

Lemma safe_setdefault_append {A : Type} (k : key A) `{Lawful A k} (x : A) :
  safe (setdefault_append k x).
Proof.
  intros st HI. unfold setdefault_append, rows_have_key in *.
  destruct (data st) as [d | o] eqn:E; cbn [fst snd]; rewrite ?E;
    split; try reflexivity; try exact I.
  cbn [data set_data events_tree]. intro Hn. apply events_set in Hn. now apply HI.
Qed.

Lemma safe_data_setitem {A : Type} (k : key A) `{Lawful A k} (l : list A) :
  safe (data_setitem k l).
Proof.
  intros st HI. unfold data_setitem, rows_have_key in *.
  destruct (data st) as [d | o] eqn:E; cbn [fst snd]; rewrite ?E;
    split; try reflexivity; try exact I.
  cbn [data set_data events_tree]. intro Hn. apply events_set in Hn. now apply HI.
Qed.

Ltac safe_row_lookup :=
  intros st HI; cbv beta delta [events_tree_item events_tree_delete
    projects_tree_set projects_tree_delete _insert_project_row];
  match goal with
  | |- context [match ?x with _ => _ end] => destruct x
  end; (split; [exact HI | reflexivity]).

Lemma safe_events_tree_item py_int (iid : string) :
  safe (events_tree_item py_int iid).
Proof. safe_row_lookup. Qed.

Lemma safe_projects_tree_set (iid : string) (v : project_row) :
  safe (projects_tree_set iid v).
Proof. safe_row_lookup. Qed.

Lemma safe_projects_tree_delete (iid : string) : safe (projects_tree_delete iid).
Proof. safe_row_lookup. Qed.

Lemma safe_insert_project_row (p : Project) : safe (_insert_project_row p).
Proof. safe_row_lookup. Qed.

Lemma safe_insert_finance_row (e : FinanceEntry) : safe (_insert_finance_row e).
Proof. apply safe_modify. exact (fun _ H => H). Qed.

Lemma rows_have_key_select (iid : string) (st : App) :
  rows_have_key st ->
  rows_have_key (set_events_tree (tv_select iid (events_tree st)) st).
Proof.
  apply rows_have_key_ext; [reflexivity |].
  cbn [events_tree set_events_tree]. unfold tv_select.
  now destruct (tv_item iid (events_tree st)).
Qed.

#[global] Hint Resolve safe_ret safe_gets safe_messagebox safe_save safe_data_get
  safe_events_tree_item safe_projects_tree_set safe_projects_tree_delete
  safe_insert_project_row safe_insert_finance_row : safe.
#[global] Hint Extern 1 (safe (setdefault_append _ _)) =>
  apply safe_setdefault_append; typeclasses eauto : safe.
#[global] Hint Extern 1 (safe (data_setitem _ _)) =>
  apply safe_data_setitem; typeclasses eauto : safe.
#[global] Hint Extern 2 (safe (modify _)) =>
  apply safe_modify; first [exact (fun _ H => H) | apply rows_have_key_select]
  : safe.

Ltac keep_safe :=
  repeat first
    [ solve [auto with safe]
    | apply safe_bind; [| intro]
    | progress cbv beta zeta
    | match goal with
      | |- safe (if ?b then _ else _) => destruct b
      | |- safe (match ?x with _ => _ end) => destruct x
      end ].

Lemma safe_update_finance_summary py_sum : safe (_update_finance_summary py_sum).
Proof. unfold _update_finance_summary. keep_safe. Qed.

Lemma safe_append_chat (sender message now : string) (save : bool) :
  safe (_append_chat sender message now save).
Proof. unfold _append_chat. keep_safe. Qed.

Lemma safe_show_event_details py_int : safe (_show_event_details py_int).
Proof. unfold _show_event_details. keep_safe. Qed.

Lemma safe_show_project_details : safe _show_project_details.
Proof. unfold _show_project_details. keep_safe. Qed.

#[global] Hint Resolve safe_update_finance_summary safe_append_chat
  safe_show_event_details safe_show_project_details : safe.

Lemma safe_select_event py_int (iid : string) : safe (select_event py_int iid).
Proof. unfold select_event. keep_safe. Qed.

Lemma safe_add_finance_entry py_float py_sum (ty a c n now : string) :
  safe (_add_finance_entry py_float py_sum ty a c n now).
Proof. unfold _add_finance_entry. keep_safe. Qed.

Lemma safe_send_chat_message (text now : string) : safe (_send_chat_message text now).
Proof. unfold _send_chat_message. keep_safe. Qed.

Lemma safe_auto_reply (now : string) : safe (auto_reply now).
Proof. unfold auto_reply. keep_safe. Qed.

Lemma safe_add_project py_float (n m s e b status x : string) :
  safe (_add_project py_float n m s e b status x).
Proof. unfold _add_project. keep_safe. Qed.

Lemma safe_select_project (iid : string) : safe (select_project iid).
Proof. unfold select_project. keep_safe. Qed.

Lemma safe_update_project_status (new_status : string) :
  safe (_update_project_status new_status).
Proof. unfold _update_project_status. keep_safe. Qed.

Lemma safe_delete_project (answer : bool) : safe (_delete_project answer).
Proof. unfold _delete_project. keep_safe. Qed.

Lemma insert_event_row_data (e : Event) (st : App) :
  data (snd (_insert_event_row e st)) = data st
  /\ is_key_error (fst (_insert_event_row e st)) = false.
Proof.
  unfold _insert_event_row. destruct (tv_insert _ _ (events_tree st)); now split.
Qed.

Lemma has_events_insert_rows (l : list Event) (st : App) :
  has_events st ->
  has_events (snd (for_each _insert_event_row l st))
  /\ is_key_error (fst (for_each _insert_event_row l st)) = false.
Proof.
  revert st. induction l as [| e l IH]; intros st H; cbn [for_each].
  - split; [exact H | reflexivity].
  - unfold bind. destruct (insert_event_row_data e st) as [Hd Hq].
    assert (H' : has_events (snd (_insert_event_row e st)))
      by (unfold has_events in *; now rewrite Hd).
    destruct (_insert_event_row e st) as [[[] | x] st']; cbn [fst snd] in *.
    + now apply IH.
    + now split.
Qed.

Lemma safe_build_events_tab : safe _build_events_tab.
Proof.
  intros st HI. unfold _build_events_tab, bind, data_get.
  destruct (data st) as [d | o] eqn:E; [| now split].
  destruct (events d) as [l |] eqn:Ev; cbn [key_get k_events]; rewrite Ev.
  - destruct (has_events_insert_rows l st) as [H1 H2].
    + unfold has_events. rewrite E, Ev. discriminate.
    + split; [now apply has_events_rows | exact H2].
  - now split.
Qed.

Lemma safe_add_event (t d x : string) : safe (_add_event t d x).
Proof.
  unfold _add_event. destruct (falsy (strip t) || falsy (strip d));
    [apply safe_messagebox |].
  destruct (strptime (strip d)); [| apply safe_messagebox].
  intros st HI. unfold bind, setdefault_append.
  destruct (data st) as [d0 | o] eqn:E; [| now split].
  unfold _insert_event_row. cbn [events_tree set_data].
  destruct (tv_insert _ _ (events_tree st)); cbn [fst snd];
    (split; [apply has_events_rows; unfold has_events; cbn; discriminate
            | reflexivity]).
Qed.

(** [_delete_event] reaches [self.data["events"]] only with a row
    selected, and a row is there only if the key is. *)
Lemma delete_event_on_filled py_int (st : App) :
  rows_have_key st ->
  _delete_event py_int (fill_app st)
  = (fst (_delete_event py_int st), fill_app (snd (_delete_event py_int st)))
  /\ rows_have_key (snd (_delete_event py_int st))
  /\ is_key_error (fst (_delete_event py_int st)) = false.
Proof.
  intro HI.
  destruct (tv_selection (events_tree st)) as [| iid rest] eqn:Hsel.
  - rewrite (delete_event_no_selection py_int st Hsel).
    rewrite (delete_event_no_selection py_int (fill_app st) Hsel).
    repeat split. exact HI.
  - destruct (tv_item iid (events_tree st)) as [values |] eqn:Hrow.
    + destruct (data st) as [d | o] eqn:Hd.
      * destruct (events d) as [evs |] eqn:Hev.
        -- rewrite (delete_event_selected py_int st d evs iid rest values) by assumption.
           rewrite (delete_event_selected py_int (fill_app st) (fill d) evs iid rest values);
             [| cbn; now rewrite Hd | cbn; now rewrite Hev | exact Hsel | exact Hrow].
           cbn [fst snd]. split; [| split; [| reflexivity]].
           ++ unfold fill_app.
              cbn [data file set_data set_file set_event_details set_events_tree
                   fill_data fill_doc option_map].
              rewrite (fill_set (k := k_events)). reflexivity.
           ++ apply has_events_rows. unfold has_events. cbn. discriminate.
        -- exfalso. unfold rows_have_key in HI. rewrite Hd in HI.
           rewrite (tv_item_no_rows iid _ (HI Hev)) in Hrow. discriminate.
      * assert (E : forall st', data st' = PyOther o ->
                     tv_selection (events_tree st') = iid :: rest ->
                     tv_item iid (events_tree st') = Some values ->
                     _delete_event py_int st'
                     = (Raise TypeError,
                        set_events_tree (tv_delete iid (events_tree st')) st')).
        { intros st' H1 H2 H3. unfold _delete_event. cbv [bind gets].
          rewrite H2. cbv [events_tree_item]. rewrite H3.
          cbv [events_tree_delete]. rewrite H3.
          cbv [data_index]. cbn [data set_events_tree]. now rewrite H1. }
        rewrite (E st Hd Hsel Hrow).
        rewrite (E (fill_app st)); [| cbn; now rewrite Hd | exact Hsel | exact Hrow].
        cbn [fst snd]. repeat split.
        unfold rows_have_key. cbn [data set_events_tree]. now rewrite Hd.
    + assert (E : forall st', tv_selection (events_tree st') = iid :: rest ->
                     tv_item iid (events_tree st') = None ->
                     _delete_event py_int st' = (Raise (not_found iid), st')).
      { intros st' H2 H3. unfold _delete_event. cbv [bind gets].
        rewrite H2. cbv [events_tree_item]. now rewrite H3. }
      rewrite (E st Hsel Hrow), (E (fill_app st) Hsel Hrow).
      repeat split. exact HI.
Qed.

(** Every action does on the filled-in state what it does on the
    state, keeps rows standing for stored events, and raises no
    [KeyError]. *)
Lemma step_on_filled py_int py_float py_sum (a : action) (st : App) :
  rows_have_key st ->
  step py_int py_float py_sum a (fill_app st)
  = (fst (step py_int py_float py_sum a st), fill_app (snd (step py_int py_float py_sum a st)))
  /\ rows_have_key (snd (step py_int py_float py_sum a st))
  /\ is_key_error (fst (step py_int py_float py_sum a st)) = false.
Proof.
  intro HI. destruct a; cbn [step].
  - split; [apply commutes_add_event | now apply safe_add_event].
  - split; [apply commutes_select_event | now apply safe_select_event].
  - now apply delete_event_on_filled.
  - split; [apply commutes_add_finance_entry | now apply safe_add_finance_entry].
  - split; [apply commutes_send_chat_message | now apply safe_send_chat_message].
  - split; [apply commutes_auto_reply | now apply safe_auto_reply].
  - split; [apply commutes_add_project | now apply safe_add_project].
  - split; [apply commutes_select_project | now apply safe_select_project].
  - split; [apply commutes_update_project_status
           | now apply safe_update_project_status].
  - split; [apply commutes_delete_project | now apply safe_delete_project].
Qed.

Lemma run_on_filled py_int py_float py_sum (acts : list action) (st : App) :
  rows_have_key st ->
  run py_int py_float py_sum acts (fill_app st)
  = (fst (run py_int py_float py_sum acts st), fill_app (snd (run py_int py_float py_sum acts st)))
  /\ forallb (fun r => negb (is_key_error r)) (fst (run py_int py_float py_sum acts st)) = true.
Proof.
  revert st. induction acts as [| a acts IH]; intros st HI; cbn [run].
  - now split.
  - destruct (step_on_filled py_int py_float py_sum a st HI) as [E [HI' Hq]].
    rewrite E. destruct (step py_int py_float py_sum a st) as [r st']. cbn [fst snd] in *.
    destruct (IH st' HI') as [E' Hq']. rewrite E'.
    destruct (run py_int py_float py_sum acts st') as [rs st'']. cbn [fst snd forallb] in *.
    rewrite Hq, Hq'. now split.
Qed.

Lemma safe_replay_chat (clock : nat -> string) (l : list ChatMessage) (i : nat) :
  safe (replay_chat clock i l).
Proof. revert i. induction l; intro i; cbn [replay_chat]; keep_safe. Qed.

Lemma safe_for_each {A : Type} (body : A -> M unit) (l : list A) :
  (forall x, safe (body x)) -> safe (for_each body l).
Proof. intro Hb. induction l; cbn [for_each]; keep_safe. Qed.

(** [__init__] leaves rows standing for stored events, whatever the
    document. *)
Lemma init_rows_have_key py_sum clock (doc : option document) :
  rows_have_key (snd (__init__ py_sum clock (boot doc)))
  /\ is_key_error (fst (__init__ py_sum clock (boot doc))) = false.
Proof.
  assert (Hrest : safe (_build_events_tab ;; _build_finance_tab py_sum ;;
                        _build_media_tab clock ;; _build_projects_tab)).
  { apply safe_bind; [apply safe_build_events_tab | intros _].
    unfold _build_finance_tab, _build_media_tab, _build_projects_tab.
    keep_safe;
      first [apply safe_for_each; intro; auto with safe
            | apply safe_replay_chat]. }
  unfold __init__.
  change (bind (modify (set_data (PyDict empty_store))) ?k (boot doc))
    with (k tt (boot doc)).
  cbv beta. unfold bind at 1, _load_data.
  destruct doc as [[| | v] |]; cbn [boot file].
  - cbn. split; [discriminate | reflexivity].
  - apply Hrest. cbn. discriminate.
  - apply Hrest. unfold rows_have_key. cbn. destruct v; trivial.
  - apply Hrest. cbn. discriminate.
Qed.

(** A session on the filled-in document is the session on the document
    itself, state for state. *)
Lemma session_on_filled py_int py_float py_sum clock (doc : option document)
  (acts : list action) :
  session py_int py_float py_sum clock (option_map fill_doc doc) acts
  = (fst (session py_int py_float py_sum clock doc acts),
     fill_app (snd (session py_int py_float py_sum clock doc acts)))
  /\ forallb (fun r => negb (is_key_error r))
             (fst (session py_int py_float py_sum clock doc acts)) = true.
Proof.
  unfold session.
  change (boot (option_map fill_doc doc)) with (fill_app (boot doc)).
  rewrite (commutes_init py_sum clock (boot doc)).
  destruct (init_rows_have_key py_sum clock doc) as [HI Hq].
  destruct (__init__ py_sum clock (boot doc)) as [[[] | e] st]; cbn [fst snd] in *.
  - destruct (run_on_filled py_int py_float py_sum acts st HI) as [E Hr]. rewrite E.
    destruct (run py_int py_float py_sum acts st) as [rs st']. cbn [fst snd forallb] in *.
    now split.
  - cbn [forallb]. rewrite Hq. now split.
Qed.

(** C10. A session that starts from a document in which some of the
    keys [events], [finance], [projects], [chat] are missing goes, for
    every sequence of actions, as the session that starts from the same
    document with empty lists under the missing keys: the same results
    action for action, the same state up to the filling-in, and no
    [KeyError] anywhere, [_delete_event] included. *)
Theorem missing_key_as_empty (py_int : string -> option Z)
  (py_float : string -> option float) (py_sum : list float -> float)
  (clock : nat -> string) (d : Store) (acts : list action) :
  let lacking := session py_int py_float py_sum clock (Some (JsonText (PyDict d))) acts in
  let filled := session py_int py_float py_sum clock (Some (JsonText (PyDict (fill d)))) acts in
  fst filled = fst lacking
  /\ snd filled = fill_app (snd lacking)
  /\ stored k_events (snd filled) = stored k_events (snd lacking)
  /\ stored k_finance (snd filled) = stored k_finance (snd lacking)
  /\ stored k_projects (snd filled) = stored k_projects (snd lacking)
  /\ stored k_chat (snd filled) = stored k_chat (snd lacking)
  /\ forallb (fun r => negb (is_key_error r)) (fst lacking) = true.
Proof.
  cbv zeta.
  destruct (session_on_filled py_int py_float py_sum clock (Some (JsonText (PyDict d))) acts)
    as [E Hq].
  cbn [option_map fill_doc fill_data] in E. rewrite E. cbn [fst snd].
  rewrite !stored_fill_app by typeclasses eauto. repeat split. exact Hq.
Qed.

(** A document without the key [events]: deleting with nothing to
    select only says so, and the first addition creates the key. *)
Example no_events_key :
  let doc := Some (JsonText (PyDict (mkStore None (Some []) (Some []) (Some [])))) in
  let s := session int_of_decimal float_of_decimal sum_left noon doc
             [DeleteEvent;
              AddEvent "Easter Service" "2025-04-20" "Celebration";
              SelectEvent "Easter Service2025-04-20";
              DeleteEvent] in
  fst s = [Ok tt; Ok tt; Ok tt; Ok tt; Ok tt]
  /\ dialogs (snd s) = [showinfo "No selection" "Please choose an event to delete."]
  /\ data (snd s) = PyDict empty_store.
Proof. cbv zeta. repeat split; reflexivity. Qed.

(** The key is looked up without a default only in [_delete_event],
    and only past the row lookup: on a state that no session reaches, a
    selected row without the key, the lookup does raise. *)
Example delete_event_key_error :
  let st := set_events_tree
              (mkTreeview [("Easter Service2025-04-20", ("2025-04-20", "Easter Service"))]
                          ["Easter Service2025-04-20"])
              (set_data (PyDict (mkStore None (Some []) (Some []) (Some [])))
                        (boot None)) in
  ~ rows_have_key st
  /\ fst (_delete_event int_of_decimal st) = Raise (KeyError "events").
Proof.
  cbv zeta. split; [| reflexivity].
  intro H. specialize (H eq_refl). discriminate H.
Qed.

(** ** Saving after each mutation *)

(** *** Handlers that return have saved *)

Create HintDb untouched.

Lemma untouched_ret {A : Type} (a : A) : untouched (ret a).
Proof. intro st. now split. Qed.

Lemma untouched_bind {A B : Type} (m : M A) (k : A -> M B) :
  untouched m -> (forall a, untouched (k a)) -> untouched (bind m k).
Proof.
  intros Hm Hk st. unfold bind. destruct (Hm st) as [H1 H2].
  destruct (m st) as [[a | e] st']; cbn [fst snd] in *; [| now split].
  destruct (Hk a st') as [H3 H4]. split; congruence.
Qed.

Lemma untouched_gets {A : Type} (f : App -> A) : untouched (gets f).
Proof. intro st. now split. Qed.

Lemma untouched_modify (f : App -> App) :
  (forall st, data (f st) = data st /\ file (f st) = file st) ->
  untouched (modify f).
Proof. intros Hf st. apply Hf. Qed.

Lemma untouched_messagebox (d : dialog) : untouched (messagebox d).
Proof. intro st. now split. Qed.

Lemma untouched_data_get {A : Type} (k : key A) : untouched (data_get k).
Proof.
  intro st. unfold data_get.
  destruct (data st) eqn:E; cbn [fst snd]; rewrite ?E; now split.
Qed.

Ltac untouched_row_lookup :=
  intro st; cbv beta delta [events_tree_item events_tree_delete
    projects_tree_set projects_tree_delete _insert_event_row _insert_project_row];
  match goal with
  | |- context [match ?x with _ => _ end] => destruct x
  end; now split.

Lemma untouched_events_tree_item py_int (iid : string) :
  untouched (events_tree_item py_int iid).
Proof. untouched_row_lookup. Qed.

#[global] Hint Resolve untouched_ret untouched_gets untouched_messagebox
  untouched_data_get untouched_events_tree_item : untouched.
#[global] Hint Extern 1 (untouched (modify _)) =>
  apply untouched_modify; intro; split; reflexivity : untouched.

Ltac untouch :=
  repeat first
    [ solve [auto with untouched]
    | apply untouched_bind; [| intro]
    | progress cbv beta zeta
    | match goal with
      | |- untouched (if ?b then _ else _) => destruct b
      | |- untouched (match ?x with _ => _ end) => destruct x
      end ].

Lemma untouched_show_event_details py_int : untouched (_show_event_details py_int).
Proof. unfold _show_event_details. untouch. Qed.

Lemma untouched_show_project_details : untouched _show_project_details.
Proof. unfold _show_project_details. untouch. Qed.

#[global] Hint Resolve untouched_show_event_details untouched_show_project_details
  : untouched.

Lemma ends_saved_save : ends_saved _save_data.
Proof.
  intros st a st' H. unfold _save_data, modify in H. injection H as _ <-.
  reflexivity.
Qed.

(** A handler whose last step saves ends saved, whatever came first. *)
Lemma ends_saved_then {A B : Type} (m : M A) (k : A -> M B) :
  (forall a, ends_saved (k a)) -> ends_saved (bind m k).
Proof.
  intros Hk st b st' H. unfold bind in H.
  destruct (m st) as [[a | e] st1]; [now apply (Hk a st1 b) | discriminate].
Qed.

(** So does one that saves and then leaves data and file alone. *)
Lemma ends_saved_first {A B : Type} (m : M A) (k : A -> M B) :
  ends_saved m -> (forall a, untouched (k a)) -> ends_saved (bind m k).
Proof.
  intros Hm Hk st b st' H. unfold bind in H.
  destruct (m st) as [[a | e] st1] eqn:E; [| discriminate].
  pose proof (Hm st a st1 E) as Hs. destruct (Hk a st1) as [H1 H2].
  rewrite H in H1, H2. cbn [snd] in H1, H2.
  unfold in_sync in *. congruence.
Qed.

Ltac saved :=
  cbv beta zeta;
  first
    [ apply ends_saved_save
    | solve [apply ends_saved_then; intro; saved]
    | solve [apply ends_saved_first; [saved | intro; untouch]]
    | match goal with
      | |- ends_saved (if ?b then _ else _) => destruct b; saved
      | |- ends_saved (match ?x with _ => _ end) => destruct x; saved
      end ].

Lemma ends_saved_append_chat (sender message now : string) :
  ends_saved (_append_chat sender message now true).
Proof. unfold _append_chat. saved. Qed.

Lemma saved_or_untouched_of_untouched {A : Type} (m : M A) :
  untouched m -> saved_or_untouched m.
Proof.
  intros Hm st a st' H. right. destruct (Hm st) as [H1 H2].
  rewrite H in H1, H2. now split.
Qed.

Lemma saved_or_untouched_of_saved {A : Type} (m : M A) :
  ends_saved m -> saved_or_untouched m.
Proof. intros Hm st a st' H. left. now apply (Hm st a). Qed.

Lemma saved_or_untouched_bind {A B : Type} (m : M A) (k : A -> M B) :
  saved_or_untouched m -> (forall a, saved_or_untouched (k a)) ->
  saved_or_untouched (bind m k).
Proof.
  intros Hm Hk st b st' H. unfold bind in H.
  destruct (m st) as [[a | e] st1] eqn:E; [| discriminate].
  destruct (Hm st a st1 E) as [Hs | [H1 H2]];
    destruct (Hk a st1 b st' H) as [Hs' | [H3 H4]].
  - now left.
  - left. unfold in_sync in *. congruence.
  - now left.
  - right. split; congruence.
Qed.

Ltac settle :=
  cbv beta zeta;
  first
    [ solve [apply saved_or_untouched_of_untouched; untouch]
    | solve [apply saved_or_untouched_of_saved;
             first [apply ends_saved_append_chat | saved]]
    | apply saved_or_untouched_bind; [settle | intro; settle]
    | match goal with
      | |- saved_or_untouched (if ?b then _ else _) => destruct b; settle
      | |- saved_or_untouched (match ?x with _ => _ end) => destruct x; settle
      end ].

(** Every action that returns normally has either saved the whole of
    [self.data] as its last word on data and file, or touched neither. *)
Lemma step_saved_or_untouched py_int py_float py_sum (a : action) :
  saved_or_untouched (step py_int py_float py_sum a).
Proof.
  destruct a; cbn [step];
    unfold _add_event, select_event, _delete_event, _add_finance_entry,
      _send_chat_message, auto_reply, _add_project, select_project,
      _update_project_status, _delete_project;
    settle.
Qed.

(** C9. The second of two additions under one title and date appends
    its event to [self.data] and then raises at the row it cannot
    insert, before [_save_data]: the state in memory holds two events,
    the backing document still one, and the two are out of step until
    some later handler saves. *)
Theorem duplicate_add_not_saved :
  let st1 := snd (_add_event "Easter Service" "2025-04-20" "Celebration"
                             (first_run sum_left noon)) in
  let r := _add_event "Easter Service" "2025-04-20" "Duplicate" st1 in
  in_sync st1
  /\ fst r = Raise (TclError "Item Easter Service2025-04-20 already exists")
  /\ data (snd r)
     = PyDict (mkStore (Some [easter; easter_again]) (Some []) (Some []) (Some []))
  /\ file (snd r)
     = Some (JsonText (PyDict (mkStore (Some [easter]) (Some []) (Some []) (Some []))))
  /\ ~ in_sync (snd r).
Proof.
  cbv zeta. repeat split. unfold in_sync. cbn. intro H. discriminate H.
Qed.

(** The same for two projects of one name. *)
Example duplicate_project_not_saved :
  let st1 := snd (_add_project float_of_decimal "Hall Renovation" "Dana" "2025-01-06"
                               "2025-09-30" "12000" "Planned" "New floor"
                               (first_run sum_left noon)) in
  let r := _add_project float_of_decimal "Hall Renovation" "Lee" "2025-03-01"
                        EmptyString "500" "Planned" "Paint" st1 in
  in_sync st1
  /\ fst r = Raise (TclError "Item Hall Renovation already exists")
  /\ stored k_projects (snd r) = [hall "Planned"; hall_twin]
  /\ stored k_projects (reload (snd r)) = [hall "Planned"].
Proof. cbv zeta. repeat split. Qed.

(** * Further properties of the handlers *)

(** ** Entering an event *)

(** X1. [_add_event] refuses an input whose stripped title or stripped
    date is empty with the "Missing Information" error, and one whose
    stripped date [strptime] does not accept with the "Invalid Date"
    error, and then changes nothing else; every other input it takes,
    showing no message and appending the event with the stripped title,
    date and description, whether or not the row can be inserted. *)
Theorem add_event_validation (t d x : string) (st : App) :
  (falsy (strip t) || falsy (strip d) = true ->
   _add_event t d x st
   = (Ok tt,
      set_dialogs
        (dialogs st
         ++ [showerror "Missing Information"
               "Please provide both title and date for the event."])%list st))
  /\ (falsy (strip t) || falsy (strip d) = false ->
      strptime (strip d) = None ->
      _add_event t d x st
      = (Ok tt,
         set_dialogs
           (dialogs st
            ++ [showerror "Invalid Date" "Date must be in YYYY-MM-DD format."])%list
           st))
  /\ (forall ymd d0,
         falsy (strip t) || falsy (strip d) = false ->
         strptime (strip d) = Some ymd ->
         data st = PyDict d0 ->
         dialogs (snd (_add_event t d x st)) = dialogs st
         /\ stored k_events (snd (_add_event t d x st))
            = (collection (events d0) ++ [mkEvent (strip t) (strip d) (strip x)])%list).
Proof.
  split; [| split].
  - intro H. unfold _add_event. now rewrite H.
  - intros H Hp. unfold _add_event. now rewrite H, Hp.
  - intros ymd d0 H Hp Hd. open_state st.
    unfold _add_event. rewrite H, Hp.
    unfold bind, setdefault_append, _insert_event_row, _save_data, modify, stored.
    cbn [data set_data events_tree].
    destruct (tv_insert _ _ etree); split; reflexivity.
Qed.

Lemma add_event_validation_witness :
  _add_event "   " "2025-04-20" "Celebration" (first_run sum_left noon)
  = (Ok tt,
     set_dialogs
       [showerror "Missing Information"
          "Please provide both title and date for the event."]
       (first_run sum_left noon))
  /\ _add_event "Easter Service" "2025-02-30" "Celebration" (first_run sum_left noon)
     = (Ok tt,
        set_dialogs [showerror "Invalid Date" "Date must be in YYYY-MM-DD format."]
                    (first_run sum_left noon))
  /\ stored k_events
       (snd (_add_event " Easter Service " "2025-4-20" "Celebration"
                        (first_run sum_left noon)))
     = [mkEvent "Easter Service" "2025-4-20" "Celebration"].
Proof.
  split; [| split].
  - apply (proj1 (add_event_validation "   " "2025-04-20" "Celebration"
                    (first_run sum_left noon))).
    reflexivity.
  - apply (proj1 (proj2 (add_event_validation "Easter Service" "2025-02-30"
                           "Celebration" (first_run sum_left noon))));
      reflexivity.
  - apply (proj2 (proj2 (add_event_validation " Easter Service " "2025-4-20"
                           "Celebration" (first_run sum_left noon)))
             (2025, 4, 20)%Z empty_store);
      reflexivity.
Defined.

(** ** The detail views *)

Lemma find_first {A : Type} (p : A -> bool) (before after : list A) (x : A) :
  p x = true -> (forall y, In y before -> p y = false) ->
  find p (before ++ x :: after) = Some x.
Proof.
  intros Hx Hb. induction before as [| y before IH]; cbn [app find].
  - now rewrite Hx.
  - rewrite (Hb y) by now left. apply IH. intros z Hz. apply Hb. now right.
Qed.

Lemma find_nowhere {A : Type} (p : A -> bool) (l : list A) :
  (forall y, In y l -> p y = false) -> find p l = None.
Proof.
  intro H. induction l as [| y l IH]; cbn [find]; [reflexivity |].
  rewrite (H y) by now left. apply IH. intros z Hz. apply H. now right.
Qed.

Lemma event_matches_text (dt tl : string) (e : Event) :
  event_matches (TkStr dt, TkStr tl) e = true <-> has_key tl dt e.
Proof. rewrite event_matches_values. apply has_values_text. Qed.

Lemma event_matches_text_false (dt tl : string) (e : Event) :
  ~ has_key tl dt e -> event_matches (TkStr dt, TkStr tl) e = false.
Proof.
  intro H. destruct (event_matches (TkStr dt, TkStr tl) e) eqn:E; [| reflexivity].
  apply event_matches_text in E. contradiction.
Qed.

(** What [_show_event_details] does with a row selected. *)
Lemma show_event_details_selected (py_int : string -> option Z) (st : App)
  (d0 : Store) (iid : string) (rest : list string) (row : event_row) :
  data st = PyDict d0 ->
  tv_selection (events_tree st) = iid :: rest ->
  tv_item iid (events_tree st) = Some row ->
  _show_event_details py_int st
  = (Ok tt,
     match find (event_matches (read_back py_int row)) (collection (events d0)) with
     | Some e => set_event_details (event_text e) st
     | None => st
     end).
Proof.
  intros Hd Hsel Hrow. open_state st.
  unfold _show_event_details. cbv [bind gets events_tree]. rewrite Hsel.
  cbv [events_tree_item events_tree]. rewrite Hrow.
  cbv [data_get data key_get k_events].
  destruct (find _ (collection (events d0))); reflexivity.
Qed.

(** X2. With a row selected whose date and title do not read as
    integers, [_show_event_details] returns normally, leaves
    [self.data] and the file alone, and shows the first stored event of
    that title and date, so of two events under one key always the
    earlier one; when no stored event has them, the view keeps what it
    showed. *)
Theorem show_event_details_first_match (py_int : string -> option Z) (st : App)
  (d0 : Store) (iid : string) (rest : list string) (dt tl : string) :
  data st = PyDict d0 ->
  tv_selection (events_tree st) = iid :: rest ->
  tv_item iid (events_tree st) = Some (dt, tl) ->
  py_int dt = None ->
  py_int tl = None ->
  let r := _show_event_details py_int st in
  fst r = Ok tt
  /\ data (snd r) = data st
  /\ file (snd r) = file st
  /\ (forall before e after,
         collection (events d0) = (before ++ e :: after)%list ->
         has_key tl dt e ->
         (forall y, In y before -> ~ has_key tl dt y) ->
         event_details (snd r) = event_text e)
  /\ ((forall y, In y (collection (events d0)) -> ~ has_key tl dt y) ->
      event_details (snd r) = event_details st).
Proof.
  intros Hd Hsel Hrow Hid Hit. cbv zeta.
  rewrite (show_event_details_selected py_int st d0 iid rest (dt, tl)) by assumption.
  rewrite (read_back_text py_int dt tl Hid Hit). cbn [fst snd].
  split; [reflexivity |].
  split; [destruct (find _ _); reflexivity |].
  split; [destruct (find _ _); reflexivity |].
  split.
  - intros before e after E He Hb. rewrite E.
    rewrite (find_first _ before after e).
    + reflexivity.
    + now apply event_matches_text.
    + intros y Hy. apply event_matches_text_false. now apply Hb.
  - intro Hnone. rewrite find_nowhere; [reflexivity |].
    intros y Hy. apply event_matches_text_false. now apply Hnone.
Qed.

Lemma show_event_details_first_match_witness :
  event_details (snd (_show_event_details int_of_decimal bulletin)) = event_text easter.
Proof.
  refine (proj1 (proj2 (proj2 (proj2
    (show_event_details_first_match int_of_decimal bulletin
       (mkStore (Some [easter; picnic; easter_again]) (Some []) (Some []) (Some []))
       "Easter Service2025-04-20" [] "2025-04-20" "Easter Service"
       eq_refl eq_refl eq_refl eq_refl eq_refl))))
    [] easter [picnic; easter_again] eq_refl _ _).
  - split; reflexivity.
  - intros y [].
Defined.

(** ** Rows of a list after a change *)

Lemma tv_item_delete_same {V : Type} (iid : string) (tv : Treeview V) :
  tv_item iid (tv_delete iid tv) = None.
Proof.
  unfold tv_item, tv_delete. cbn [tv_rows].
  induction (tv_rows tv) as [| r rows IH]; cbn [filter find]; [reflexivity |].
  destruct (String.eqb (fst r) iid) eqn:E; cbn [negb]; [exact IH |].
  cbn [find]. now rewrite E.
Qed.

Lemma tv_item_delete_other {V : Type} (iid other : string) (tv : Treeview V) :
  other <> iid -> tv_item other (tv_delete iid tv) = tv_item other tv.
Proof.
  intro Hne. unfold tv_item, tv_delete. cbn [tv_rows].
  induction (tv_rows tv) as [| r rows IH]; cbn [filter find]; [reflexivity |].
  destruct (String.eqb_spec (fst r) iid) as [E | E]; cbn [negb].
  - destruct (String.eqb_spec (fst r) other) as [E' | E']; [congruence | exact IH].
  - cbn [find]. destruct (String.eqb (fst r) other); [reflexivity | exact IH].
Qed.

Lemma tv_item_set_same {V : Type} (iid : string) (v w : V) (tv : Treeview V) :
  tv_item iid tv = Some w -> tv_item iid (tv_set iid v tv) = Some v.
Proof.
  unfold tv_item, tv_set. cbn [tv_rows].
  induction (tv_rows tv) as [| r rows IH]; cbn [map find]; [discriminate |].
  destruct (String.eqb (fst r) iid) eqn:E.
  - intros _. cbn [fst]. now rewrite String.eqb_refl.
  - rewrite E. exact IH.
Qed.

Lemma tv_item_set_other {V : Type} (iid other : string) (v : V) (tv : Treeview V) :
  other <> iid -> tv_item other (tv_set iid v tv) = tv_item other tv.
Proof.
  intro Hne. unfold tv_item, tv_set. cbn [tv_rows].
  induction (tv_rows tv) as [| r rows IH]; cbn [map find]; [reflexivity |].
  destruct (String.eqb_spec (fst r) iid) as [E | E].
  - cbn [fst]. destruct (String.eqb_spec iid other) as [E' | E']; [congruence |].
    destruct (String.eqb_spec (fst r) other) as [E2 | E2]; [congruence | exact IH].
  - destruct (String.eqb (fst r) other); [reflexivity | exact IH].
Qed.

(** ** Projects: the list, the detail view and the store *)

Lemma first_named_assigned_other (iid other new_status : string) (ps : list Project) :
  other <> iid ->
  first_named other (assign_status iid new_status ps) = first_named other ps.
Proof.
  intro Hne. unfold first_named.
  induction ps as [| q ps IH]; cbn [assign_status find]; [reflexivity |].
  destruct (String.eqb_spec (name q) iid) as [E | E]; cbn [find name with_status].
  - destruct (String.eqb_spec (name q) other) as [E' | E']; [congruence | reflexivity].
  - destruct (String.eqb (name q) other); [reflexivity | exact IH].
Qed.

Lemma first_named_filter_same (iid : string) (ps : list Project) :
  first_named iid (filter (fun p => negb (String.eqb (name p) iid)) ps) = None.
Proof.
  unfold first_named. induction ps as [| q ps IH]; cbn [filter find]; [reflexivity |].
  destruct (String.eqb (name q) iid) eqn:E; cbn [negb]; [exact IH |].
  cbn [find]. now rewrite E.
Qed.

Lemma first_named_filter_other (iid other : string) (ps : list Project) :
  other <> iid ->
  first_named other (filter (fun p => negb (String.eqb (name p) iid)) ps)
  = first_named other ps.
Proof.
  intro Hne. unfold first_named.
  induction ps as [| q ps IH]; cbn [filter find]; [reflexivity |].
  destruct (String.eqb_spec (name q) iid) as [E | E]; cbn [negb].
  - destruct (String.eqb_spec (name q) other) as [E' | E']; [congruence | exact IH].
  - cbn [find]. destruct (String.eqb (name q) other); [reflexivity | exact IH].
Qed.

Lemma first_named_app (iid : string) (ps : list Project) (p : Project) :
  first_named iid (ps ++ [p])
  = match first_named iid ps with
    | Some q => Some q
    | None => if String.eqb (name p) iid then Some p else None
    end.
Proof.
  unfold first_named. induction ps as [| q ps IH]; cbn [app find]; [reflexivity |].
  destruct (String.eqb (name q) iid); [reflexivity | exact IH].
Qed.

(** What [_delete_project] does when the deletion is confirmed. *)
Lemma delete_project_confirmed (st : App) (d0 : Store) (iid : string)
  (rest : list string) (row : project_row) :
  data st = PyDict d0 ->
  tv_selection (projects_tree st) = iid :: rest ->
  tv_item iid (projects_tree st) = Some row ->
  let store :=
    PyDict (key_set k_projects
              (Some (filter (fun p => negb (String.eqb (name p) iid))
                            (collection (projects d0)))) d0) in
  _delete_project true st
  = (Ok tt,
     set_file (Some (JsonText store))
       (set_project_details None
          (set_data store
             (set_projects_tree (tv_delete iid (projects_tree st))
                (set_dialogs (dialogs st ++ [confirm_delete true])%list st))))).
Proof.
  intros Hd Hsel Hrow. open_state st.
  unfold _delete_project. cbv [bind gets projects_tree]. rewrite Hsel.
  cbv [messagebox modify negb projects_tree_delete set_dialogs projects_tree].
  rewrite Hrow. reflexivity.
Qed.

(** X3. With a row selected and the question answered yes,
    [_delete_project] returns normally having removed every project of
    the selected name, the other projects in place and in order; the
    row is gone and the other rows are as they were, the detail view is
    cleared, the events, finance entries and chat are as they were, and
    the file holds the new state. *)
Theorem delete_project_removes_named (st : App) (d0 : Store) (iid : string)
  (rest : list string) (row : project_row) :
  data st = PyDict d0 ->
  tv_selection (projects_tree st) = iid :: rest ->
  tv_item iid (projects_tree st) = Some row ->
  let st' := snd (_delete_project true st) in
  fst (_delete_project true st) = Ok tt
  /\ removed (fun p => name p = iid) (stored k_projects st) (stored k_projects st')
  /\ tv_item iid (projects_tree st') = None
  /\ (forall other, other <> iid ->
        tv_item other (projects_tree st') = tv_item other (projects_tree st))
  /\ project_details st' = None
  /\ stored k_events st' = stored k_events st
  /\ stored k_finance st' = stored k_finance st
  /\ stored k_chat st' = stored k_chat st
  /\ in_sync st'.
Proof.
  intros Hd Hsel Hrow. cbv zeta.
  rewrite (delete_project_confirmed st d0 iid rest row Hd Hsel Hrow).
  open_state st. cbn [fst snd]. unfold stored, in_sync.
  cbn [data file projects_tree project_details set_file set_project_details set_data
       set_projects_tree set_dialogs key_get key_set k_projects k_events k_finance
       k_chat events finance projects chat collection].
  split; [reflexivity |].
  split; [apply filter_removed; intro p; apply String.eqb_eq |].
  split; [apply tv_item_delete_same |].
  split; [intros other Hne; now apply tv_item_delete_other |].
  repeat split.
Qed.

Lemma delete_project_removes_named_witness :
  stored k_projects two_halls = [hall "Planned"; hall_twin]
  /\ removed (fun p => name p = "Hall Renovation")
             (stored k_projects two_halls)
             (stored k_projects (snd (_delete_project true two_halls)))
  /\ in_sync (snd (_delete_project true two_halls)).
Proof.
  split; [reflexivity |].
  pose proof (delete_project_removes_named two_halls
                (mkStore (Some []) (Some []) (Some [hall "Planned"; hall_twin]) (Some []))
                "Hall Renovation" [] (project_values (hall "Planned"))
                eq_refl eq_refl eq_refl) as H.
  cbv zeta in H. split; [apply H | apply H].
Defined.

(** X4. Without a selection, or with the question answered no,
    [_delete_project] returns normally and changes nothing but the
    record of the dialogs shown: no project, row or file is touched. *)
Theorem delete_project_declined (st : App) :
  (forall answer,
      tv_selection (projects_tree st) = [] ->
      _delete_project answer st
      = (Ok tt,
         set_dialogs
           (dialogs st ++ [showinfo "No selection" "Select a project to delete."])%list
           st))
  /\ (forall iid rest,
         tv_selection (projects_tree st) = iid :: rest ->
         _delete_project false st
         = (Ok tt, set_dialogs (dialogs st ++ [confirm_delete false])%list st)).
Proof.
  split.
  - intros answer Hsel. unfold _delete_project. cbv [bind gets]. now rewrite Hsel.
  - intros iid rest Hsel. unfold _delete_project. cbv [bind gets]. rewrite Hsel.
    reflexivity.
Qed.

(** X5. After [_update_project_status] has found the selected name, the
    detail view shows the first stored project of that name, the row of
    that name shows the values of that same project, and for every
    other name both the row and the first stored project are as they
    were. *)
Theorem update_project_status_views_agree (new_status : string) (st : App)
  (d0 : Store) (iid : string) (rest : list string) (p : Project) (row : project_row) :
  data st = PyDict d0 ->
  tv_selection (projects_tree st) = iid :: rest ->
  tv_item iid (projects_tree st) = Some row ->
  first_named iid (collection (projects d0)) = Some p ->
  let st' := snd (_update_project_status new_status st) in
  project_details st' = first_named iid (stored k_projects st')
  /\ tv_item iid (projects_tree st')
     = option_map project_values (first_named iid (stored k_projects st'))
  /\ (forall other, other <> iid ->
        tv_item other (projects_tree st') = tv_item other (projects_tree st)
        /\ first_named other (stored k_projects st')
           = first_named other (stored k_projects st)).
Proof.
  intros Hd Hsel Hrow Hfirst. cbv zeta.
  rewrite (update_project_status_found new_status st d0 iid rest p row) by assumption.
  open_state st. cbn [fst snd]. unfold stored.
  cbn [data projects_tree project_details set_file set_project_details set_data
       set_projects_tree key_get key_set k_projects projects collection].
  rewrite (first_named_assigned iid new_status _ p Hfirst).
  split; [reflexivity |].
  split; [now apply (tv_item_set_same iid _ row) |].
  intros other Hne. split.
  - now apply tv_item_set_other.
  - now apply first_named_assigned_other.
Qed.

Lemma update_project_status_views_agree_witness :
  project_details (snd (_update_project_status "Completed" two_halls))
  = Some (hall "Completed")
  /\ tv_item "Hall Renovation"
       (projects_tree (snd (_update_project_status "Completed" two_halls)))
     = Some (project_values (hall "Completed")).
Proof.
  pose proof (update_project_status_views_agree "Completed" two_halls
                (mkStore (Some []) (Some []) (Some [hall "Planned"; hall_twin]) (Some []))
                "Hall Renovation" [] (hall "Planned") (project_values (hall "Planned"))
                eq_refl eq_refl eq_refl eq_refl) as H.
  cbv zeta in H. destruct H as [H1 [H2 _]]. split.
  - rewrite H1. reflexivity.
  - rewrite H2. reflexivity.
Defined.

Lemma delete_project_declined_witness :
  _delete_project true (first_run sum_left noon)
  = (Ok tt,
     set_dialogs [showinfo "No selection" "Select a project to delete."]
                 (first_run sum_left noon))
  /\ _delete_project false two_halls
     = (Ok tt, set_dialogs [confirm_delete false] two_halls).
Proof.
  split.
  - apply (proj1 (delete_project_declined (first_run sum_left noon)) true).
    reflexivity.
  - apply (proj2 (delete_project_declined two_halls) "Hall Renovation" []).
    reflexivity.
Defined.

(** ** Appending strings *)

Lemma append_assoc (a b c : string) : (a ++ b) ++ c = a ++ (b ++ c).
Proof. induction a as [| x a IH]; cbn; [reflexivity | now rewrite IH]. Qed.

Lemma append_nil_r (a : string) : a ++ EmptyString = a.
Proof. induction a as [| x a IH]; cbn; [reflexivity | now rewrite IH]. Qed.

Lemma append_length (a b : string) :
  String.length (a ++ b) = String.length a + String.length b.
Proof. induction a as [| x a IH]; cbn; [reflexivity | now rewrite IH]. Qed.

(** ** Chat *)

(** What [_append_chat] does with [save=True]. *)
Lemma append_chat_saved (who what now : string) (st : App) (d0 : Store) :
  data st = PyDict d0 ->
  let store :=
    PyDict (key_set k_chat
              (Some (collection (chat d0) ++ [mkChatMessage who what now])%list) d0) in
  _append_chat who what now true st
  = (Ok tt,
     set_file (Some (JsonText store))
       (set_data store
          (set_chat_display (chat_display st ++ chat_line now who what) st))).
Proof.
  intro Hd. open_state st. reflexivity.
Qed.

(** What [_send_chat_message] does with a text that is not blank. *)
Lemma send_chat_accepted (text now : string) (st : App) (d0 : Store) :
  falsy (strip text) = false ->
  data st = PyDict d0 ->
  let store :=
    PyDict (key_set k_chat
              (Some (collection (chat d0) ++ [mkChatMessage "You" (strip text) now])%list)
              d0) in
  _send_chat_message text now st
  = (Ok tt,
     set_pending_replies (S (pending_replies st))
       (set_file (Some (JsonText store))
          (set_data store
             (set_chat_display (chat_display st ++ chat_line now "You" (strip text))
                               st)))).
Proof.
  intros H Hd. open_state st. unfold _send_chat_message. rewrite H. reflexivity.
Qed.

(** What the scheduled reply does when it fires. *)
Lemma auto_reply_pending (later : string) (st : App) (d0 : Store) (n : nat) :
  pending_replies st = S n ->
  data st = PyDict d0 ->
  let reply :=
    mkChatMessage "Auto-reply" "Message received. We'll follow up soon!" later in
  let store := PyDict (key_set k_chat (Some (collection (chat d0) ++ [reply])%list) d0) in
  auto_reply later st
  = (Ok tt,
     set_file (Some (JsonText store))
       (set_data store
          (set_chat_display
             (chat_display st ++ chat_line later (sender reply) (message reply))
             (set_pending_replies n st)))).
Proof.
  intros Hp Hd. open_state st. reflexivity.
Qed.

(** X6. [_send_chat_message] ignores a text that is blank once
    stripped: nothing changes.  Any other text is appended to the chat
    under the sender "You" with the clock reading, the file is written,
    and one reply is scheduled; when that reply fires, the chat is the
    old chat followed by the message and the auto-reply, in this order,
    the pane shows their two lines after what it showed, and the file
    holds the new state. *)
Theorem send_chat_then_reply (text now later : string) (st : App) :
  (falsy (strip text) = true -> _send_chat_message text now st = (Ok tt, st))
  /\ (forall d0,
         falsy (strip text) = false ->
         data st = PyDict d0 ->
         let you := mkChatMessage "You" (strip text) now in
         let reply :=
           mkChatMessage "Auto-reply" "Message received. We'll follow up soon!" later in
         let st1 := snd (_send_chat_message text now st) in
         let st2 := snd (auto_reply later st1) in
         fst (_send_chat_message text now st) = Ok tt
         /\ stored k_chat st1 = (collection (chat d0) ++ [you])%list
         /\ in_sync st1
         /\ pending_replies st1 = S (pending_replies st)
         /\ fst (auto_reply later st1) = Ok tt
         /\ stored k_chat st2 = (collection (chat d0) ++ [you; reply])%list
         /\ chat_display st2
            = chat_display st
              ++ chat_line now "You" (strip text)
              ++ chat_line later (sender reply) (message reply)
         /\ in_sync st2
         /\ pending_replies st2 = pending_replies st).
Proof.
  split.
  - intro H. unfold _send_chat_message. now rewrite H.
  - intros d0 H Hd. cbv zeta.
    rewrite (send_chat_accepted text now st d0 H Hd). cbn [fst snd].
    open_state st.
    erewrite !auto_reply_pending by reflexivity.
    unfold stored, in_sync.
    cbn [fst snd data file chat_display pending_replies set_file set_data
         set_chat_display set_pending_replies key_get key_set k_chat chat collection
         sender message].
    rewrite <- !List.app_assoc. cbn [app].
    rewrite ?append_assoc.
    repeat split.
Qed.

Lemma send_chat_then_reply_witness :
  _send_chat_message "   " "09:15" (first_run sum_left noon)
  = (Ok tt, first_run sum_left noon)
  /\ stored k_chat
       (snd (auto_reply "09:16"
               (snd (_send_chat_message " Hello " "09:15" (first_run sum_left noon)))))
     = [mkChatMessage "You" "Hello" "09:15";
        mkChatMessage "Auto-reply" "Message received. We'll follow up soon!" "09:16"].
Proof.
  split.
  - apply (proj1 (send_chat_then_reply "   " "09:15" "09:16" (first_run sum_left noon))).
    reflexivity.
  - pose proof (proj2 (send_chat_then_reply " Hello " "09:15" "09:16"
                         (first_run sum_left noon))
                  empty_store eq_refl eq_refl) as H.
    cbv zeta in H. apply H.
Defined.

(** The chat replayed at start-up: only the pane changes. *)
Lemma replay_chat_display (clock : nat -> string) (l : list ChatMessage) :
  forall i st,
    replay_chat clock i l st
    = (Ok tt, set_chat_display (chat_display st ++ replayed clock i l) st).
Proof.
  induction l as [| m l IH]; intros i st; cbn [replay_chat replayed].
  - open_state st. unfold ret, set_chat_display. cbn.
    now rewrite append_nil_r.
  - unfold bind. unfold _append_chat at 1. cbv [bind modify ret].
    rewrite IH. open_state st. unfold set_chat_display, chat_line. cbn.
    now rewrite (append_assoc cdisp).
Qed.

Lemma replayed_senders_messages (clock : nat -> string) (l l' : list ChatMessage) :
  map sender l = map sender l' ->
  map message l = map message l' ->
  forall i, replayed clock i l = replayed clock i l'.
Proof.
  revert l'. induction l as [| m l IH]; intros [| m' l'] Hs Hm i;
    try discriminate; [reflexivity |].
  cbn [map] in Hs, Hm. injection Hs as Hs1 Hs2. injection Hm as Hm1 Hm2.
  cbn [replayed]. rewrite Hs1, Hm1. f_equal. now apply IH.
Qed.

(** X7. At start-up [_build_media_tab] writes the stored chat to the
    pane, one line a message and in order, and leaves [self.data] and
    the file alone; each line carries the clock reading of the replay,
    so that two chats with the same senders and messages show the same
    lines whatever timestamps they were stored with. *)
Theorem build_media_tab_replays (clock : nat -> string) (st : App) (d0 : Store) :
  data st = PyDict d0 ->
  _build_media_tab clock st
  = (Ok tt,
     set_chat_display (chat_display st ++ replayed clock 0 (collection (chat d0))) st)
  /\ (forall l,
         map sender l = map sender (collection (chat d0)) ->
         map message l = map message (collection (chat d0)) ->
         replayed clock 0 l = replayed clock 0 (collection (chat d0))).
Proof.
  intro Hd. split.
  - unfold _build_media_tab, bind, data_get. rewrite Hd.
    cbn [key_get k_chat]. apply replay_chat_display.
  - intros l Hs Hm. now apply replayed_senders_messages.
Qed.

Lemma build_media_tab_replays_witness :
  chat_display
    (snd (_build_media_tab noon
            (set_data
               (PyDict (mkStore (Some []) (Some []) (Some [])
                                (Some [mkChatMessage "You" "Hello" "09:15"])))
               (boot None))))
  = "[12:00] You: Hello" ++ LF.
Proof.
  rewrite (proj1 (build_media_tab_replays noon
                    (set_data
                       (PyDict (mkStore (Some []) (Some []) (Some [])
                                        (Some [mkChatMessage "You" "Hello" "09:15"])))
                       (boot None))
                    (mkStore (Some []) (Some []) (Some [])
                             (Some [mkChatMessage "You" "Hello" "09:15"]))
                    eq_refl)).
  reflexivity.
Defined.

(** ** Filling a list at start-up *)

Lemma tv_item_snoc {V : Type} (iid other : string) (v : V) (rows : list (string * V))
  (sel sel' : list string) :
  tv_item other (mkTreeview (rows ++ [(iid, v)])%list sel)
  = match tv_item other (mkTreeview rows sel') with
    | Some w => Some w
    | None => if String.eqb iid other then Some v else None
    end.
Proof.
  unfold tv_item. cbn [tv_rows].
  induction rows as [| r rows IH]; cbn [app find fst].
  - destruct (String.eqb iid other); reflexivity.
  - destruct (String.eqb (fst r) other); [reflexivity | exact IH].
Qed.

Section InsertRows.

Context {A V : Type}.
Variable row_of : A -> string * V.
Variable tree : App -> Treeview V.
Variable set_tree : Treeview V -> App -> App.
Variable insert_row : A -> M unit.

Hypothesis insert_row_eq :
  forall x st,
    insert_row x st
    = match tv_insert (fst (row_of x)) (snd (row_of x)) (tree st) with
      | Some tv => (Ok tt, set_tree tv st)
      | None => (Raise (already_exists (fst (row_of x))), st)
      end.
Hypothesis tree_set : forall tv st, tree (set_tree tv st) = tv.
Hypothesis set_set : forall tv tv' st, set_tree tv' (set_tree tv st) = set_tree tv' st.
Hypothesis set_same : forall st, set_tree (tree st) st = st.

(** The loop over the stored records either inserts every row, or stops
    at the first identifier that is in the list already. *)
Lemma insert_rows_cases (l : list A) :
  forall st,
    (fresh_in (map (fun x => fst (row_of x)) l) (tree st)
     /\ for_each insert_row l st
        = (Ok tt,
           set_tree (mkTreeview (tv_rows (tree st) ++ map row_of l)%list
                                (tv_selection (tree st))) st))
    \/ (~ fresh_in (map (fun x => fst (row_of x)) l) (tree st)
        /\ exists iid, fst (for_each insert_row l st) = Raise (already_exists iid)).
Proof.
  induction l as [| x l IH]; intro st; cbn [for_each map].
  - left. split.
    + split; [constructor | intros iid []].
    + unfold ret. rewrite List.app_nil_r.
      destruct (tree st) as [rows sel] eqn:E. cbn [tv_rows tv_selection].
      now rewrite <- E, set_same.
  - unfold bind. rewrite insert_row_eq. unfold tv_insert.
    destruct (tv_item (fst (row_of x)) (tree st)) as [w |] eqn:E.
    + right. split.
      * intros [_ H]. rewrite (H (fst (row_of x))) in E by now left. discriminate.
      * now exists (fst (row_of x)).
    + destruct (row_of x) as [iid v] eqn:Ex. cbn [fst snd] in *.
      destruct (IH (set_tree (mkTreeview (tv_rows (tree st) ++ [(iid, v)])%list
                                         (tv_selection (tree st))) st))
        as [[[Hnd Hfree] Heq] | [Hno Hraise]].
      * left. rewrite tree_set in *. cbn [tv_rows tv_selection] in *. split.
        -- split.
           ++ constructor; [| exact Hnd].
              intro Hin. specialize (Hfree iid Hin).
              rewrite (tv_item_snoc iid iid v _ _ (tv_selection (tree st))) in Hfree.
              rewrite String.eqb_refl in Hfree.
              destruct (tv_item iid _); discriminate.
           ++ intros other [<- | Hin].
              ** destruct (tree st); exact E.
              ** specialize (Hfree other Hin).
                 rewrite (tv_item_snoc iid other v _ _ (tv_selection (tree st))) in Hfree.
                 destruct (tree st) as [rows sel]. cbn [tv_rows tv_selection] in *.
                 destruct (tv_item other _); [discriminate | reflexivity].
        -- rewrite Heq, set_set, <- List.app_assoc. reflexivity.
      * right. rewrite tree_set in *. split.
        -- intros [Hnd Hfree]. apply Hno. inversion Hnd as [| ? ? Hnotin Hnd']; subst.
           split; [exact Hnd' |].
           intros other Hin.
           rewrite (tv_item_snoc iid other v _ _ (tv_selection (tree st))).
           specialize (Hfree other (or_intror Hin)).
           destruct (tree st) as [rows sel]. cbn [tv_rows tv_selection] in *.
           rewrite Hfree.
           destruct (String.eqb_spec iid other) as [-> | _]; [contradiction | reflexivity].
        -- exact Hraise.
Qed.

End InsertRows.

Lemma set_events_tree_same (st : App) : set_events_tree (events_tree st) st = st.
Proof. now destruct st. Qed.

Lemma set_projects_tree_same (st : App) : set_projects_tree (projects_tree st) st = st.
Proof. now destruct st. Qed.

(** [_build_events_tab] on a dictionary. *)
Lemma build_events_tab_cases (st : App) (d0 : Store) :
  data st = PyDict d0 ->
  (fresh_in (map event_iid (collection (events d0))) (events_tree st)
   /\ _build_events_tab st
      = (Ok tt,
         set_events_tree
           (mkTreeview (tv_rows (events_tree st)
                          ++ map event_row_of (collection (events d0)))%list
                       (tv_selection (events_tree st))) st))
  \/ (~ fresh_in (map event_iid (collection (events d0))) (events_tree st)
      /\ exists iid, fst (_build_events_tab st) = Raise (already_exists iid)).
Proof.
  intro Hd. unfold _build_events_tab, bind, data_get. rewrite Hd.
  cbn [key_get k_events].
  apply (insert_rows_cases event_row_of events_tree set_events_tree _insert_event_row).
  - reflexivity.
  - reflexivity.
  - reflexivity.
  - apply set_events_tree_same.
Qed.

(** [_build_projects_tab] on a dictionary. *)
Lemma build_projects_tab_cases (st : App) (d0 : Store) :
  data st = PyDict d0 ->
  (fresh_in (map name (collection (projects d0))) (projects_tree st)
   /\ _build_projects_tab st
      = (Ok tt,
         set_projects_tree
           (mkTreeview (tv_rows (projects_tree st)
                          ++ map project_row_of (collection (projects d0)))%list
                       (tv_selection (projects_tree st))) st))
  \/ (~ fresh_in (map name (collection (projects d0))) (projects_tree st)
      /\ exists iid, fst (_build_projects_tab st) = Raise (already_exists iid)).
Proof.
  intro Hd. unfold _build_projects_tab, bind, data_get. rewrite Hd.
  cbn [key_get k_projects].
  apply (insert_rows_cases project_row_of projects_tree set_projects_tree
                           _insert_project_row).
  - reflexivity.
  - reflexivity.
  - reflexivity.
  - apply set_projects_tree_same.
Qed.

Lemma insert_finance_rows (l : list FinanceEntry) :
  forall st,
    for_each _insert_finance_row l st
    = (Ok tt, set_finance_tree (finance_tree st ++ map finance_row_of l)%list st).
Proof.
  induction l as [| e l IH]; intro st; cbn [for_each map].
  - unfold ret. rewrite List.app_nil_r. now destruct st.
  - unfold bind, _insert_finance_row at 1, modify. rewrite IH.
    destruct st. cbn. rewrite <- List.app_assoc. reflexivity.
Qed.

(** [_update_finance_summary] on a dictionary. *)
Lemma update_finance_summary_label (py_sum : list float -> float) (st : App)
  (d0 : Store) :
  data st = PyDict d0 ->
  _update_finance_summary py_sum st
  = (Ok tt,
     set_finance_summary (Some (summary_of py_sum (collection (finance d0)))) st).
Proof.
  intro Hd. open_state st.
  cbv [_update_finance_summary bind data_get data key_get k_finance modify summary_of].
  now rewrite income_filter, expense_filter.
Qed.

(** [_build_finance_tab] on a dictionary. *)
Lemma build_finance_tab_ledger (py_sum : list float -> float) (st : App) (d0 : Store) :
  data st = PyDict d0 ->
  _build_finance_tab py_sum st
  = (Ok tt,
     set_finance_summary (Some (summary_of py_sum (collection (finance d0))))
       (set_finance_tree
          (finance_tree st ++ map finance_row_of (collection (finance d0)))%list st)).
Proof.
  intro Hd. unfold _build_finance_tab, bind. unfold data_get at 1. rewrite Hd.
  cbn [key_get k_finance]. rewrite insert_finance_rows.
  apply update_finance_summary_label. now destruct st.
Qed.

Lemma build_media_tab_display (clock : nat -> string) (st : App) (d0 : Store) :
  data st = PyDict d0 ->
  _build_media_tab clock st
  = (Ok tt,
     set_chat_display (chat_display st ++ replayed clock 0 (collection (chat d0))) st).
Proof.
  intro Hd. unfold _build_media_tab, bind, data_get. rewrite Hd.
  cbn [key_get k_chat]. apply replay_chat_display.
Qed.

Lemma fresh_in_empty {V : Type} (ids : list string) (sel : list string) :
  fresh_in ids (mkTreeview (@nil (string * V)) sel) <-> NoDup ids.
Proof. unfold fresh_in. split; [tauto | intro H; split; [exact H | reflexivity]]. Qed.

Lemma bind_ok {A B : Type} (m : M A) (k : A -> M B) (st st' : App) (a : A) :
  m st = (Ok a, st') -> bind m k st = k a st'.
Proof. intro H. unfold bind. now rewrite H. Qed.

Lemma bind_raise {A B : Type} (m : M A) (k : A -> M B) (st : App) (e : exn) :
  fst (m st) = Raise e -> fst (bind m k st) = Raise e.
Proof.
  intro H. unfold bind. destruct (m st) as [[a | e'] st']; cbn [fst] in *;
    [discriminate | congruence].
Qed.

(** [__init__] on a file that holds a dictionary. *)
Lemma init_cases (py_sum : list float -> float) (clock : nat -> string) (d : Store) :
  let r := __init__ py_sum clock (boot (Some (JsonText (PyDict d)))) in
  (NoDup (map event_iid (collection (events d)))
   /\ NoDup (map name (collection (projects d)))
   /\ r = (Ok tt, rendered py_sum clock d))
  \/ ((~ NoDup (map event_iid (collection (events d)))
       \/ ~ NoDup (map name (collection (projects d))))
      /\ exists iid, fst r = Raise (already_exists iid)).
Proof.
  cbv zeta. unfold __init__.
  erewrite bind_ok by reflexivity.
  erewrite bind_ok by reflexivity.
  match goal with
  | |- context [bind _build_events_tab _ ?st] =>
      destruct (build_events_tab_cases st d eq_refl) as [[He Ee] | [He [iid Ee]]]
  end.
  - apply fresh_in_empty in He.
    erewrite bind_ok by exact Ee.
    erewrite bind_ok by (apply build_finance_tab_ledger; reflexivity).
    erewrite bind_ok by (apply build_media_tab_display; reflexivity).
    match goal with
    | |- context [_build_projects_tab ?st] =>
        destruct (build_projects_tab_cases st d eq_refl) as [[Hp Ep] | [Hp [iid Ep]]]
    end.
    + apply fresh_in_empty in Hp. left. rewrite Ep. repeat split; assumption.
    + right. split.
      * right. intro H. apply Hp. now apply fresh_in_empty.
      * now exists iid.
  - right. split.
    + left. intro H. apply He. now apply fresh_in_empty.
    + exists iid. now apply bind_raise.
Qed.





(** What [_add_project] does to an input it accepts, while the name is
    not in the list, and when it is. *)
Lemma add_project_fresh (py_float : string -> option float)
  (n m s e b status x : string) (st : App) (d0 : Store) (v : float) :
  data st = PyDict d0 ->
  falsy (strip n) = false ->
  py_float (str_or (strip b) "0") = Some v ->
  tv_item (strip n) (projects_tree st) = None ->
  let project := mkProject (strip n) (strip m) (strip s) (strip e) v status (strip x) in
  let store :=
    PyDict (key_set k_projects (Some (collection (projects d0) ++ [project])%list) d0) in
  _add_project py_float n m s e b status x st
  = (Ok tt,
     set_file (Some (JsonText store))
       (set_projects_tree
          (mkTreeview (tv_rows (projects_tree st)
                         ++ [(strip n, project_values project)])%list
                      (tv_selection (projects_tree st)))
          (set_data store st))).
Proof.
  intros Hd Hn Hb Hrow. open_state st.
  unfold _add_project. rewrite Hn, Hb.
  unfold bind, setdefault_append, _insert_project_row, _save_data, modify, tv_insert.
  cbn [data set_data projects_tree name key_get k_projects].
  rewrite Hrow. reflexivity.
Qed.

Lemma add_project_clash (py_float : string -> option float)
  (n m s e b status x : string) (st : App) (d0 : Store) (v : float) (row : project_row) :
  data st = PyDict d0 ->
  falsy (strip n) = false ->
  py_float (str_or (strip b) "0") = Some v ->
  tv_item (strip n) (projects_tree st) = Some row ->
  let project := mkProject (strip n) (strip m) (strip s) (strip e) v status (strip x) in
  _add_project py_float n m s e b status x st
  = (Raise (already_exists (strip n)),
     set_data
       (PyDict (key_set k_projects (Some (collection (projects d0) ++ [project])%list)
                        d0))
       st).
Proof.
  intros Hd Hn Hb Hrow. open_state st.
  unfold _add_project. rewrite Hn, Hb.
  unfold bind, setdefault_append, _insert_project_row, _save_data, modify, tv_insert.
  cbn [data set_data projects_tree name key_get k_projects].
  rewrite Hrow. reflexivity.
Qed.

Lemma not_NoDup_app_repeat {A : Type} (l : list A) (x y : A) :
  In x l -> x = y -> ~ NoDup (l ++ [y]).
Proof.
  intros Hin <- H. apply NoDup_remove_2 in H. rewrite List.app_nil_r in H.
  contradiction.
Qed.

(** X10. Once an event is entered whose title and date some stored
    event has already, closing the window writes both to the file, and
    the next [__init__] on that file raises Tk's error for an
    identifier that is in the list already: the application no longer
    starts. *)
Theorem repeated_event_blocks_restart (py_sum : list float -> float)
  (clock : nat -> string) (t d x : string) (st : App) (d0 : Store) ymd (e : Event) :
  data st = PyDict d0 ->
  falsy (strip t) = false ->
  falsy (strip d) = false ->
  strptime (strip d) = Some ymd ->
  In e (collection (events d0)) ->
  has_key (strip t) (strip d) e ->
  let closed := snd (_on_close (snd (_add_event t d x st))) in
  exists iid, fst (__init__ py_sum clock (boot (file closed))) = Raise (already_exists iid).
Proof.
  intros Hd Ht Hdt Hp Hin [Ek1 Ek2]. cbv zeta.
  assert (file (snd (_on_close (snd (_add_event t d x st))))
          = Some (JsonText
                    (PyDict (key_set k_events
                               (Some (collection (events d0)
                                      ++ [mkEvent (strip t) (strip d) (strip x)])%list)
                               d0)))) as ->.
  { destruct (tv_item (strip t ++ strip d) (events_tree st)) as [v |] eqn:Hrow.
    - rewrite (add_event_duplicate t d x st d0 ymd v) by assumption. reflexivity.
    - rewrite (add_event_accepted t d x st d0 ymd) by assumption. reflexivity. }
  destruct (init_cases py_sum clock
              (key_set k_events
                 (Some (collection (events d0)
                        ++ [mkEvent (strip t) (strip d) (strip x)])%list) d0))
    as [[He _] | [_ H]]; [| exact H].
  exfalso. cbn [key_set k_events events collection] in He.
  rewrite List.map_app in He. cbn [map] in He.
  revert He. apply (not_NoDup_app_repeat _ (event_iid e)).
  - now apply List.in_map.
  - unfold event_iid. cbn [title date]. now rewrite Ek1, Ek2.
Qed.

Lemma repeated_event_blocks_restart_witness :
  exists iid,
    fst (__init__ sum_left noon
           (boot (file (snd (_on_close
                               (snd (_add_event "Easter Service" "2025-04-20" "Duplicate"
                                       (snd (_add_event "Easter Service" "2025-04-20"
                                               "Celebration"
                                               (first_run sum_left noon))))))))))
    = Raise (already_exists iid).
Proof.
  apply (repeated_event_blocks_restart sum_left noon
           "Easter Service" "2025-04-20" "Duplicate"
           (snd (_add_event "Easter Service" "2025-04-20" "Celebration"
                            (first_run sum_left noon)))
           (mkStore (Some [easter]) (Some []) (Some []) (Some []))
           (2025, 4, 20)%Z easter);
    try reflexivity.
  - now left.
  - split; reflexivity.
Defined.

(** X11. Once [_add_project] has accepted a project under a name some
    stored project has already, closing the window writes both to the
    file, and the next [__init__] on that file raises Tk's error for an
    identifier that is in the list already: the application no longer
    starts. *)
Theorem repeated_project_blocks_restart (py_float : string -> option float)
  (py_sum : list float -> float) (clock : nat -> string)
  (n m s e b status x : string) (st : App) (d0 : Store) (v : float) (p : Project) :
  data st = PyDict d0 ->
  falsy (strip n) = false ->
  py_float (str_or (strip b) "0") = Some v ->
  In p (collection (projects d0)) ->
  name p = strip n ->
  let closed := snd (_on_close (snd (_add_project py_float n m s e b status x st))) in
  exists iid, fst (__init__ py_sum clock (boot (file closed))) = Raise (already_exists iid).
Proof.
  intros Hd Hn Hb Hin Ep. cbv zeta.
  assert (file (snd (_on_close (snd (_add_project py_float n m s e b status x st))))
          = Some (JsonText
                    (PyDict (key_set k_projects
                               (Some (collection (projects d0)
                                      ++ [mkProject (strip n) (strip m) (strip s)
                                                    (strip e) v status (strip x)])%list)
                               d0)))) as ->.
  { destruct (tv_item (strip n) (projects_tree st)) as [row |] eqn:Hrow.
    - rewrite (add_project_clash py_float n m s e b status x st d0 v row)
        by assumption.
      reflexivity.
    - rewrite (add_project_fresh py_float n m s e b status x st d0 v) by assumption.
      reflexivity. }
  match goal with
  | |- context [PyDict ?store] =>
      destruct (init_cases py_sum clock store) as [[_ [Hnd _]] | [_ H]]; [| exact H]
  end.
  exfalso. cbn [key_set k_projects projects collection] in Hnd.
  rewrite List.map_app in Hnd. cbn [map name] in Hnd.
  revert Hnd. apply (not_NoDup_app_repeat _ (name p)).
  - now apply List.in_map.
  - exact Ep.
Qed.

Lemma repeated_project_blocks_restart_witness :
  exists iid,
    fst (__init__ sum_left noon (boot (file (snd (_on_close two_halls)))))
    = Raise (already_exists iid).
Proof.
  apply (repeated_project_blocks_restart float_of_decimal sum_left noon
           "Hall Renovation" "Lee" "2025-03-01" EmptyString "500" "Planned" "Paint"
           (snd (_add_project float_of_decimal "Hall Renovation" "Dana" "2025-01-06"
                              "2025-09-30" "12000" "Planned" "New floor"
                              (first_run sum_left noon)))
           (mkStore (Some []) (Some []) (Some [hall "Planned"]) (Some []))
           500%float (hall "Planned"));
    try reflexivity.
  now left.
Defined.

(** ** The states of a session *)

Lemma grows_refl {A : Type} (l : list A) : grows l l.
Proof. exists []. now rewrite List.app_nil_r. Qed.

Lemma grows_snoc {A : Type} (l : list A) (x : A) : grows l (l ++ [x])%list.
Proof. now exists [x]. Qed.

Lemma grows_trans {A : Type} (l l' l'' : list A) :
  grows l l' -> grows l' l'' -> grows l l''.
Proof.
  intros [t ->] [t' ->]. exists (t ++ t')%list. now rewrite List.app_assoc.
Qed.

Ltac open_steady H :=
  let d0 := fresh "d0" in
  let Hd := fresh "Hd" in
  destruct H as [[d0 Hd] [Hse [Hsp [Hre [Hrp Hls]]]]].

Ltac steady_parts :=
  unfold steady; refine (conj _ (conj _ (conj _ (conj _ (conj _ _))))).

(** A handler that only shows a dialog, or does nothing. *)
Lemma advances_messagebox (py_sum : list float -> float) (d : dialog) :
  advances py_sum (messagebox d).
Proof.
  intros st H. open_steady H. open_state st. cbn [messagebox modify fst snd].
  split; [| split; [now left | split; apply grows_refl]].
  steady_parts; [now exists d0 | exact Hse | exact Hsp | exact Hre | exact Hrp | exact Hls].
Qed.

Lemma advances_same (py_sum : list float -> float) (st : App) :
  steady py_sum st ->
  steady py_sum st /\ benign (Ok tt)
  /\ grows (stored k_finance st) (stored k_finance st)
  /\ grows (stored k_chat st) (stored k_chat st).
Proof.
  intro H. split; [exact H | split; [now left | split; apply grows_refl]].
Qed.

Lemma selection_in_rows_snoc {V : Type} (tv : Treeview V) (iid : string) (v : V) :
  selection_in_rows tv ->
  selection_in_rows (mkTreeview (tv_rows tv ++ [(iid, v)])%list (tv_selection tv)).
Proof.
  intros H other Hin. cbn [tv_selection] in Hin. specialize (H other Hin).
  rewrite (tv_item_snoc iid other v _ _ (tv_selection tv)).
  destruct tv as [rows sel]. cbn [tv_rows tv_selection] in *.
  destruct (tv_item other _); [discriminate | contradiction].
Qed.

Lemma selection_in_rows_delete {V : Type} (tv : Treeview V) (iid : string) :
  selection_in_rows tv -> selection_in_rows (tv_delete iid tv).
Proof.
  intros H other Hin. unfold tv_delete in Hin. cbn [tv_selection] in Hin.
  apply List.filter_In in Hin as [Hin Hne].
  rewrite tv_item_delete_other; [now apply H |].
  intros ->. rewrite String.eqb_refl in Hne. discriminate.
Qed.

Lemma selection_in_rows_set {V : Type} (tv : Treeview V) (iid : string) (v : V) :
  selection_in_rows tv -> selection_in_rows (tv_set iid v tv).
Proof.
  intros H other Hin. cbn [tv_set tv_selection] in Hin. specialize (H other Hin).
  destruct (String.eqb_spec other iid) as [-> | Hne].
  - destruct (tv_item iid tv) as [w |] eqn:E; [| contradiction].
    now rewrite (tv_item_set_same iid v w tv E).
  - now rewrite tv_item_set_other.
Qed.

Lemma selection_in_rows_click {V : Type} (tv : Treeview V) (iid : string) (v : V) :
  tv_item iid tv = Some v -> selection_in_rows (mkTreeview (tv_rows tv) [iid]).
Proof.
  intros E other [<- | []]. change (tv_item iid tv <> None). now rewrite E.
Qed.

Lemma selected_has_row {V : Type} (tv : Treeview V) (iid : string) (rest : list string) :
  selection_in_rows tv -> tv_selection tv = iid :: rest ->
  exists row, tv_item iid tv = Some row.
Proof.
  intros H Hsel. specialize (H iid). rewrite Hsel in H.
  destruct (tv_item iid tv) as [row |]; [now exists row |].
  exfalso. apply H; [now left | reflexivity].
Qed.

(** A value read back from a row equals a stored text only when it is
    that text. *)
Lemma event_matches_read_back (py_int : string -> option Z) (row : event_row)
  (e : Event) :
  event_matches (read_back py_int row) e = true ->
  date e = fst row /\ title e = snd row.
Proof.
  unfold event_matches, read_back, _convert_stringval. cbn [fst snd].
  destruct (py_int (fst row)), (py_int (snd row)); cbn [py_eq];
    rewrite ?Bool.andb_false_r; try discriminate.
  intro H. apply andb_prop in H as [H1 H2].
  now apply String.eqb_eq in H1, H2.
Qed.

Ltac steady_goal :=
  split; [steady_parts | split; [| split]].

Lemma advances_add_event (py_sum : list float -> float) (t d x : string) :
  advances py_sum (_add_event t d x).
Proof.
  intros st H.
  destruct (falsy (strip t) || falsy (strip d)) eqn:Hf.
  { unfold _add_event. rewrite Hf. now apply advances_messagebox. }
  destruct (strptime (strip d)) as [ymd |] eqn:Hp.
  2: { unfold _add_event. rewrite Hf, Hp. now apply advances_messagebox. }
  apply Bool.orb_false_elim in Hf as [Ht Hdt]. open_steady H.
  destruct (tv_item (strip t ++ strip d) (events_tree st)) as [v |] eqn:Hrow.
  - rewrite (add_event_duplicate t d x st d0 ymd v) by assumption.
    open_state st. cbn [fst snd]. steady_goal.
    + now eexists.
    + exact Hse.
    + exact Hsp.
    + intros iid row E. destruct (Hre iid row E) as [E1 [e [Hin E2]]].
      split; [exact E1 |]. exists e. split; [| exact E2].
      unfold stored in *. cbn [data set_data key_get key_set k_events events collection]
        in *.
      apply List.in_or_app. now left.
    + exact Hrp.
    + exact Hls.
    + right. now eexists.
    + apply grows_refl.
    + apply grows_refl.
  - rewrite (add_event_accepted t d x st d0 ymd) by assumption.
    open_state st. cbn [fst snd]. steady_goal.
    + now eexists.
    + apply (selection_in_rows_snoc etree). exact Hse.
    + exact Hsp.
    + intros iid row E.
      unfold stored in *.
      cbn [data events_tree set_file set_events_tree set_data key_get key_set k_events
           events collection] in *.
      rewrite (tv_item_snoc _ iid _ _ _ (tv_selection etree)) in E.
      destruct etree as [rows sel]. cbn [tv_rows tv_selection] in *.
      destruct (tv_item iid (mkTreeview rows sel)) as [w |] eqn:Ew.
      * injection E as <-. destruct (Hre iid w Ew) as [E1 [e [Hin E2]]].
        split; [exact E1 |]. exists e. split; [| exact E2].
        apply List.in_or_app. now left.
      * destruct (String.eqb_spec (strip t ++ strip d) iid) as [<- | _];
          [| discriminate].
        injection E as <-. cbn [fst snd]. split; [reflexivity |].
        exists (mkEvent (strip t) (strip d) (strip x)). split.
        -- apply List.in_or_app. right. now left.
        -- split; reflexivity.
    + exact Hrp.
    + exact Hls.
    + now left.
    + apply grows_refl.
    + apply grows_refl.
Qed.

Lemma advances_select_event (py_sum : list float -> float)
  (py_int : string -> option Z) (iid : string) :
  advances py_sum (select_event py_int iid).
Proof.
  intros st H.
  destruct (tv_item iid (events_tree st)) as [v |] eqn:Hrow.
  2: { assert (select_event py_int iid st = (Ok tt, st)) as ->.
       { unfold select_event, bind, gets. now rewrite Hrow. }
       now apply advances_same. }
  open_steady H.
  destruct (select_event_row py_int iid st d0 v Hd Hrow) as [details ->].
  open_state st. cbn [fst snd]. steady_goal.
  - now eexists.
  - apply (selection_in_rows_click etree iid v Hrow).
  - exact Hsp.
  - exact Hre.
  - exact Hrp.
  - exact Hls.
  - now left.
  - apply grows_refl.
  - apply grows_refl.
Qed.

Lemma advances_delete_event (py_sum : list float -> float)
  (py_int : string -> option Z) :
  advances py_sum (_delete_event py_int).
Proof.
  intros st H.
  destruct (tv_selection (events_tree st)) as [| iid rest] eqn:Hsel.
  { rewrite (delete_event_no_selection py_int st Hsel).
    now apply advances_messagebox. }
  open_steady H.
  destruct (selected_has_row _ iid rest Hse Hsel) as [row Hrow].
  destruct (Hre iid row Hrow) as [Eiid [e0 [Hin0 _]]].
  assert (exists evs, events d0 = Some evs) as [evs Hev].
  { unfold stored in Hin0. rewrite Hd in Hin0. cbn [key_get k_events] in Hin0.
    destruct (events d0) as [evs |]; [now exists evs | destruct Hin0]. }
  rewrite (delete_event_selected py_int st d0 evs iid rest row) by assumption.
  revert Eiid. open_state st. intro Eiid. cbn [fst snd]. steady_goal.
  - now eexists.
  - apply (selection_in_rows_delete etree). exact Hse.
  - exact Hsp.
  - intros iid' row' E.
    unfold stored in *.
    cbn [data events_tree set_file set_event_details set_events_tree set_data
         key_get key_set k_events events collection] in *.
    rewrite Hev in *. cbn [collection] in *.
    destruct (String.eqb_spec iid' iid) as [-> | Hne].
    { rewrite tv_item_delete_same in E. discriminate. }
    rewrite tv_item_delete_other in E by assumption.
    destruct (Hre iid' row' E) as [E1 [e [Hin [E2 E3]]]].
    split; [exact E1 |]. exists e. split; [| now split].
    apply List.filter_In. split.
    { unfold stored in Hin. cbn [data key_get k_events] in Hin.
      now rewrite Hev in Hin. }
    destruct (event_matches (read_back py_int row) e) eqn:Em; [| reflexivity].
    apply event_matches_read_back in Em as [Em1 Em2].
    exfalso. apply Hne. rewrite E1, Eiid. congruence.
  - exact Hrp.
  - exact Hls.
  - now left.
  - apply grows_refl.
  - apply grows_refl.
Qed.

(** What [_add_finance_entry] does to an input it accepts. *)
Lemma add_finance_entry_state (py_float : string -> option float)
  (py_sum : list float -> float) (ty a c n now : string) (st : App) (d0 : Store)
  (v : float) :
  data st = PyDict d0 ->
  py_float (strip a) = Some v ->
  (v <=? 0)%float = false ->
  let entry := mkFinanceEntry ty v (str_or (strip c) "Uncategorized") (strip n) now in
  let fin := (collection (finance d0) ++ [entry])%list in
  let store := PyDict (key_set k_finance (Some fin) d0) in
  _add_finance_entry py_float py_sum ty a c n now st
  = (Ok tt,
     set_file (Some (JsonText store))
       (set_finance_summary (Some (summary_of py_sum fin))
          (set_finance_tree (finance_tree st ++ [finance_row_of entry])%list
             (set_data store st)))).
Proof.
  intros Hd Hf Hv. cbv zeta. unfold _add_finance_entry. rewrite Hf, Hv.
  erewrite bind_ok by (unfold setdefault_append; rewrite Hd; reflexivity).
  erewrite bind_ok by reflexivity.
  erewrite bind_ok by (apply update_finance_summary_label; reflexivity).
  open_state st. reflexivity.
Qed.

Lemma advances_add_finance_entry (py_float : string -> option float)
  (py_sum : list float -> float) (ty a c n now : string) :
  advances py_sum (_add_finance_entry py_float py_sum ty a c n now).
Proof.
  intros st H.
  destruct (py_float (strip a)) as [v |] eqn:Hf.
  2: { unfold _add_finance_entry. rewrite Hf. now apply advances_messagebox. }
  destruct (v <=? 0)%float eqn:Hv.
  { unfold _add_finance_entry. rewrite Hf, Hv. now apply advances_messagebox. }
  open_steady H.
  rewrite (add_finance_entry_state py_float py_sum ty a c n now st d0 v)
    by assumption.
  destruct Hls as [Hl1 Hl2]. open_state st. cbn [fst snd]. steady_goal.
  - now eexists.
  - exact Hse.
  - exact Hsp.
  - exact Hre.
  - exact Hrp.
  - unfold ledger_mirrors_finance, stored in *.
    cbn [data finance_tree finance_summary set_file set_finance_summary
         set_finance_tree set_data key_get key_set k_finance finance collection] in *.
    split; [| reflexivity].
    rewrite List.map_app, Hl1. reflexivity.
  - now left.
  - apply grows_snoc.
  - apply grows_refl.
Qed.

Lemma advances_send_chat_message (py_sum : list float -> float) (text now : string) :
  advances py_sum (_send_chat_message text now).
Proof.
  intros st H.
  destruct (falsy (strip text)) eqn:Hf.
  { assert (_send_chat_message text now st = (Ok tt, st)) as ->.
    { unfold _send_chat_message. now rewrite Hf. }
    now apply advances_same. }
  open_steady H. rewrite (send_chat_accepted text now st d0 Hf Hd).
  open_state st. cbn [fst snd]. steady_goal.
  - now eexists.
  - exact Hse.
  - exact Hsp.
  - exact Hre.
  - exact Hrp.
  - exact Hls.
  - now left.
  - apply grows_refl.
  - apply grows_snoc.
Qed.

Lemma advances_auto_reply (py_sum : list float -> float) (now : string) :
  advances py_sum (auto_reply now).
Proof.
  intros st H.
  destruct (pending_replies st) as [| n] eqn:Hp.
  { assert (auto_reply now st = (Ok tt, st)) as ->.
    { unfold auto_reply, bind, gets. now rewrite Hp. }
    now apply advances_same. }
  open_steady H. rewrite (auto_reply_pending now st d0 n Hp Hd).
  open_state st. cbn [fst snd]. steady_goal.
  - now eexists.
  - exact Hse.
  - exact Hsp.
  - exact Hre.
  - exact Hrp.
  - exact Hls.
  - now left.
  - apply grows_refl.
  - apply grows_snoc.
Qed.

Lemma rows_mirror_found (st : App) (iid : string) (row : project_row) :
  rows_mirror_projects st ->
  tv_item iid (projects_tree st) = Some row ->
  exists p, first_named iid (stored k_projects st) = Some p.
Proof.
  intros H E. rewrite (H iid) in E.
  destruct (first_named iid (stored k_projects st)) as [p |]; [now exists p |].
  discriminate.
Qed.

Lemma advances_add_project (py_float : string -> option float)
  (py_sum : list float -> float) (n m s e b status x : string) :
  advances py_sum (_add_project py_float n m s e b status x).
Proof.
  intros st H.
  destruct (falsy (strip n)) eqn:Hn.
  { unfold _add_project. rewrite Hn. now apply advances_messagebox. }
  destruct (py_float (str_or (strip b) "0")) as [v |] eqn:Hb.
  2: { unfold _add_project. rewrite Hn, Hb. now apply advances_messagebox. }
  open_steady H.
  destruct (tv_item (strip n) (projects_tree st)) as [row |] eqn:Hrow.
  - rewrite (add_project_clash py_float n m s e b status x st d0 v row) by assumption.
    destruct (rows_mirror_found st _ row Hrp Hrow) as [q Hq].
    open_state st. cbn [fst snd]. steady_goal.
    + now eexists.
    + exact Hse.
    + exact Hsp.
    + exact Hre.
    + intro iid. unfold rows_mirror_projects, stored in *.
      cbn [data projects_tree set_data key_get key_set k_projects projects collection]
        in *.
      rewrite first_named_app, Hrp.
      destruct (first_named iid (collection (projects d0))) as [q' |] eqn:Eq;
        [reflexivity |].
      cbn [name]. destruct (String.eqb_spec (strip n) iid) as [<- | _];
        [congruence | reflexivity].
    + exact Hls.
    + right. now eexists.
    + apply grows_refl.
    + apply grows_refl.
  - rewrite (add_project_fresh py_float n m s e b status x st d0 v) by assumption.
    open_state st. cbn [fst snd]. steady_goal.
    + now eexists.
    + exact Hse.
    + apply (selection_in_rows_snoc ptree). exact Hsp.
    + exact Hre.
    + intro iid. unfold rows_mirror_projects, stored in *.
      cbn [data projects_tree set_file set_projects_tree set_data key_get key_set
           k_projects projects collection] in *.
      rewrite first_named_app, (tv_item_snoc _ iid _ _ _ (tv_selection ptree)).
      destruct ptree as [rows sel]. cbn [tv_rows tv_selection] in *.
      rewrite Hrp.
      destruct (first_named iid (collection (projects d0))); [reflexivity |].
      cbn [option_map name]. destruct (String.eqb (strip n) iid); reflexivity.
    + exact Hls.
    + now left.
    + apply grows_refl.
    + apply grows_refl.
Qed.

(** What a click on a row of the projects list does. *)
Lemma select_project_row (iid : string) (st : App) (d0 : Store) (row : project_row) :
  data st = PyDict d0 ->
  tv_item iid (projects_tree st) = Some row ->
  exists details,
    select_project iid st
    = (Ok tt,
       set_project_details details
         (set_projects_tree (mkTreeview (tv_rows (projects_tree st)) [iid]) st)).
Proof.
  intros Hd Hrow. open_state st.
  unfold select_project, bind, gets, modify. cbn [projects_tree]. rewrite Hrow.
  cbn [projects_tree]. unfold tv_select. rewrite Hrow.
  unfold _show_project_details, bind, gets, data_get.
  cbn [projects_tree set_projects_tree tv_selection data key_get k_projects].
  destruct (first_named iid (collection (projects d0))) as [p |].
  - now exists (Some p).
  - now exists pdet.
Qed.

Lemma advances_select_project (py_sum : list float -> float) (iid : string) :
  advances py_sum (select_project iid).
Proof.
  intros st H.
  destruct (tv_item iid (projects_tree st)) as [row |] eqn:Hrow.
  2: { assert (select_project iid st = (Ok tt, st)) as ->.
       { unfold select_project, bind, gets. now rewrite Hrow. }
       now apply advances_same. }
  open_steady H.
  destruct (select_project_row iid st d0 row Hd Hrow) as [details ->].
  open_state st. cbn [fst snd]. steady_goal.
  - now eexists.
  - exact Hse.
  - apply (selection_in_rows_click ptree iid row Hrow).
  - exact Hre.
  - exact Hrp.
  - exact Hls.
  - now left.
  - apply grows_refl.
  - apply grows_refl.
Qed.

Lemma update_project_status_no_selection (new_status : string) (st : App) :
  tv_selection (projects_tree st) = [] ->
  _update_project_status new_status st
  = messagebox (showinfo "No selection" "Select a project to update.") st.
Proof. intro Hsel. unfold _update_project_status, bind, gets. now rewrite Hsel. Qed.

Lemma advances_update_project_status (py_sum : list float -> float)
  (new_status : string) :
  advances py_sum (_update_project_status new_status).
Proof.
  intros st H.
  destruct (tv_selection (projects_tree st)) as [| iid rest] eqn:Hsel.
  { rewrite (update_project_status_no_selection new_status st Hsel).
    now apply advances_messagebox. }
  open_steady H.
  destruct (selected_has_row _ iid rest Hsp Hsel) as [row Hrow].
  destruct (rows_mirror_found st iid row Hrp Hrow) as [p Hp].
  assert (first_named iid (collection (projects d0)) = Some p) as Hp'.
  { unfold stored in Hp. now rewrite Hd in Hp. }
  rewrite (update_project_status_found new_status st d0 iid rest p row) by assumption.
  open_state st. cbn [fst snd]. steady_goal.
  - now eexists.
  - exact Hse.
  - apply (selection_in_rows_set ptree). exact Hsp.
  - exact Hre.
  - intro other. unfold rows_mirror_projects, stored in *.
    cbn [data projects_tree set_project_details set_file set_projects_tree set_data
         key_get key_set k_projects projects collection] in *.
    destruct (String.eqb_spec other iid) as [-> | Hne].
    + rewrite (tv_item_set_same iid _ row ptree Hrow).
      now rewrite (first_named_assigned iid new_status _ p Hp').
    + rewrite tv_item_set_other, first_named_assigned_other by assumption.
      apply Hrp.
  - exact Hls.
  - now left.
  - apply grows_refl.
  - apply grows_refl.
Qed.

Lemma delete_project_unconfirmed (answer : bool) (st : App) :
  tv_selection (projects_tree st) = [] \/ answer = false ->
  exists d, _delete_project answer st = messagebox d st.
Proof.
  intro H. unfold _delete_project, bind, gets.
  destruct (tv_selection (projects_tree st)) as [| iid rest].
  - now eexists.
  - destruct H as [H | ->]; [discriminate |]. exists (confirm_delete false).
    cbn [negb]. unfold messagebox, modify, ret. reflexivity.
Qed.

Lemma advances_delete_project (py_sum : list float -> float) (answer : bool) :
  advances py_sum (_delete_project answer).
Proof.
  intros st H.
  destruct (tv_selection (projects_tree st)) as [| iid rest] eqn:Hsel.
  { destruct (delete_project_unconfirmed answer st (or_introl Hsel)) as [d ->].
    now apply advances_messagebox. }
  destruct answer.
  2: { destruct (delete_project_unconfirmed false st (or_intror eq_refl)) as [d ->].
       now apply advances_messagebox. }
  open_steady H.
  destruct (selected_has_row _ iid rest Hsp Hsel) as [row Hrow].
  rewrite (delete_project_confirmed st d0 iid rest row) by assumption.
  open_state st. cbn [fst snd]. steady_goal.
  - now eexists.
  - exact Hse.
  - apply (selection_in_rows_delete ptree). exact Hsp.
  - exact Hre.
  - intro other. unfold rows_mirror_projects, stored in *.
    cbn [data projects_tree set_project_details set_file set_projects_tree set_data
         set_dialogs key_get key_set k_projects projects collection] in *.
    destruct (String.eqb_spec other iid) as [-> | Hne].
    + now rewrite tv_item_delete_same, first_named_filter_same.
    + rewrite tv_item_delete_other, first_named_filter_other by assumption.
      apply Hrp.
  - exact Hls.
  - now left.
  - apply grows_refl.
  - apply grows_refl.
Qed.

(** Every action keeps a running application running. *)
Lemma advances_step (py_int : string -> option Z) (py_float : string -> option float)
  (py_sum : list float -> float) (a : action) :
  advances py_sum (step py_int py_float py_sum a).
Proof.
  destruct a; cbn [step].
  - apply advances_add_event.
  - apply advances_select_event.
  - apply advances_delete_event.
  - apply advances_add_finance_entry.
  - apply advances_send_chat_message.
  - apply advances_auto_reply.
  - apply advances_add_project.
  - apply advances_select_project.
  - apply advances_update_project_status.
  - apply advances_delete_project.
Qed.

Lemma run_cons (py_int : string -> option Z) (py_float : string -> option float)
  (py_sum : list float -> float) (a : action) (acts : list action) (st : App) :
  run py_int py_float py_sum (a :: acts) st
  = (fst (step py_int py_float py_sum a st)
       :: fst (run py_int py_float py_sum acts
                   (snd (step py_int py_float py_sum a st))),
     snd (run py_int py_float py_sum acts (snd (step py_int py_float py_sum a st)))).
Proof.
  cbn [run]. destruct (step py_int py_float py_sum a st) as [r st1]. cbn [fst snd].
  destruct (run py_int py_float py_sum acts st1) as [rs st2]. reflexivity.
Qed.

(** A run from a state of a running application. *)
Lemma run_steady (py_int : string -> option Z) (py_float : string -> option float)
  (py_sum : list float -> float) (acts : list action) :
  forall st,
    steady py_sum st ->
    let r := run py_int py_float py_sum acts st in
    steady py_sum (snd r)
    /\ Forall benign (fst r)
    /\ grows (stored k_finance st) (stored k_finance (snd r))
    /\ grows (stored k_chat st) (stored k_chat (snd r)).
Proof.
  induction acts as [| a acts IH]; intros st H; cbv zeta.
  - cbn [run fst snd]. split; [exact H | split; [constructor | split; apply grows_refl]].
  - rewrite run_cons. cbn [fst snd].
    destruct (advances_step py_int py_float py_sum a st H) as [H1 [Hb [Hf Hc]]].
    destruct (IH _ H1) as [H2 [Hbs [Hfs Hcs]]].
    split; [exact H2 |].
    split; [now constructor |].
    split; [exact (grows_trans _ _ _ Hf Hfs) | exact (grows_trans _ _ _ Hc Hcs)].
Qed.

Lemma tv_item_event_rows (iid : string) (evs : list Event) (sel : list string)
  (row : event_row) :
  tv_item iid (mkTreeview (map event_row_of evs) sel) = Some row ->
  iid = snd row ++ fst row
  /\ exists e, In e evs /\ date e = fst row /\ title e = snd row.
Proof.
  unfold tv_item. cbn [tv_rows].
  induction evs as [| e evs IH]; cbn [map find]; [discriminate |].
  cbn [event_row_of fst].
  destruct (String.eqb_spec (event_iid e) iid) as [<- | _].
  - cbn [option_map snd]. intro H. injection H as <-. cbn [fst snd].
    split; [reflexivity |]. exists e. split; [now left | now split].
  - intro H. destruct (IH H) as [E1 [e' [Hin E2]]].
    split; [exact E1 |]. exists e'. split; [now right | exact E2].
Qed.

Lemma tv_item_project_rows (iid : string) (ps : list Project) (sel : list string) :
  tv_item iid (mkTreeview (map project_row_of ps) sel)
  = option_map project_values (first_named iid ps).
Proof.
  unfold tv_item, first_named. cbn [tv_rows].
  induction ps as [| p ps IH]; cbn [map find]; [reflexivity |].
  cbn [project_row_of fst].
  destruct (String.eqb (name p) iid); [reflexivity | exact IH].
Qed.

(** What [__init__] builds from a dictionary is a state of a running
    application. *)
Lemma steady_rendered (py_sum : list float -> float) (clock : nat -> string)
  (d : Store) :
  steady py_sum (rendered py_sum clock d).
Proof.
  unfold rendered. steady_parts.
  - now eexists.
  - intros iid [].
  - intros iid [].
  - intros iid row E. cbn [events_tree] in E. unfold stored. cbn [data key_get k_events].
    now apply (tv_item_event_rows iid _ []).
  - intro iid. unfold stored. cbn [projects_tree data key_get k_projects].
    apply tv_item_project_rows.
  - split; reflexivity.
Qed.

(** When [__init__] returns, the application is running. *)
Lemma init_steady (py_sum : list float -> float) (clock : nat -> string)
  (doc : option document) :
  fst (__init__ py_sum clock (boot doc)) = Ok tt ->
  steady py_sum (snd (__init__ py_sum clock (boot doc))).
Proof.
  destruct doc as [[| | [d | o]] |].
  - discriminate.
  - intros _. change (steady py_sum
                        (set_dialogs [corrupted_warning]
                           (set_file (Some NotJson)
                              (rendered py_sum clock (mkStore (Some []) (Some []) (Some [])
                                                              (Some [])))))).
    pose proof (steady_rendered py_sum clock empty_store) as H.
    open_steady H. steady_parts; try assumption. now eexists.
  - destruct (init_cases py_sum clock d) as [[_ [_ E]] | [_ [iid E]]].
    + intros _. rewrite E. apply steady_rendered.
    + intro H. rewrite E in H. discriminate.
  - discriminate.
  - intros _. change (steady py_sum (set_file None (rendered py_sum clock empty_store))).
    pose proof (steady_rendered py_sum clock empty_store) as H.
    open_steady H. steady_parts; try assumption. now eexists.
Qed.

(** A whole session, when [__init__] returns. *)
Lemma session_started (py_int : string -> option Z) (py_float : string -> option float)
  (py_sum : list float -> float) (clock : nat -> string) (doc : option document)
  (acts : list action) :
  fst (__init__ py_sum clock (boot doc)) = Ok tt ->
  session py_int py_float py_sum clock doc acts
  = (Ok tt :: fst (run py_int py_float py_sum acts
                       (snd (__init__ py_sum clock (boot doc)))),
     snd (run py_int py_float py_sum acts (snd (__init__ py_sum clock (boot doc))))).
Proof.
  intro H. unfold session.
  destruct (__init__ py_sum clock (boot doc)) as [[[] | e] st]; cbn [fst snd] in *;
    [| discriminate].
  now destruct (run py_int py_float py_sum acts st).
Qed.

(** X12. Once [__init__] has returned, whatever the user does next,
    every handler returns normally or is stopped by Tk's error for an
    identifier that is in a list already: no [KeyError],
    [AttributeError] or [TypeError] on [self.data], and no Tk error for
    a missing item, is ever raised. *)
Theorem session_raises_only_already_exists (py_int : string -> option Z)
  (py_float : string -> option float) (py_sum : list float -> float)
  (clock : nat -> string) (doc : option document) (acts : list action) :
  fst (__init__ py_sum clock (boot doc)) = Ok tt ->
  Forall benign (fst (session py_int py_float py_sum clock doc acts)).
Proof.
  intro H. rewrite (session_started py_int py_float py_sum clock doc acts H).
  cbn [fst]. constructor; [now left |].
  apply (run_steady py_int py_float py_sum acts _ (init_steady py_sum clock doc H)).
Qed.

Lemma session_raises_only_already_exists_witness :
  Forall benign
    (fst (session int_of_decimal float_of_decimal sum_left noon None
            [AddEvent "Easter Service" "2025-04-20" "Celebration";
             AddEvent "Easter Service" "2025-04-20" "Duplicate";
             SelectEvent "Easter Service2025-04-20";
             DeleteEvent;
             DeleteEvent])).
Proof.
  apply (session_raises_only_already_exists int_of_decimal float_of_decimal sum_left
           noon None).
  reflexivity.
Defined.

(** X13. Once [__init__] has returned, in every state a session
    reaches the projects list has a row for a name exactly when a
    project of that name is stored, the row shows the first such
    project, and the selected row, if any, names a stored project: the
    lookups of [_show_project_details] and [_update_project_status]
    never miss. *)
Theorem session_projects_list_mirrors_store (py_int : string -> option Z)
  (py_float : string -> option float) (py_sum : list float -> float)
  (clock : nat -> string) (doc : option document) (acts : list action) :
  fst (__init__ py_sum clock (boot doc)) = Ok tt ->
  let st := snd (session py_int py_float py_sum clock doc acts) in
  rows_mirror_projects st
  /\ forall iid,
       In iid (tv_selection (projects_tree st)) ->
       exists p,
         first_named iid (stored k_projects st) = Some p
         /\ tv_item iid (projects_tree st) = Some (project_values p).
Proof.
  intro H. cbv zeta. rewrite (session_started py_int py_float py_sum clock doc acts H).
  cbn [snd].
  destruct (run_steady py_int py_float py_sum acts _ (init_steady py_sum clock doc H))
    as [Hst _].
  cbv zeta in Hst. open_steady Hst. split; [exact Hrp |].
  intros iid Hin. specialize (Hsp iid Hin). rewrite (Hrp iid) in Hsp |- *.
  destruct (first_named iid _) as [p |]; [now exists p | contradiction].
Qed.

Lemma session_projects_list_mirrors_store_witness :
  rows_mirror_projects
    (snd (session int_of_decimal float_of_decimal sum_left noon None
            [AddProject "Hall Renovation" "Dana" "2025-01-06" "2025-09-30" "12000"
                        "Planned" "New floor";
             AddProject "Hall Renovation" "Lee" "2025-03-01" EmptyString "500"
                        "Planned" "Paint";
             SelectProject "Hall Renovation";
             UpdateProjectStatus "Completed"])).
Proof.
  apply (session_projects_list_mirrors_store int_of_decimal float_of_decimal sum_left
           noon None).
  reflexivity.
Defined.

(** X14. Once [__init__] has returned, in every state a session
    reaches each row of the events list is filed under its title
    followed by its date and shows the date and title of some stored
    event, and the selected row, if any, is in the list. *)
Theorem session_event_rows_stand_for_events (py_int : string -> option Z)
  (py_float : string -> option float) (py_sum : list float -> float)
  (clock : nat -> string) (doc : option document) (acts : list action) :
  fst (__init__ py_sum clock (boot doc)) = Ok tt ->
  let st := snd (session py_int py_float py_sum clock doc acts) in
  rows_stand_for_events st /\ selection_in_rows (events_tree st).
Proof.
  intro H. cbv zeta. rewrite (session_started py_int py_float py_sum clock doc acts H).
  cbn [snd].
  destruct (run_steady py_int py_float py_sum acts _ (init_steady py_sum clock doc H))
    as [Hst _].
  cbv zeta in Hst. open_steady Hst. now split.
Qed.

Lemma session_event_rows_stand_for_events_witness :
  rows_stand_for_events
    (snd (session int_of_decimal float_of_decimal sum_left noon None
            [AddEvent "Easter Service" "2025-04-20" "Celebration";
             AddEvent "Church Picnic" "2025-05-11" "Bring a dish";
             SelectEvent "Easter Service2025-04-20";
             DeleteEvent])).
Proof.
  apply (session_event_rows_stand_for_events int_of_decimal float_of_decimal sum_left
           noon None).
  reflexivity.
Defined.

(** X15. Once [__init__] has returned, in every state a session
    reaches the ledger shows the stored finance entries, one row each
    and in stored order, and the label shows the income, the expenses
    and the balance of exactly those entries. *)
Theorem session_ledger_mirrors_finance (py_int : string -> option Z)
  (py_float : string -> option float) (py_sum : list float -> float)
  (clock : nat -> string) (doc : option document) (acts : list action) :
  fst (__init__ py_sum clock (boot doc)) = Ok tt ->
  ledger_mirrors_finance py_sum
    (snd (session py_int py_float py_sum clock doc acts)).
Proof.
  intro H. rewrite (session_started py_int py_float py_sum clock doc acts H).
  cbn [snd].
  destruct (run_steady py_int py_float py_sum acts _ (init_steady py_sum clock doc H))
    as [Hst _].
  cbv zeta in Hst. open_steady Hst. exact Hls.
Qed.

Lemma session_ledger_mirrors_finance_witness :
  ledger_mirrors_finance sum_left
    (snd (session int_of_decimal float_of_decimal sum_left noon None
            [AddFinanceEntry "Income" "100" "Tithe" EmptyString "2025-04-20 10:00";
             AddFinanceEntry "Expense" "0" "Repairs" EmptyString "2025-04-21 09:00";
             AddFinanceEntry "Expense" "40.5" EmptyString "Paint" "2025-04-21 09:05"])).
Proof.
  apply (session_ledger_mirrors_finance int_of_decimal float_of_decimal sum_left
           noon None).
  reflexivity.
Defined.

(** X16. Once [__init__] has returned, no action takes a finance entry
    or a chat message away or changes one: at every later state the
    stored ledger and the stored chat are what [__init__] found,
    followed by what has been added since. *)
Theorem session_ledger_and_chat_only_grow (py_int : string -> option Z)
  (py_float : string -> option float) (py_sum : list float -> float)
  (clock : nat -> string) (doc : option document) (acts : list action) :
  fst (__init__ py_sum clock (boot doc)) = Ok tt ->
  let started := snd (__init__ py_sum clock (boot doc)) in
  let st := snd (session py_int py_float py_sum clock doc acts) in
  grows (stored k_finance started) (stored k_finance st)
  /\ grows (stored k_chat started) (stored k_chat st).
Proof.
  intro H. cbv zeta. rewrite (session_started py_int py_float py_sum clock doc acts H).
  cbn [snd].
  destruct (run_steady py_int py_float py_sum acts _ (init_steady py_sum clock doc H))
    as [_ [_ Hg]].
  exact Hg.
Qed.

Lemma session_ledger_and_chat_only_grow_witness :
  let acts :=
    [AddFinanceEntry "Income" "100" "Tithe" EmptyString "2025-04-20 10:00";
     SendChat "Hello" "09:15";
     AutoReply "09:16";
     AddEvent "Easter Service" "2025-04-20" "Celebration";
     SelectEvent "Easter Service2025-04-20";
     DeleteEvent] in
  let st := snd (session int_of_decimal float_of_decimal sum_left noon None acts) in
  grows (stored k_finance (first_run sum_left noon)) (stored k_finance st)
  /\ grows (stored k_chat (first_run sum_left noon)) (stored k_chat st).
Proof.
  apply (session_ledger_and_chat_only_grow int_of_decimal float_of_decimal sum_left
           noon None).
  reflexivity.
Defined.

(** X17. An action that returns normally from a state whose file holds
    [self.data] leaves the file holding [self.data]: memory and file
    fall out of step only where a handler raises. *)
Theorem returning_action_keeps_sync (py_int : string -> option Z)
  (py_float : string -> option float) (py_sum : list float -> float)
  (a : action) (st : App) :
  in_sync st ->
  fst (step py_int py_float py_sum a st) = Ok tt ->
  in_sync (snd (step py_int py_float py_sum a st)).
Proof.
  intros Hs Hr.
  destruct (step py_int py_float py_sum a st) as [r st'] eqn:E. cbn [fst snd] in *.
  subst r.
  destruct (step_saved_or_untouched py_int py_float py_sum a st tt st' E)
    as [H | [Hd Hf]]; [exact H |].
  unfold in_sync in *. now rewrite Hd, Hf.
Qed.

Lemma returning_action_keeps_sync_witness :
  in_sync
    (snd (step int_of_decimal float_of_decimal sum_left
               (AddEvent "Church Picnic" "2025-05-11" "Bring a dish")
               (snd (_add_event "Easter Service" "2025-04-20" "Celebration"
                                (first_run sum_left noon))))).
Proof.
  apply (returning_action_keeps_sync int_of_decimal float_of_decimal sum_left
           (AddEvent "Church Picnic" "2025-05-11" "Bring a dish")
           (snd (_add_event "Easter Service" "2025-04-20" "Celebration"
                            (first_run sum_left noon))));
    reflexivity.
Defined.

(** ** Row identifiers of accepted events *)

Lemma two_chars_length (lo1 hi1 lo2 hi2 : Z) (s : string) (x : Z * string) :
  In x (two_chars lo1 hi1 lo2 hi2 s) -> String.length s = 2 + String.length (snd x).
Proof.
  unfold two_chars. destruct s as [| a [| b r]]; try (intros []).
  destruct (in_range lo1 hi1 a && in_range lo2 hi2 b); [| intros []].
  intros [<- | []]. reflexivity.
Qed.

Lemma one_char_length (lo hi : Z) (s : string) (x : Z * string) :
  In x (one_char lo hi s) -> String.length s = 1 + String.length (snd x).
Proof.
  unfold one_char. destruct s as [| a r]; try (intros []).
  destruct (in_range lo hi a); [| intros []].
  intros [<- | []]. reflexivity.
Qed.

Lemma space_char_length (lo hi : Z) (s : string) (x : Z * string) :
  In x (space_char lo hi s) -> String.length s = 2 + String.length (snd x).
Proof.
  unfold space_char. destruct s as [| a [| b r]]; try (intros []).
  destruct (Ascii.eqb a " " && in_range lo hi b); [| intros []].
  intros [<- | []]. reflexivity.
Qed.

Lemma match_m_length (s : string) (x : Z * string) :
  In x (match_m s) ->
  String.length s = 1 + String.length (snd x)
  \/ String.length s = 2 + String.length (snd x).
Proof.
  unfold match_m. intro H.
  repeat (apply List.in_app_or in H as [H | H]);
    eauto using two_chars_length, one_char_length.
Qed.

Lemma match_d_length (s : string) (x : Z * string) :
  In x (match_d s) ->
  String.length s = 1 + String.length (snd x)
  \/ String.length s = 2 + String.length (snd x).
Proof.
  unfold match_d. intro H.
  repeat (apply List.in_app_or in H as [H | H]);
    eauto using two_chars_length, one_char_length, space_char_length.
Qed.

Lemma first_some_in {A B : Type} (f : A -> option B) (l : list A) (y : B) :
  first_some f l = Some y -> exists x, In x l /\ f x = Some y.
Proof.
  induction l as [| x l IH]; cbn [first_some]; [discriminate |].
  destruct (f x) as [y' |] eqn:E.
  - intro H. injection H as <-. exists x. split; [now left | exact E].
  - intro H. destruct (IH H) as [x' [Hin Hx]]. exists x'. split; [now right | exact Hx].
Qed.

Lemma lit_inv (c : ascii) (s r : string) : lit c s = Some r -> s = String c r.
Proof.
  unfold lit. destruct s as [| c' s']; [discriminate |].
  destruct (Ascii.eqb_spec c c') as [<- | _]; [| discriminate].
  now intros [= <-].
Qed.

(** A text [strptime] accepts is four digits and a hyphen, followed by
    three to five characters. *)
Lemma strptime_shape (s : string) (ymd : Z * Z * Z) :
  strptime s = Some ymd ->
  exists a b c d r,
    s = String a (String b (String c (String d (String "-" r))))
    /\ isdigit a = true /\ isdigit b = true /\ isdigit c = true /\ isdigit d = true
    /\ 3 <= String.length r <= 5.
Proof.
  unfold strptime. destruct (regex_match s) as [[[[y m] dd] rest] |] eqn:E;
    [| discriminate].
  destruct rest; [| discriminate]. intros _.
  unfold regex_match, match_Y in E.
  destruct s as [| a [| b [| c [| d s1]]]]; try discriminate.
  destruct (isdigit a && isdigit b && isdigit c && isdigit d) eqn:Hdig;
    [| discriminate].
  destruct (lit "-" s1) as [s2 |] eqn:L1; [| discriminate].
  apply lit_inv in L1. subst s1.
  apply first_some_in in E as [[m' s3] [Hm E]]. cbn [snd fst] in E.
  destruct (lit "-" s3) as [s4 |] eqn:L2; [| discriminate].
  apply lit_inv in L2. subst s3.
  destruct (match_d s4) as [| [d' s5] tl] eqn:Md; [discriminate |].
  injection E as _ _ _ E5. subst s5.
  assert (In (d', EmptyString) (match_d s4)) as Hd by (rewrite Md; now left).
  apply match_d_length in Hd. apply match_m_length in Hm.
  cbn [snd String.length] in Hd, Hm.
  apply andb_prop in Hdig as [Hdig Hd4]. apply andb_prop in Hdig as [Hdig Hd3].
  apply andb_prop in Hdig as [Hd1 Hd2].
  exists a, b, c, d, s2. repeat split; try assumption; lia.
Qed.

Lemma append_overlap (a b a' b' : string) :
  a ++ b = a' ++ b' ->
  exists u, (a = a' ++ u /\ b' = u ++ b) \/ (a' = a ++ u /\ b = u ++ b').
Proof.
  revert a'. induction a as [| x a IH]; intros a' H.
  - exists a'. right. cbn in *. now split.
  - destruct a' as [| x' a'].
    + exists (String x a). left. cbn in *. now split.
    + cbn in H. injection H as <- H. destruct (IH a' H) as [u [[E1 E2] | [E1 E2]]].
      * exists u. left. cbn. now rewrite E1.
      * exists u. right. cbn. now rewrite E1.
Qed.

(** An accepted date does not end in another accepted date. *)
Lemma accepted_date_suffix (u d d' : string) (ymd ymd' : Z * Z * Z) :
  strptime d = Some ymd -> strptime d' = Some ymd' -> d' = u ++ d -> u = EmptyString.
Proof.
  intros H H' E.
  destruct (strptime_shape d ymd H) as [a [b [c [e [r [-> [Ha [Hb [Hc [He Hr]]]]]]]]]].
  destruct (strptime_shape d' ymd' H')
    as [a' [b' [c' [e' [r' [-> [Ha' [Hb' [Hc' [He' Hr']]]]]]]]]].
  destruct u as [| u1 [| u2 [| u3 u]]]; cbn [append] in E.
  - reflexivity.
  - injection E as _ _ _ _ E _. subst e. discriminate.
  - injection E as _ _ _ _ E _. subst c. discriminate.
  - exfalso. apply (f_equal String.length) in E.
    cbn [String.length] in E. rewrite append_length in E.
    cbn [String.length] in E. lia.
Qed.

(** X18. Two events with dates that [strptime] accepts are filed under
    the same row identifier, the title followed by the date, only when
    they have the same title and the same date: among accepted events
    the insertion of a row is refused for the repetition of a key and
    for nothing else. *)
Theorem event_iid_injective (e e' : Event) (ymd ymd' : Z * Z * Z) :
  strptime (date e) = Some ymd ->
  strptime (date e') = Some ymd' ->
  event_iid e = event_iid e' ->
  title e = title e' /\ date e = date e'.
Proof.
  unfold event_iid. intros H H' E.
  destruct (append_overlap _ _ _ _ E) as [u [[E1 E2] | [E1 E2]]].
  - assert (u = EmptyString) as -> by exact (accepted_date_suffix u _ _ _ _ H H' E2).
    rewrite append_nil_r in E1. cbn [append] in E2. now split.
  - assert (u = EmptyString) as -> by exact (accepted_date_suffix u _ _ _ _ H' H E2).
    rewrite append_nil_r in E1. cbn [append] in E2. now split.
Qed.

Lemma event_iid_injective_witness :
  event_iid easter = event_iid easter_again
  /\ title easter = title easter_again /\ date easter = date easter_again.
Proof.
  split; [reflexivity |].
  apply (event_iid_injective easter easter_again (2025, 4, 20)%Z (2025, 4, 20)%Z);
    reflexivity.
Defined.

(** ** A key entered twice *)

Lemma snoc_not_same {A : Type} (l : list A) (x : A) : l <> (l ++ [x])%list.
Proof.
  intro H. apply (f_equal (@List.length A)) in H.
  rewrite List.length_app in H. cbn [List.length] in H. lia.
Qed.

Lemma option_snoc_not_same {A : Type} (o : option (list A)) (x : A) :
  o <> Some (collection o ++ [x])%list.
Proof.
  destruct o as [l |]; [| discriminate].
  cbn [collection]. intros [= H]. exact (snoc_not_same l x H).
Qed.

(** X19. Whenever [_add_event] accepts an input whose identifier, the
    stripped title followed by the stripped date, is in the list
    already, it raises Tk's error for that identifier after the event
    is appended to [self.data] and before the file is written: the
    list and the file are as they were, and a file that held
    [self.data] no longer does. *)
Theorem add_event_clash_leaves_file_behind (t d x : string) (st : App) (d0 : Store)
  ymd (row : event_row) :
  data st = PyDict d0 ->
  falsy (strip t) = false ->
  falsy (strip d) = false ->
  strptime (strip d) = Some ymd ->
  tv_item (strip t ++ strip d) (events_tree st) = Some row ->
  let r := _add_event t d x st in
  fst r = Raise (already_exists (strip t ++ strip d))
  /\ stored k_events (snd r)
     = (stored k_events st ++ [mkEvent (strip t) (strip d) (strip x)])%list
  /\ events_tree (snd r) = events_tree st
  /\ file (snd r) = file st
  /\ (in_sync st -> ~ in_sync (snd r)).
Proof.
  intros Hd Ht Hdt Hp Hrow. cbv zeta.
  rewrite (add_event_duplicate t d x st d0 ymd row) by assumption.
  open_state st. unfold stored, in_sync.
  cbn [fst snd data file events_tree set_data key_get key_set k_events events].
  repeat split.
  intros -> [= H]. apply (f_equal events) in H. cbn [events] in H.
  exact (option_snoc_not_same _ _ H).
Qed.

Lemma add_event_clash_leaves_file_behind_witness :
  let st := snd (_add_event "Easter Service" "2025-04-20" "Celebration"
                            (first_run sum_left noon)) in
  in_sync st
  /\ ~ in_sync (snd (_add_event " Easter Service" "2025-04-20 " "Duplicate" st)).
Proof.
  cbv zeta. split; [reflexivity |].
  apply (add_event_clash_leaves_file_behind " Easter Service" "2025-04-20 " "Duplicate"
           (snd (_add_event "Easter Service" "2025-04-20" "Celebration"
                            (first_run sum_left noon)))
           (mkStore (Some [easter]) (Some []) (Some []) (Some []))
           (2025, 4, 20)%Z ("2025-04-20", "Easter Service"));
    reflexivity.
Defined.

(** X20. Whenever [_add_project] accepts an input whose stripped name
    is in the projects list already, it raises Tk's error for that name
    after the project is appended to [self.data] and before the file is
    written: the list and the file are as they were, and a file that
    held [self.data] no longer does. *)
Theorem add_project_clash_leaves_file_behind (py_float : string -> option float)
  (n m s e b status x : string) (st : App) (d0 : Store) (v : float) (row : project_row) :
  data st = PyDict d0 ->
  falsy (strip n) = false ->
  py_float (str_or (strip b) "0") = Some v ->
  tv_item (strip n) (projects_tree st) = Some row ->
  let r := _add_project py_float n m s e b status x st in
  fst r = Raise (already_exists (strip n))
  /\ stored k_projects (snd r)
     = (stored k_projects st
        ++ [mkProject (strip n) (strip m) (strip s) (strip e) v status (strip x)])%list
  /\ projects_tree (snd r) = projects_tree st
  /\ file (snd r) = file st
  /\ (in_sync st -> ~ in_sync (snd r)).
Proof.
  intros Hd Hn Hb Hrow. cbv zeta.
  rewrite (add_project_clash py_float n m s e b status x st d0 v row) by assumption.
  open_state st. unfold stored, in_sync.
  cbn [fst snd data file projects_tree set_data key_get key_set k_projects projects].
  repeat split.
  intros -> [= H]. apply (f_equal projects) in H. cbn [projects] in H.
  exact (option_snoc_not_same _ _ H).
Qed.

Lemma add_project_clash_leaves_file_behind_witness :
  let st := snd (_add_project float_of_decimal "Hall Renovation" "Dana" "2025-01-06"
                              "2025-09-30" "12000" "Planned" "New floor"
                              (first_run sum_left noon)) in
  in_sync st
  /\ ~ in_sync (snd (_add_project float_of_decimal "Hall Renovation" "Lee" "2025-03-01"
                                  EmptyString "500" "Planned" "Paint" st)).
Proof.
  cbv zeta. split; [reflexivity |].
  apply (add_project_clash_leaves_file_behind float_of_decimal
           "Hall Renovation" "Lee" "2025-03-01" EmptyString "500" "Planned" "Paint"
           (snd (_add_project float_of_decimal "Hall Renovation" "Dana" "2025-01-06"
                              "2025-09-30" "12000" "Planned" "New floor"
                              (first_run sum_left noon)))
           (mkStore (Some []) (Some []) (Some [hall "Planned"]) (Some []))
           500%float (project_values (hall "Planned")));
    reflexivity.
Defined.

(** ** Closing and starting again *)



(** ** Nothing selected *)

(** X22. With no row selected in the events list [_delete_event] only
    says so and [_show_event_details] does nothing; with no row
    selected in the projects list [_update_project_status] only says so
    and [_show_project_details] does nothing.  This holds whatever
    [self.data] is. *)
Theorem nothing_selected (py_int : string -> option Z) (new_status : string)
  (st : App) :
  (tv_selection (events_tree st) = [] ->
   _delete_event py_int st
   = (Ok tt,
      set_dialogs
        (dialogs st
         ++ [showinfo "No selection" "Please choose an event to delete."])%list st)
   /\ _show_event_details py_int st = (Ok tt, st))
  /\ (tv_selection (projects_tree st) = [] ->
      _update_project_status new_status st
      = (Ok tt,
         set_dialogs
           (dialogs st ++ [showinfo "No selection" "Select a project to update."])%list
           st)
      /\ _show_project_details st = (Ok tt, st)).
Proof.
  split; intro Hsel; split.
  - now apply delete_event_no_selection.
  - unfold _show_event_details, bind, gets. now rewrite Hsel.
  - now rewrite update_project_status_no_selection.
  - unfold _show_project_details, bind, gets. now rewrite Hsel.
Qed.

Lemma nothing_selected_witness :
  _show_event_details int_of_decimal (first_run sum_left noon)
  = (Ok tt, first_run sum_left noon)
  /\ _show_project_details (first_run sum_left noon) = (Ok tt, first_run sum_left noon).
Proof.
  split.
  - apply (proj1 (nothing_selected int_of_decimal "Completed" (first_run sum_left noon))).
    reflexivity.
  - apply (proj2 (nothing_selected int_of_decimal "Completed" (first_run sum_left noon))).
    reflexivity.
Defined.

(** X23. With a row selected, [_show_project_details] returns normally,
    leaves [self.data], the file and the list alone, and shows the
    first stored project of the selected name; when no stored project
    has that name the view keeps what it showed. *)
Theorem show_project_details_first_named (st : App) (d0 : Store) (iid : string)
  (rest : list string) :
  data st = PyDict d0 ->
  tv_selection (projects_tree st) = iid :: rest ->
  let r := _show_project_details st in
  fst r = Ok tt
  /\ data (snd r) = data st
  /\ file (snd r) = file st
  /\ projects_tree (snd r) = projects_tree st
  /\ (forall before p after,
         collection (projects d0) = (before ++ p :: after)%list ->
         name p = iid ->
         (forall q, In q before -> name q <> iid) ->
         project_details (snd r) = Some p)
  /\ ((forall q, In q (collection (projects d0)) -> name q <> iid) ->
      project_details (snd r) = project_details st).
Proof.
  intros Hd Hsel. cbv zeta.
  assert (_show_project_details st
          = (Ok tt,
             match first_named iid (collection (projects d0)) with
             | Some p => set_project_details (Some p) st
             | None => st
             end)) as ->.
  { unfold _show_project_details, bind, gets, data_get. rewrite Hsel, Hd.
    cbn [key_get k_projects].
    destruct (first_named iid (collection (projects d0))); reflexivity. }
  cbn [fst snd].
  split; [reflexivity |].
  split; [destruct (first_named _ _); now destruct st |].
  split; [destruct (first_named _ _); now destruct st |].
  split; [destruct (first_named _ _); now destruct st |].
  split.
  - intros before p after E Hp Hb. rewrite E. unfold first_named.
    rewrite (find_first _ before after p).
    + now destruct st.
    + now apply String.eqb_eq.
    + intros q Hq. apply String.eqb_neq. now apply Hb.
  - intro Hnone. unfold first_named. rewrite find_nowhere; [reflexivity |].
    intros q Hq. apply String.eqb_neq. now apply Hnone.
Qed.

Lemma show_project_details_first_named_witness :
  project_details (snd (_show_project_details two_halls)) = Some (hall "Planned").
Proof.
  refine (proj1 (proj2 (proj2 (proj2 (proj2
    (show_project_details_first_named two_halls
       (mkStore (Some []) (Some []) (Some [hall "Planned"; hall_twin]) (Some []))
       "Hall Renovation" [] eq_refl eq_refl)))))
    [] (hall "Planned") [hall_twin] eq_refl eq_refl _).
  intros q [].
Defined.

(** ** Where the data lives *)



(** ** Start-up on a file that holds no dictionary *)

(** X25. Without a file [__init__] returns normally with four empty
    collections, empty lists and no dialog, and writes no file; on a
    file that is no JSON it does the same after the one warning, and
    leaves the file as it is; on a file that is no UTF-8 it raises
    [UnicodeDecodeError]; and on a file that holds a JSON value other
    than an object it raises [AttributeError] at the first
    [self.data.get]. *)
Theorem init_without_dictionary (py_sum : list float -> float)
  (clock : nat -> string) :
  __init__ py_sum clock (boot None)
  = (Ok tt, set_file None (rendered py_sum clock empty_store))
  /\ __init__ py_sum clock (boot (Some NotJson))
     = (Ok tt,
        set_dialogs [corrupted_warning]
          (set_file (Some NotJson) (rendered py_sum clock empty_store)))
  /\ fst (__init__ py_sum clock (boot (Some NotUtf8))) = Raise UnicodeDecodeError
  /\ forall o,
       fst (__init__ py_sum clock (boot (Some (JsonText (PyOther o)))))
       = Raise AttributeError.
Proof.
  split; [reflexivity |]. split; [reflexivity |]. split; [reflexivity |].
  intro o. reflexivity.
Qed.

(** ** A row whose title reads as a number *)

Lemma filter_all {A : Type} (p : A -> bool) (l : list A) :
  (forall x, In x l -> p x = true) -> filter p l = l.
Proof.
  intro H. induction l as [| x l IH]; cbn [filter]; [reflexivity |].
  rewrite (H x) by now left. f_equal. apply IH. intros y Hy. apply H. now right.
Qed.

(** X26. When the date or the title of the selected row comes back
    from the list as an integer, [_delete_event] returns normally
    having deleted the row and no event: the stored events are all
    there, the row is gone, and the file is written with the events
    still in it. *)
Theorem delete_event_numeric_removes_nothing (py_int : string -> option Z)
  (st : App) (d0 : Store) (evs : list Event) (iid : string) (rest : list string)
  (dt tl : string) (z : Z) :
  data st = PyDict d0 ->
  events d0 = Some evs ->
  tv_selection (events_tree st) = iid :: rest ->
  tv_item iid (events_tree st) = Some (dt, tl) ->
  py_int dt = Some z \/ py_int tl = Some z ->
  let r := _delete_event py_int st in
  fst r = Ok tt
  /\ stored k_events (snd r) = evs
  /\ tv_item iid (events_tree (snd r)) = None
  /\ in_sync (snd r).
Proof.
  intros Hd Hev Hsel Hrow Hint. cbv zeta.
  rewrite (delete_event_selected py_int st d0 evs iid rest (dt, tl)) by assumption.
  open_state st. unfold stored, in_sync.
  cbn [fst snd data file events_tree set_file set_event_details set_data
       set_events_tree key_get key_set k_events events collection].
  split; [reflexivity |].
  split.
  - apply filter_all. intros e _.
    unfold event_matches, read_back, _convert_stringval. cbn [fst snd].
    destruct Hint as [-> | ->]; cbn [py_eq]; [reflexivity |].
    now rewrite Bool.andb_false_r.
  - split; [apply tv_item_delete_same | reflexivity].
Qed.

Lemma delete_event_numeric_removes_nothing_witness :
  let st1 := snd (_add_event "2025" "2025-04-20" "Budget meeting"
                             (first_run sum_left noon)) in
  let st2 := snd (select_event int_of_decimal "20252025-04-20" st1) in
  stored k_events (snd (_delete_event int_of_decimal st2))
  = [mkEvent "2025" "2025-04-20" "Budget meeting"]
  /\ tv_item "20252025-04-20" (events_tree (snd (_delete_event int_of_decimal st2)))
     = None.
Proof.
  cbv zeta.
  pose proof (delete_event_numeric_removes_nothing int_of_decimal
                (snd (select_event int_of_decimal "20252025-04-20"
                        (snd (_add_event "2025" "2025-04-20" "Budget meeting"
                                         (first_run sum_left noon)))))
                (mkStore (Some [mkEvent "2025" "2025-04-20" "Budget meeting"])
                         (Some []) (Some []) (Some []))
                [mkEvent "2025" "2025-04-20" "Budget meeting"]
                "20252025-04-20" [] "2025-04-20" "2025" 2025%Z
                eq_refl eq_refl eq_refl eq_refl (or_intror eq_refl)) as H.
  cbv zeta in H. split; apply H.
Defined.

(** ** Entering a record and looking at it *)

Lemma select_event_shows (py_int : string -> option Z) (iid : string) (st : App)
  (row : event_row) :
  tv_item iid (events_tree st) = Some row ->
  select_event py_int iid st
  = _show_event_details py_int
      (set_events_tree (mkTreeview (tv_rows (events_tree st)) [iid]) st).
Proof.
  intro Hrow. unfold select_event, bind, gets, modify. rewrite Hrow.
  unfold tv_select. now rewrite Hrow.
Qed.

(** X27. An event entered under a title and date that no stored event
    has, and whose identifier is free, can be looked at right away:
    [_add_event] followed by a click on the new row returns normally
    with that row selected and the detail view showing the title, date
    and description as they were stored. *)
Theorem add_event_then_select_shows_it (py_int : string -> option Z)
  (t d x : string) (st : App) (d0 : Store) ymd :
  data st = PyDict d0 ->
  falsy (strip t) = false ->
  falsy (strip d) = false ->
  strptime (strip d) = Some ymd ->
  tv_item (strip t ++ strip d) (events_tree st) = None ->
  py_int (strip d) = None ->
  py_int (strip t) = None ->
  (forall e, In e (collection (events d0)) -> ~ has_key (strip t) (strip d) e) ->
  let r := select_event py_int (strip t ++ strip d) (snd (_add_event t d x st)) in
  fst r = Ok tt
  /\ tv_selection (events_tree (snd r)) = [strip t ++ strip d]
  /\ event_details (snd r) = event_text (mkEvent (strip t) (strip d) (strip x)).
Proof.
  intros Hd Ht Hdt Hp Hrow Hid Hit Hnew. cbv zeta.
  rewrite (add_event_accepted t d x st d0 ymd) by assumption. cbn [snd].
  open_state st.
  erewrite select_event_shows
    by (cbn [events_tree set_file set_events_tree set_data];
        apply tv_item_insert; exact Hrow).
  erewrite show_event_details_selected;
    [ | reflexivity | reflexivity
      | cbn [events_tree set_file set_events_tree set_data tv_rows];
        apply tv_item_insert; exact Hrow ].
  rewrite (read_back_text py_int _ _ Hid Hit).
  cbn [key_set k_events events collection].
  rewrite (find_first _ (collection (events d0)) []
             (mkEvent (strip t) (strip d) (strip x))).
  - cbn [fst snd]. repeat split.
  - apply event_matches_text. split; reflexivity.
  - intros e He. apply event_matches_text_false. now apply Hnew.
Qed.

Lemma add_event_then_select_shows_it_witness :
  event_details
    (snd (select_event int_of_decimal "Church Picnic2025-05-11"
            (snd (_add_event " Church Picnic " "2025-05-11" "Bring a dish"
                             (snd (_add_event "Easter Service" "2025-04-20"
                                              "Celebration"
                                              (first_run sum_left noon)))))))
  = event_text picnic.
Proof.
  refine (proj2 (proj2
    (add_event_then_select_shows_it int_of_decimal
       " Church Picnic " "2025-05-11" "Bring a dish"
       (snd (_add_event "Easter Service" "2025-04-20" "Celebration"
                        (first_run sum_left noon)))
       (mkStore (Some [easter]) (Some []) (Some []) (Some []))
       (2025, 5, 11)%Z eq_refl eq_refl eq_refl eq_refl eq_refl eq_refl eq_refl _))).
  intros e [<- | []] [H _]. discriminate H.
Defined.

Lemma select_project_shows (iid : string) (st : App) (d0 : Store) (row : project_row) :
  data st = PyDict d0 ->
  tv_item iid (projects_tree st) = Some row ->
  let st1 := set_projects_tree (mkTreeview (tv_rows (projects_tree st)) [iid]) st in
  select_project iid st
  = (Ok tt,
     match first_named iid (collection (projects d0)) with
     | Some p => set_project_details (Some p) st1
     | None => st1
     end).
Proof.
  intros Hd Hrow. open_state st.
  unfold select_project, bind, gets, modify. cbn [projects_tree]. rewrite Hrow.
  cbn [projects_tree]. unfold tv_select. rewrite Hrow.
  unfold _show_project_details, bind, gets, data_get.
  cbn [projects_tree set_projects_tree tv_selection data key_get k_projects].
  destruct (first_named iid (collection (projects d0))); reflexivity.
Qed.

(** X28. A project entered under a name that no stored project has,
    and that is not in the list, can be looked at right away:
    [_add_project] followed by a click on the new row returns normally
    with that row selected and the detail view showing the project as
    it was stored. *)
Theorem add_project_then_select_shows_it (py_float : string -> option float)
  (n m s e b status x : string) (st : App) (d0 : Store) (v : float) :
  data st = PyDict d0 ->
  falsy (strip n) = false ->
  py_float (str_or (strip b) "0") = Some v ->
  tv_item (strip n) (projects_tree st) = None ->
  (forall q, In q (collection (projects d0)) -> name q <> strip n) ->
  let r := select_project (strip n)
             (snd (_add_project py_float n m s e b status x st)) in
  fst r = Ok tt
  /\ tv_selection (projects_tree (snd r)) = [strip n]
  /\ project_details (snd r)
     = Some (mkProject (strip n) (strip m) (strip s) (strip e) v status (strip x)).
Proof.
  intros Hd Hn Hb Hrow Hnew. cbv zeta.
  rewrite (add_project_fresh py_float n m s e b status x st d0 v) by assumption.
  cbn [snd]. open_state st.
  erewrite select_project_shows;
    [ | reflexivity
      | cbn [projects_tree set_file set_projects_tree set_data];
        apply tv_item_insert; exact Hrow ].
  cbn [key_set k_projects projects collection]. unfold first_named.
  rewrite (find_first _ (collection (projects d0)) []).
  - cbn [fst snd]. repeat split.
  - cbn [name]. apply String.eqb_refl.
  - intros q Hq. apply String.eqb_neq. now apply Hnew.
Qed.

Lemma add_project_then_select_shows_it_witness :
  project_details
    (snd (select_project "Hall Renovation"
            (snd (_add_project float_of_decimal " Hall Renovation" "Dana" "2025-01-06"
                               "2025-09-30" "12000" "Planned" "New floor"
                               (first_run sum_left noon)))))
  = Some (hall "Planned").
Proof.
  refine (proj2 (proj2
    (add_project_then_select_shows_it float_of_decimal
       " Hall Renovation" "Dana" "2025-01-06" "2025-09-30" "12000" "Planned"
       "New floor" (first_run sum_left noon) empty_store 12000%float
       eq_refl eq_refl eq_refl eq_refl _))).
  intros q [].
Defined.
